(** * MCP status reporter and workflow integration tester: a shallow
      embedding of [scripts/test-mcp-workflow-integration.js] (classes
      [MCPStatusReporter] and [MCPWorkflowTester])

    The reporter keeps one mutable object, [this.results], and talks to the
    outside world (file system, child processes, the MCP manager module, the
    clock).  Both are threaded explicitly: a computation of the reporter is a
    function from the reporter object and the state of the world to an
    outcome (a value, or a thrown exception), the new reporter object and the
    new world.  Mutations made before an exception is thrown are kept, as in
    JavaScript.  The tester, with its object [this.testResults], is embedded
    the same way in the module [WorkflowTester]. *)

From Stdlib Require Import ZArith Lia Bool Ascii String.
From Stdlib Require Import Floats.SpecFloat.
From stdpp Require Import gmap strings list fin_maps pretty.

Local Open Scope string_scope.
Local Open Scope Z_scope.

Set Warnings "-register-all".

(** ** JavaScript outcomes *)

Inductive Outcome (A : Type) : Type :=
| Returned (value : A)
| Thrown (message : string).
Arguments Returned {A} value.
Arguments Thrown {A} message.

Definition returned {A} (o : Outcome A) : bool :=
  match o with Returned _ => true | Thrown _ => false end.

(** ** JavaScript numbers

    Counters and millisecond differences are integers far below [2^53]; they
    are kept as [Z].  The one place where the script leaves the integers is
    [Math.round((healthy / total) * 100)]: the quotient and the product are
    IEEE-754 binary64 operations, taken here from the standard library's
    executable specification of binary64 ([SpecFloat]). *)

Module Number.

Definition prec : Z := 53.
Definition emax : Z := 1024.

(** An integer as a double (exact below [2^53]). *)
Definition of_Z (z : Z) : spec_float := binary_normalize prec emax z 0 false.

Definition div : spec_float → spec_float → spec_float := SFdiv prec emax.
Definition mul : spec_float → spec_float → spec_float := SFmul prec emax.


(** [Math.round]: the nearest integer, halves going up, that is
    [floor (x + 1/2)] computed exactly.  On a finite double the result is an
    integer, returned as [Z]; [Math.round] of [NaN] or of an infinity is
    not an integer and is given the value [0] here (the reporter only
    rounds finite doubles). *)
Definition round (x : spec_float) : Z :=
  match x with
  | S754_finite s m e =>
      let sm := if s then Z.neg m else Z.pos m in
      if 0 <=? e then sm * 2 ^ e
      else (2 * sm + 2 ^ (- e)) `div` 2 ^ (1 - e)
  | _ => 0
  end.

End Number.

(** ** The data of a report *)

(** A server entry of the registry returned by [mcpManager.readServers()].
    Only [port] and [healthPath] are read by the status collection; [command]
    and [args] are printed by the markdown report. *)
Record ServerConfig : Type := {
  command : option string;
  args : option (list string);
  port : option Z;
  healthPath : option string;
}.

Record ServerResult : Type := {
  name : string;
  config : ServerConfig;
  status : string;
  response_time : Z;
  error_message : option string;
  last_check : string;
}.

Record Summary : Type := {
  overall_status : string;
  health_score : Z;
  total_servers : Z;
  healthy_servers : Z;
  failed_servers : Z;
  warnings : Z;
}.

Record Recommendation : Type := {
  priority : string;
  category : string;
  message : string;
  action : string;
}.

Record SystemInfo : Type := {
  node_version : string;
  npm_version : string;
  python_version : string;
  uptime_seconds : spec_float;
  memory_usage_mb : Z;
  platform : string;
  architecture : string;
}.

Record WorkflowResults : Type := {
  total_workflows : Z;
  mcp_workflows : Z;
  workflow_files : list string;
  workflows_status : string;
  required_workflows : list (string * bool);
}.

Record PackageResults : Type := {
  package_name : option string;
  package_version : option string;
  total_dependencies : Z;
  mcp_dependencies : Z;
  mcp_dependency_list : list string;
  mcp_scripts : Z;
  mcp_script_list : list string;
  last_modified : string;
}.

Record MemoryUsage : Type := {
  rss_mb : Z;
  heap_used_mb : Z;
  heap_total_mb : Z;
  external_mb : Z;
}.

Record PerformanceResults : Type := {
  config_load_time_ms : Z;
  memory_usage : MemoryUsage;
  cpu_usage_percent : Z * Z;
  performance_timestamp : string;
  config_performance : string;
}.

(** A property of [this.results.components] holds either the collected data
    or, when the collection threw, the object [{ error: error.message }]. *)
Inductive Component (A : Type) : Type :=
| Collected (data : A)
| Failed (error : string).
Arguments Collected {A} data.
Arguments Failed {A} error.

(** [this.results.components]; [None] is a property that was never set. *)
Record Components : Type := {
  mcp_servers : option (Component (gmap string ServerResult));
  workflows : option (Component WorkflowResults);
  packages : option (Component PackageResults);
  performance : option (Component PerformanceResults);
}.

Record Results : Type := {
  timestamp : string;
  summary : Summary;
  components : Components;
  recommendations : list Recommendation;
  artifacts : list string;
  system_info : option SystemInfo;
}.

Record Reporter : Type := {
  reportDir : string;
  this_timestamp : string;
  results : Results;
  timestampDir : option string;
}.

(** Field updates ([this.results.summary.x = v] and the like). *)

Definition set_overall_status (v : string) (s : Summary) : Summary :=
  {| overall_status := v; health_score := health_score s;
     total_servers := total_servers s; healthy_servers := healthy_servers s;
     failed_servers := failed_servers s; warnings := warnings s |}.

Definition set_health_score (v : Z) (s : Summary) : Summary :=
  {| overall_status := overall_status s; health_score := v;
     total_servers := total_servers s; healthy_servers := healthy_servers s;
     failed_servers := failed_servers s; warnings := warnings s |}.

Definition set_total_servers (v : Z) (s : Summary) : Summary :=
  {| overall_status := overall_status s; health_score := health_score s;
     total_servers := v; healthy_servers := healthy_servers s;
     failed_servers := failed_servers s; warnings := warnings s |}.

Definition incr_healthy_servers (s : Summary) : Summary :=
  {| overall_status := overall_status s; health_score := health_score s;
     total_servers := total_servers s; healthy_servers := healthy_servers s + 1;
     failed_servers := failed_servers s; warnings := warnings s |}.

Definition incr_failed_servers (s : Summary) : Summary :=
  {| overall_status := overall_status s; health_score := health_score s;
     total_servers := total_servers s; healthy_servers := healthy_servers s;
     failed_servers := failed_servers s + 1; warnings := warnings s |}.

Definition incr_warnings (s : Summary) : Summary :=
  {| overall_status := overall_status s; health_score := health_score s;
     total_servers := total_servers s; healthy_servers := healthy_servers s;
     failed_servers := failed_servers s; warnings := warnings s + 1 |}.

Definition with_summary (f : Summary → Summary) (r : Results) : Results :=
  {| timestamp := timestamp r; summary := f (summary r);
     components := components r; recommendations := recommendations r;
     artifacts := artifacts r; system_info := system_info r |}.

Definition with_components (f : Components → Components) (r : Results) : Results :=
  {| timestamp := timestamp r; summary := summary r;
     components := f (components r); recommendations := recommendations r;
     artifacts := artifacts r; system_info := system_info r |}.

Definition set_recommendations (v : list Recommendation) (r : Results) : Results :=
  {| timestamp := timestamp r; summary := summary r;
     components := components r; recommendations := v;
     artifacts := artifacts r; system_info := system_info r |}.

Definition set_artifacts (v : list string) (r : Results) : Results :=
  {| timestamp := timestamp r; summary := summary r;
     components := components r; recommendations := recommendations r;
     artifacts := v; system_info := system_info r |}.

Definition set_system_info (v : SystemInfo) (r : Results) : Results :=
  {| timestamp := timestamp r; summary := summary r;
     components := components r; recommendations := recommendations r;
     artifacts := artifacts r; system_info := Some v |}.

Definition set_mcp_servers (v : Component (gmap string ServerResult))
    (c : Components) : Components :=
  {| mcp_servers := Some v; workflows := workflows c;
     packages := packages c; performance := performance c |}.

Definition set_workflows (v : Component WorkflowResults) (c : Components) : Components :=
  {| mcp_servers := mcp_servers c; workflows := Some v;
     packages := packages c; performance := performance c |}.

Definition set_packages (v : Component PackageResults) (c : Components) : Components :=
  {| mcp_servers := mcp_servers c; workflows := workflows c;
     packages := Some v; performance := performance c |}.

Definition set_performance (v : Component PerformanceResults) (c : Components) : Components :=
  {| mcp_servers := mcp_servers c; workflows := workflows c;
     packages := packages c; performance := Some v |}.

Definition with_results (f : Results → Results) (t : Reporter) : Reporter :=
  {| reportDir := reportDir t; this_timestamp := this_timestamp t;
     results := f (results t); timestampDir := timestampDir t |}.

Definition set_timestampDir (d : string) (t : Reporter) : Reporter :=
  {| reportDir := reportDir t; this_timestamp := this_timestamp t;
     results := results t; timestampDir := Some d |}.

(** [new MCPStatusReporter()], given the value of [new Date().toISOString()]. *)
Definition constructor (now : string) : Reporter :=
  {| reportDir := "reports/mcp-status";
     this_timestamp := now;
     results :=
       {| timestamp := now;
          summary := {| overall_status := "unknown"; health_score := 0;
                        total_servers := 0; healthy_servers := 0;
                        failed_servers := 0; warnings := 0 |};
          components := {| mcp_servers := None; workflows := None;
                           packages := None; performance := None |};
          recommendations := [];
          artifacts := [];
          system_info := None |};
     timestampDir := None |}.

(** ** JavaScript values of dynamic shape

    Used where the script inspects an object whose shape depends on the run:
    a property of [this.results.components] is the collected data or the
    object [{ error: message }], and the markdown report reads both the same
    way. *)

Inductive JsVal : Type :=
| JsUndefined
| JsNull
| JsBool (b : bool)
| JsNum (z : Z)
| JsStr (s : string)
| JsArr (items : list JsVal)
| JsObj (props : list (string * JsVal)).

(** The first value under the key [k]. *)
Fixpoint assoc {A} (k : string) (l : list (string * A)) : option A :=
  match l with
  | [] => None
  | (k', v) :: l' => if String.eqb k k' then Some v else assoc k l'
  end.

(** [v.p]: reading a property of [undefined] or [null] throws a [TypeError];
    a missing property, and any property of a primitive other than those of
    its prototype, reads as [undefined]. *)
Definition getProp (v : JsVal) (p : string) : Outcome JsVal :=
  match v with
  | JsUndefined =>
      Thrown ("Cannot read properties of undefined (reading '" +:+ p +:+ "')")
  | JsNull =>
      Thrown ("Cannot read properties of null (reading '" +:+ p +:+ "')")
  | JsObj props => Returned (default JsUndefined (assoc p props))
  | _ => Returned JsUndefined
  end.

(** What is handed to [fs.writeFile]: the text of a report, or
    [JSON.stringify(this.results, null, 2)], kept as the value of
    [this.results] that it serialises. *)
Inductive Content : Type :=
| JsonText (document : Results)
| PlainText (text : string).

(** ** The host: everything the reporter reaches outside its own object *)

Record ProcessInfo : Type := {
  process_version : string;
  process_uptime : spec_float;
  memoryUsage_rss : Z;
  memoryUsage_heapUsed : Z;
  memoryUsage_heapTotal : Z;
  memoryUsage_external : Z;
  cpuUsage : Z * Z;
  process_platform : string;
  process_arch : string;
}.

(** [JSON.parse] of [package.json]: the keys of the three objects read. *)
Record PackageData : Type := {
  pkg_name : option string;
  pkg_version : option string;
  pkg_dependencies : option (list string);
  pkg_devDependencies : option (list string);
  pkg_scripts : option (list string);
}.

Class Host (W : Type) : Type := {
  fs_mkdir : string → W → Outcome unit * W;
  fs_writeFile : string → Content → W → Outcome unit * W;
  fs_copyFile : string → string → W → Outcome unit * W;
  fs_readdir : string → W → Outcome (list string) * W;
  (** [JSON.parse(await fs.readFile('package.json', 'utf8'))] *)
  fs_readPackageJson : W → Outcome PackageData * W;
  (** [(await fs.stat(path)).mtime.toISOString()] *)
  fs_stat_mtime : string → W → Outcome string * W;
  (** [(await execAsync(cmd)).stdout] *)
  execAsync : string → W → Outcome string * W;
  process : W → ProcessInfo;
  process_env_MCP_PORT : W → option string;
  Date_now : W → Z * W;
  Date_toISOString : W → string * W;
  (** [require('./mcp-manager.js').readServers()]; a failing [require]
      throws at the same place.  The registry object is a finite map from
      server names, taken as ordinary property keys, to entries;
      [Object.entries] enumerates it as [map_to_list] does. *)
  mcpManager_readServers : W → Outcome (gmap string ServerConfig) * W;
  mcpManager_probeHealth : string → Z → Z → W → Outcome bool * W;
}.

(** ** The monad of reporter methods *)

Definition Js (W A : Type) : Type := Reporter → W → Outcome A * Reporter * W.

Definition ret {W A} (a : A) : Js W A := λ t w, (Returned a, t, w).

Definition throw {W A} (msg : string) : Js W A := λ t w, (Thrown msg, t, w).

Definition bind {W A B} (m : Js W A) (k : A → Js W B) : Js W B :=
  λ t w,
    match m t w with
    | (Returned a, t', w') => k a t' w'
    | (Thrown msg, t', w') => (Thrown msg, t', w')
    end.

(** [try { body } catch (error) { handler(error.message) }] *)
Definition try_catch {W A} (body : Js W A) (handler : string → Js W A) : Js W A :=
  λ t w,
    match body t w with
    | (Returned a, t', w') => (Returned a, t', w')
    | (Thrown msg, t', w') => handler msg t' w'
    end.

Notation "'let*' x := m 'in' k" := (bind m (λ x, k))
  (at level 10, x pattern, m at level 100, k at level 200).
Notation "m >>> k" := (bind m (λ _, k))
  (at level 100, k at level 200, right associativity).

(** A call into the host that may throw, one that cannot, and a read. *)
Definition call {W A} (f : W → Outcome A * W) : Js W A :=
  λ t w, let '(o, w') := f w in (o, t, w').

Definition call_total {W A} (f : W → A * W) : Js W A :=
  λ t w, let '(a, w') := f w in (Returned a, t, w').

Definition ask {W A} (f : W → A) : Js W A := λ t w, (Returned (f w), t, w).

(** Reads and writes of [this]. *)
Definition this {W} : Js W Reporter := λ t w, (Returned t, t, w).

Definition assign {W} (f : Reporter → Reporter) : Js W unit :=
  λ t w, (Returned tt, f t, w).

Definition assign_results {W} (f : Results → Results) : Js W unit :=
  assign (with_results f).

Definition assign_summary {W} (f : Summary → Summary) : Js W unit :=
  assign_results (with_summary f).

Definition assign_components {W} (f : Components → Components) : Js W unit :=
  assign_results (with_components f).

(** [for (const x of xs) { acc = body(x, acc) }], [acc] standing for the
    local variables the loop body updates. *)
Fixpoint for_of {W X S} (xs : list X) (body : X → S → Js W S) (acc : S) : Js W S :=
  match xs with
  | [] => ret acc
  | x :: xs' => let* acc' := body x acc in for_of xs' body acc'
  end.

(** ** Strings *)

(** [a || b] on strings: the empty string is falsy. *)
Definition str_or (a : option string) (b : string) : string :=
  match a with
  | Some s => if String.eqb s "" then b else s
  | None => b
  end.

(** [path.join(a, b)] for the relative, already normal paths of the script. *)
Definition path_join (a b : string) : string := a +:+ "/" +:+ b.

(** [s.split('T')[0]] *)
Fixpoint before_T (s : string) : string :=
  match s with
  | EmptyString => EmptyString
  | String c s' => if Ascii.eqb c "T"%char then EmptyString else String c (before_T s')
  end.

(** [s.startsWith(p)] *)
Fixpoint starts_with (p s : string) : bool :=
  match p, s with
  | EmptyString, _ => true
  | String a p', String b s' => Ascii.eqb a b && starts_with p' s'
  | String _ _, EmptyString => false
  end.

(** [s.includes(p)] *)
Fixpoint includes (s p : string) : bool :=
  starts_with p s ||
  match s with
  | EmptyString => false
  | String _ s' => includes s' p
  end.

(** [s.toUpperCase()] on the ASCII letters. *)
Definition upper_char (c : ascii) : ascii :=
  let n := Ascii.nat_of_ascii c in
  if ((97 <=? n) && (n <=? 122))%nat then Ascii.ascii_of_nat (n - 32) else c.

Fixpoint toUpperCase (s : string) : string :=
  match s with
  | EmptyString => EmptyString
  | String c s' => String (upper_char c) (toUpperCase s')
  end.

(** [xs.join(sep)] *)
Definition join (sep : string) (xs : list string) : string := String.concat sep xs.

(** [s.trim()]: white space removed at both ends. *)
Definition is_space (c : ascii) : bool :=
  let n := Ascii.nat_of_ascii c in
  ((n =? 32) || ((9 <=? n) && (n <=? 13)))%nat.

Fixpoint trim_start (s : string) : string :=
  match s with
  | String c s' => if is_space c then trim_start s' else s
  | EmptyString => EmptyString
  end.

Fixpoint trim_end (s : string) : string :=
  match s with
  | EmptyString => EmptyString
  | String c s' =>
      match trim_end s' with
      | EmptyString => if is_space c then EmptyString else String c EmptyString
      | rest => String c rest
      end
  end.

Definition trim (s : string) : string := trim_end (trim_start s).

(** [Math.round(bytes / 1024 / 1024)] *)
Definition to_mb (bytes : Z) : Z :=
  Number.round (Number.div (Number.div (Number.of_Z bytes) (Number.of_Z 1024))
                           (Number.of_Z 1024)).

(** ** The methods of [MCPStatusReporter] *)

Section Methods.

Context {W : Type} `{Host W}.

Definition initialize : Js W unit :=
  let* t := this in
  call (fs_mkdir (reportDir t)) >>>
  let timestampDir := path_join (reportDir t) (before_T (this_timestamp t)) in
  call (fs_mkdir timestampDir) >>>
  assign (set_timestampDir timestampDir).

Definition collectSystemInfo : Js W unit :=
  try_catch
    (let* proc := ask process in
     let nodeVersion := process_version proc in
     let* npmVersion := call (execAsync "npm --version") in
     let* pythonVersion :=
       try_catch
         (let* stdout := call (execAsync "python3 --version") in ret (trim stdout))
         (λ _, ret "Not available") in
     let* proc' := ask process in
     assign_results (set_system_info
       {| node_version := nodeVersion;
          npm_version := trim npmVersion;
          python_version := pythonVersion;
          uptime_seconds := process_uptime proc';
          memory_usage_mb := to_mb (memoryUsage_rss proc');
          platform := process_platform proc';
          architecture := process_arch proc' |}))
    (λ _, assign_summary incr_warnings).

(** The probe URL of a server:
    [config.port || process.env.MCP_PORT || 3001], then
    [`http://localhost:${port}${config.healthPath || '/health'}`]. *)
Definition probe_port (cfg : ServerConfig) (env_port : option string) : string :=
  match port cfg with
  | Some p => if p =? 0 then str_or env_port "3001" else pretty p
  | None => str_or env_port "3001"
  end.

Definition probe_url (cfg : ServerConfig) (env_port : option string) : string :=
  "http://localhost:" +:+ probe_port cfg env_port +:+ str_or (healthPath cfg) "/health".

(** [object[name] = value] on an object created by [{}], held as the map of
    its own properties.  Under the name [__proto__] the assignment runs the
    setter that the object inherits from [Object.prototype]: it makes [value]
    (an object, where this is used) the prototype of the object and adds no
    own property.  The readers of the object, [Object.entries] and
    [JSON.stringify], see own properties only. *)
Definition set_property {A : Type} (name : string) (value : A)
    (object : gmap string A) : gmap string A :=
  if String.eqb name "__proto__" then object else <[name := value]> object.

(** The body of the loop over [Object.entries(servers)]. *)
Definition testServer (entry : string * ServerConfig)
    (serverResults : gmap string ServerResult) : Js W (gmap string ServerResult) :=
  let '(name, config) := entry in
  let* last_check := call_total Date_toISOString in
  let serverResult :=
    {| name := name; config := config; status := "unknown";
       response_time := 0; error_message := None; last_check := last_check |} in
  let* serverResult :=
    try_catch
      (let* startTime := call_total Date_now in
       let* env_port := ask process_env_MCP_PORT in
       let url := probe_url config env_port in
       let* isHealthy := call (mcpManager_probeHealth url 5000 500) in
       let* endTime := call_total Date_now in
       if isHealthy : bool then
         assign_summary incr_healthy_servers >>>
         ret {| name := name; config := config; status := "healthy";
                response_time := endTime - startTime; error_message := None;
                last_check := last_check |}
       else
         assign_summary incr_failed_servers >>>
         ret {| name := name; config := config; status := "unhealthy";
                response_time := endTime - startTime;
                error_message := Some "Health check failed";
                last_check := last_check |})
      (λ error_message,
         assign_summary incr_failed_servers >>>
         ret {| name := name; config := config; status := "error";
                response_time := 0; error_message := Some error_message;
                last_check := last_check |}) in
  ret (set_property name serverResult serverResults).

(** [Math.round((healthy_servers / total_servers) * 100)] *)
Definition health_ratio (healthy total : Z) : spec_float :=
  Number.mul (Number.div (Number.of_Z healthy) (Number.of_Z total)) (Number.of_Z 100).

Definition compute_health_score (s : Summary) : Summary :=
  if 0 <? total_servers s
  then set_health_score
         (Number.round (health_ratio (healthy_servers s) (total_servers s))) s
  else s.

Definition collectMCPServerStatus : Js W unit :=
  try_catch
    (let* servers := call mcpManager_readServers in
     assign_summary (set_total_servers (Z.of_nat (size servers))) >>>
     let* serverResults := for_of (map_to_list servers) testServer ∅ in
     assign_components (set_mcp_servers (Collected serverResults)) >>>
     assign_summary compute_health_score)
    (λ error_message,
       assign_components (set_mcp_servers (Failed error_message)) >>>
       assign_summary incr_warnings).

Definition is_mcp_workflow (f : string) : bool :=
  includes f "mcp" || includes f "validation" || includes f "automation".

Definition requiredWorkflows : list string :=
  ["mcp-validation.yml"; "mcp-validation-gateway.yml"; "mcp-scheduled-discovery.yml"].

Definition list_includes (xs : list string) (x : string) : bool :=
  existsb (String.eqb x) xs.

Definition collectWorkflowStatus : Js W unit :=
  try_catch
    (let* files := call (fs_readdir ".github/workflows") in
     let mcpWorkflows := filter (λ f, is_mcp_workflow f = true) files in
     assign_components (set_workflows (Collected
       {| total_workflows := Z.of_nat (length files);
          mcp_workflows := Z.of_nat (length mcpWorkflows);
          workflow_files := mcpWorkflows;
          workflows_status := "active";
          required_workflows :=
            (λ workflow, (workflow, list_includes files workflow)) <$> requiredWorkflows |})))
    (λ error_message,
       assign_components (set_workflows (Failed error_message)) >>>
       assign_summary incr_warnings).

(** The keys of [{ ...a, ...b }]. *)
Definition spread_keys (a b : list string) : list string :=
  a ++ filter (λ k, list_includes a k = false) b.

Definition is_mcp_dependency (dep : string) : bool :=
  includes dep "mcp" || includes dep "model-context-protocol"
  || includes dep "@modelcontextprotocol".

Definition is_mcp_script (script : string) : bool :=
  includes script "mcp" || includes script "MCP".

Definition collectPackageStatus : Js W unit :=
  try_catch
    (let* packageData := call fs_readPackageJson in
     let allDeps := spread_keys (default [] (pkg_dependencies packageData))
                                (default [] (pkg_devDependencies packageData)) in
     let mcpDeps := filter (λ d, is_mcp_dependency d = true) allDeps in
     let mcpScripts :=
       filter (λ s, is_mcp_script s = true) (default [] (pkg_scripts packageData)) in
     let* mtime := call (fs_stat_mtime "package.json") in
     assign_components (set_packages (Collected
       {| package_name := pkg_name packageData;
          package_version := pkg_version packageData;
          total_dependencies := Z.of_nat (length allDeps);
          mcp_dependencies := Z.of_nat (length mcpDeps);
          mcp_dependency_list := mcpDeps;
          mcp_scripts := Z.of_nat (length mcpScripts);
          mcp_script_list := mcpScripts;
          last_modified := mtime |})))
    (λ error_message,
       assign_components (set_packages (Failed error_message)) >>>
       assign_summary incr_warnings).

Definition collectPerformanceMetrics : Js W unit :=
  try_catch
    (let* startTime := call_total Date_now in
     let* _ := call mcpManager_readServers in
     let* endTime := call_total Date_now in
     let configLoadTime := endTime - startTime in
     let* proc := ask process in
     let* now := call_total Date_toISOString in
     let performanceResults config_performance :=
       {| config_load_time_ms := configLoadTime;
          memory_usage :=
            {| rss_mb := to_mb (memoryUsage_rss proc);
               heap_used_mb := to_mb (memoryUsage_heapUsed proc);
               heap_total_mb := to_mb (memoryUsage_heapTotal proc);
               external_mb := to_mb (memoryUsage_external proc) |};
          cpu_usage_percent := cpuUsage proc;
          performance_timestamp := now;
          config_performance := config_performance |} in
     let* config_performance :=
       if configLoadTime <? 1000 then ret "excellent"
       else if configLoadTime <? 3000 then ret "good"
       else assign_summary incr_warnings >>> ret "needs_optimization" in
     assign_components
       (set_performance (Collected (performanceResults config_performance))))
    (λ error_message,
       assign_components (set_performance (Failed error_message)) >>>
       assign_summary incr_warnings).

(** *** Recommendations *)

Definition health_recommendations (health_score : Z) : list Recommendation :=
  if health_score <? 50 then
    [ {| priority := "high"; category := "health";
         message := "Multiple MCP servers are unhealthy. Investigate server configurations and connectivity.";
         action := "Run `node scripts/mcp-manager.js health` for detailed diagnostics" |} ]
  else if health_score <? 80 then
    [ {| priority := "medium"; category := "health";
         message := "Some MCP servers need attention. Consider reviewing server configurations.";
         action := "Check individual server logs and update configurations as needed" |} ]
  else [].

Definition performance_recommendations
    (performance : option (Component PerformanceResults)) : list Recommendation :=
  match performance with
  | Some (Collected p) =>
      if String.eqb (config_performance p) "needs_optimization" then
        [ {| priority := "medium"; category := "performance";
             message := "MCP configuration loading is slow. Consider optimizing server startup.";
             action := "Review server initialization and consider caching configurations" |} ]
      else []
  | _ => []
  end.

Definition missing_workflows (required : list (string * bool)) : list string :=
  fst <$> filter (λ entry, snd entry = false) required.

Definition workflow_recommendations
    (workflows : option (Component WorkflowResults)) : list Recommendation :=
  match workflows with
  | Some (Collected w) =>
      let missingWorkflows := missing_workflows (required_workflows w) in
      if (0 <? length missingWorkflows)%nat then
        [ {| priority := "medium"; category := "workflows";
             message := "Missing required workflows: " +:+ join ", " missingWorkflows;
             action := "Ensure all MCP validation workflows are properly configured" |} ]
      else []
  | _ => []
  end.

Definition maintenance_recommendation : Recommendation :=
  {| priority := "low"; category := "maintenance";
     message := "Regular MCP system monitoring is active and healthy.";
     action := "Continue scheduled health checks and keep dependencies updated" |}.

(** The array built by [generateRecommendations], push after push. *)
Definition deriveRecommendations (r : Results) : list Recommendation :=
  health_recommendations (health_score (summary r))
  ++ performance_recommendations (performance (components r))
  ++ workflow_recommendations (workflows (components r))
  ++ [maintenance_recommendation].

Definition generateRecommendations : Js W unit :=
  let* t := this in
  assign_results (set_recommendations (deriveRecommendations (results t))).

(** *** Overall status *)

Definition classify (s : Summary) : string :=
  if healthy_servers s <? failed_servers s then "critical"
  else if health_score s <? 50 then "degraded"
  else if 3 <? warnings s then "warning"
  else if health_score s <? 80 then "partial"
  else "healthy".

Definition determineOverallStatus : Js W unit :=
  let* t := this in
  let status := classify (summary (results t)) in
  assign_summary (set_overall_status status).

End Methods.

(** ** Rendering the reports *)

Definition Outcome_bind {A B} (o : Outcome A) (k : A → Outcome B) : Outcome B :=
  match o with
  | Returned a => k a
  | Thrown msg => Thrown msg
  end.

Notation "'let?' x := m 'in' k" := (Outcome_bind m (λ x, k))
  (at level 10, x pattern, m at level 100, k at level 200).

(** [xs.map(f)] where [f] may throw. *)
Fixpoint map_throwing {A B} (f : A → Outcome B) (xs : list A) : Outcome (list B) :=
  match xs with
  | [] => Returned []
  | x :: xs' =>
      let? y := f x in
      let? ys := map_throwing f xs' in
      Returned (y :: ys)
  end.

Definition truthy (v : JsVal) : bool :=
  match v with
  | JsUndefined | JsNull => false
  | JsBool b => b
  | JsNum z => negb (z =? 0)
  | JsStr s => negb (String.eqb s "")
  | JsArr _ | JsObj _ => true
  end.

(** [`${v}`] *)
Fixpoint show (v : JsVal) : string :=
  match v with
  | JsUndefined => "undefined"
  | JsNull => "null"
  | JsBool b => if b then "true" else "false"
  | JsNum z => pretty z
  | JsStr s => s
  | JsArr items =>
      join "," ((λ item, match item with
                         | JsUndefined | JsNull => ""
                         | _ => show item
                         end) <$> items)
  | JsObj _ => "[object Object]"
  end.

Definition js_option {A} (f : A → JsVal) (o : option A) : JsVal :=
  match o with Some a => f a | None => JsUndefined end.

Definition js_config (c : ServerConfig) : JsVal :=
  JsObj [("command", js_option JsStr (command c));
         ("args", js_option (λ a, JsArr (JsStr <$> a)) (args c));
         ("port", js_option JsNum (port c));
         ("healthPath", js_option JsStr (healthPath c))].

Definition js_serverResult (r : ServerResult) : JsVal :=
  JsObj [("name", JsStr (name r));
         ("config", js_config (config r));
         ("status", JsStr (status r));
         ("response_time", JsNum (response_time r));
         ("error_message", match error_message r with
                           | Some m => JsStr m
                           | None => JsNull
                           end);
         ("last_check", JsStr (last_check r))].

Definition js_failed (error : string) : JsVal := JsObj [("error", JsStr error)].

(** [Object.entries(this.results.components.mcp_servers)] *)
Definition server_entries (c : Component (gmap string ServerResult))
    : list (string * JsVal) :=
  match c with
  | Collected serverResults =>
      (λ entry, (fst entry, js_serverResult (snd entry))) <$> map_to_list serverResults
  | Failed error => [("error", JsStr error)]
  end.

Definition js_performance (c : Component PerformanceResults) : JsVal :=
  match c with
  | Collected p =>
      JsObj [("config_load_time_ms", JsNum (config_load_time_ms p));
             ("memory_usage",
               JsObj [("rss_mb", JsNum (rss_mb (memory_usage p)));
                      ("heap_used_mb", JsNum (heap_used_mb (memory_usage p)));
                      ("heap_total_mb", JsNum (heap_total_mb (memory_usage p)));
                      ("external_mb", JsNum (external_mb (memory_usage p)))]);
             ("cpu_usage_percent",
               JsObj [("user", JsNum (fst (cpu_usage_percent p)));
                      ("system", JsNum (snd (cpu_usage_percent p)))]);
             ("timestamp", JsStr (performance_timestamp p));
             ("config_performance", JsStr (config_performance p))]
  | Failed error => js_failed error
  end.

Definition js_packages (c : Component PackageResults) : JsVal :=
  match c with
  | Collected p =>
      JsObj [("name", js_option JsStr (package_name p));
             ("version", js_option JsStr (package_version p));
             ("total_dependencies", JsNum (total_dependencies p));
             ("mcp_dependencies", JsNum (mcp_dependencies p));
             ("mcp_dependency_list", JsArr (JsStr <$> mcp_dependency_list p));
             ("mcp_scripts", JsNum (mcp_scripts p));
             ("mcp_script_list", JsArr (JsStr <$> mcp_script_list p));
             ("last_modified", JsStr (last_modified p))]
  | Failed error => js_failed error
  end.

Definition js_workflows (c : Component WorkflowResults) : JsVal :=
  match c with
  | Collected w =>
      JsObj [("total_workflows", JsNum (total_workflows w));
             ("mcp_workflows", JsNum (mcp_workflows w));
             ("workflow_files", JsArr (JsStr <$> workflow_files w));
             ("status", JsStr (workflows_status w));
             ("required_workflows",
               JsObj ((λ entry, (fst entry, JsBool (snd entry))) <$> required_workflows w))]
  | Failed error => js_failed error
  end.

Definition nl : string := String (ascii_of_nat 10) EmptyString.

Definition unlines (ls : list string) : string := join nl ls.

(** [statusEmoji[key] || '❓'] *)
Definition statusEmoji (key : JsVal) : string :=
  match key with
  | JsStr "healthy" => "✅"
  | JsStr "partial" => "⚠️"
  | JsStr "warning" => "⚠️"
  | JsStr "degraded" => "❌"
  | JsStr "critical" => "🚨"
  | _ => "❓"
  end.

(** One server of the section "MCP Server Status".  The properties are read
    in the order of the template. *)
Definition render_server (entry : string * JsVal) : Outcome string :=
  let '(name, server) := entry in
  let? status := getProp server "status" in
  let? response_time := getProp server "response_time" in
  let? config := getProp server "config" in
  let? command := getProp config "command" in
  let? config' := getProp server "config" in
  let? args := getProp config' "args" in
  let? joined_args :=
    match args with
    | JsArr items => Returned (join " " (show <$> items))
    | other => if truthy other
               then Thrown "(server.config.args || []).join is not a function"
               else Returned ""
    end in
  let? last_check := getProp server "last_check" in
  let? error_message := getProp server "error_message" in
  Returned (unlines
    [ "### " +:+ name;
      "- **Status:** " +:+ statusEmoji status +:+ " " +:+ show status;
      "- **Response Time:** " +:+ show response_time +:+ "ms";
      "- **Configuration:** " +:+ show command +:+ " " +:+ joined_args;
      "- **Last Check:** " +:+ show last_check;
      if truthy error_message then "- **Error:** " +:+ show error_message else "" ]).

Definition render_servers (c : option (Component (gmap string ServerResult)))
    : Outcome string :=
  match c with
  | Some servers =>
      let? sections := map_throwing render_server (server_entries servers) in
      Returned (join (nl +:+ nl) sections)
  | None => Returned "No server data available"
  end.

Definition render_system_info (i : option SystemInfo) : string :=
  unlines
    [ "- **Node.js Version:** " +:+ str_or (node_version <$> i) "N/A";
      "- **NPM Version:** " +:+ str_or (npm_version <$> i) "N/A";
      "- **Python Version:** " +:+ str_or (python_version <$> i) "N/A";
      "- **Memory Usage:** " +:+ pretty (default 0 (memory_usage_mb <$> i)) +:+ "MB";
      "- **Platform:** " +:+ str_or (platform <$> i) "N/A" ].

Definition render_performance (c : option (Component PerformanceResults))
    : Outcome string :=
  match c with
  | Some p =>
      let performance := js_performance p in
      let? load := getProp performance "config_load_time_ms" in
      let? memory_usage := getProp performance "memory_usage" in
      let? rss := getProp memory_usage "rss_mb" in
      let? rating := getProp performance "config_performance" in
      Returned (unlines
        [ "";
          "- **Config Load Time:** " +:+ show load +:+ "ms";
          "- **Memory Usage:** " +:+ show rss +:+ "MB RSS";
          "- **Performance Rating:** " +:+ show rating;
          "" ])
  | None => Returned "Performance data not available"
  end.

Definition render_packages (c : option (Component PackageResults)) : Outcome string :=
  match c with
  | Some p =>
      let packages := js_packages p in
      let? name := getProp packages "name" in
      let? version := getProp packages "version" in
      let? total := getProp packages "total_dependencies" in
      let? deps := getProp packages "mcp_dependencies" in
      let? scripts := getProp packages "mcp_scripts" in
      Returned (unlines
        [ "";
          "- **Project:** " +:+ show name +:+ " v" +:+ show version;
          "- **Total Dependencies:** " +:+ show total;
          "- **MCP Dependencies:** " +:+ show deps;
          "- **MCP Scripts:** " +:+ show scripts;
          "" ])
  | None => Returned "Package data not available"
  end.

Definition render_workflows (c : option (Component WorkflowResults)) : Outcome string :=
  match c with
  | Some w =>
      let workflows := js_workflows w in
      let? total := getProp workflows "total_workflows" in
      let? mcp := getProp workflows "mcp_workflows" in
      let? required := getProp workflows "required_workflows" in
      let entries :=
        match required with
        | JsObj props => props
        | _ => []
        end in
      Returned (unlines
        [ "";
          "- **Total Workflows:** " +:+ show total;
          "- **MCP Workflows:** " +:+ show mcp;
          "- **Required Workflows:** " +:+
            join ", " ((λ entry, (if truthy (snd entry) then "✅" else "❌")
                                  +:+ " " +:+ fst entry) <$> entries);
          "" ])
  | None => Returned "Workflow data not available"
  end.

Definition render_recommendation (rec : Recommendation) : string :=
  unlines
    [ "### " +:+ toUpperCase (priority rec) +:+ " Priority - " +:+ category rec;
      message rec;
      "";
      "**Action:** " +:+ action rec;
      "" ].

(** The template literal of [generateMarkdownReport]. *)
Definition renderMarkdown (this_timestamp : string) (r : Results) : Outcome string :=
  let s := summary r in
  let? servers := render_servers (mcp_servers (components r)) in
  let? performance := render_performance (performance (components r)) in
  let? packages := render_packages (packages (components r)) in
  let? workflows := render_workflows (workflows (components r)) in
  Returned (unlines
    [ "# 🎵 EchoTune AI - MCP System Status Report";
      "";
      "**Generated:** " +:+ timestamp r +:+ "  ";
      "**Overall Status:** " +:+ statusEmoji (JsStr (overall_status s)) +:+ " "
        +:+ toUpperCase (overall_status s) +:+ "  ";
      "**Health Score:** " +:+ pretty (health_score s) +:+ "%";
      "";
      "## 📊 Executive Summary";
      "";
      "- **Total MCP Servers:** " +:+ pretty (total_servers s);
      "- **Healthy Servers:** " +:+ pretty (healthy_servers s);
      "- **Failed Servers:** " +:+ pretty (failed_servers s);
      "- **Warnings:** " +:+ pretty (warnings s);
      "";
      "## 🛡️ MCP Server Status";
      "";
      servers;
      "";
      "## ⚙️ System Information";
      "";
      render_system_info (system_info r);
      "";
      "## ⚡ Performance Metrics";
      "";
      performance;
      "";
      "## 📦 Package Status";
      "";
      packages;
      "";
      "## ⚙️ Workflow Status";
      "";
      workflows;
      "";
      "## 🔧 Recommendations";
      "";
      join nl (render_recommendation <$> recommendations r);
      "";
      "## 📋 Next Steps";
      "";
      "1. **Address Critical Issues:** " +:+
        (if String.eqb (overall_status s) "critical"
         then "Immediate attention required" else "No critical issues detected");
      "2. **Monitor Health Score:** Current score is " +:+ pretty (health_score s) +:+ "% ";
      "3. **Review Recommendations:** "
        +:+ pretty (Z.of_nat (length (recommendations r))) +:+ " recommendations generated";
      "4. **Schedule Next Check:** Regular monitoring active";
      "";
      "---";
      "";
      "**🤖 Generated by EchoTune AI MCP Status Reporter**  ";
      "**Report ID:** " +:+ this_timestamp;
      "" ]).

(** The template literal of [generateSummaryReport]; [now] is
    [new Date().toISOString()]. *)
Definition renderSummary (now : string) (r : Results) : string :=
  let s := summary r in
  unlines
    [ "EchoTune AI - MCP Status Summary";
      now;
      "";
      "OVERALL STATUS: " +:+ toUpperCase (overall_status s);
      "HEALTH SCORE: " +:+ pretty (health_score s) +:+ "%";
      "";
      "SERVERS: " +:+ pretty (healthy_servers s) +:+ "/" +:+ pretty (total_servers s)
        +:+ " healthy";
      "WARNINGS: " +:+ pretty (warnings s);
      "RECOMMENDATIONS: " +:+ pretty (Z.of_nat (length (recommendations r)));
      "";
      if String.eqb (overall_status s) "healthy"
      then "✅ All systems operational"
      else "⚠️ Attention required - see full report";
      "" ].

(** ** Emission, the full report and the command line *)

Section Emission.

Context {W : Type} `{Host W}.

Definition generateMarkdownReport : Js W string :=
  let* t := this in
  match renderMarkdown (this_timestamp t) (results t) with
  | Returned text => ret text
  | Thrown msg => throw msg
  end.

Definition generateSummaryReport : Js W string :=
  let* now := call_total Date_toISOString in
  let* t := this in
  ret (renderSummary now (results t)).

(** [path.join(this.timestampDir, file)]; [path.join] throws a [TypeError]
    on [undefined]. *)
Definition in_timestampDir (file : string) : Js W string :=
  let* t := this in
  match timestampDir t with
  | Some dir => ret (path_join dir file)
  | None => throw "The path argument must be of type string. Received undefined"
  end.

Definition generateReports : Js W unit :=
  let* jsonReportPath := in_timestampDir "mcp-status-report.json" in
  let* t := this in
  call (fs_writeFile jsonReportPath (JsonText (results t))) >>>
  let* markdownReport := generateMarkdownReport in
  let* mdReportPath := in_timestampDir "mcp-status-report.md" in
  call (fs_writeFile mdReportPath (PlainText markdownReport)) >>>
  let* summaryReport := generateSummaryReport in
  let* summaryPath := in_timestampDir "mcp-status-summary.txt" in
  call (fs_writeFile summaryPath (PlainText summaryReport)) >>>
  assign_results (set_artifacts [jsonReportPath; mdReportPath; summaryPath]) >>>
  call (fs_copyFile jsonReportPath "mcp-status-report.json") >>>
  call (fs_copyFile mdReportPath "mcp-status-report.md").

(** The steps of [generateFullReport] between [initialize] and
    [generateReports]: after them the summary of [this.results] is final. *)
Definition sweep : Js W unit :=
  collectSystemInfo >>>
  collectMCPServerStatus >>>
  collectWorkflowStatus >>>
  collectPackageStatus >>>
  collectPerformanceMetrics >>>
  generateRecommendations >>>
  determineOverallStatus.

Definition generateFullReport : Js W Results :=
  try_catch
    (initialize >>>
     sweep >>>
     generateReports >>>
     let* t := this in
     ret (results t))
    (λ error_message, throw error_message).

(** The script run directly: the exit code of the process. *)
Definition main (w : W) : Z * Reporter * W :=
  let '(now, w0) := Date_toISOString w in
  let reporter := constructor now in
  match generateFullReport reporter w0 with
  | (Returned _, t, w') => (0, t, w')
  | (Thrown _, t, w') => (1, t, w')
  end.

End Emission.

(** ** A scripted host

    A world in which every answer of the outside is fixed in advance; it
    drives the reporter on concrete runs. *)

Record Sim : Type := {
  sim_registry : Outcome (list (string * ServerConfig));
  sim_alive : list string;         (* URLs whose probe returns [true] *)
  sim_throwing : list string;      (* URLs whose probe throws *)
  sim_readonly : list string;      (* paths that cannot be created or written *)
  sim_workflow_files : Outcome (list string);
  sim_package : Outcome PackageData;
  sim_load_ms : Z;                 (* duration of [readServers] *)
  sim_clock : Z;
  sim_fs_log : list string;        (* paths written or copied to, latest first *)
  sim_files : list (string * Content);
}.

Definition sim_tick (d : Z) (w : Sim) : Sim :=
  {| sim_registry := sim_registry w; sim_alive := sim_alive w;
     sim_throwing := sim_throwing w; sim_readonly := sim_readonly w;
     sim_workflow_files := sim_workflow_files w; sim_package := sim_package w;
     sim_load_ms := sim_load_ms w; sim_clock := sim_clock w + d;
     sim_fs_log := sim_fs_log w; sim_files := sim_files w |}.

Definition sim_store (path : string) (c : option Content) (w : Sim) : Sim :=
  {| sim_registry := sim_registry w; sim_alive := sim_alive w;
     sim_throwing := sim_throwing w; sim_readonly := sim_readonly w;
     sim_workflow_files := sim_workflow_files w; sim_package := sim_package w;
     sim_load_ms := sim_load_ms w; sim_clock := sim_clock w;
     sim_fs_log := path :: sim_fs_log w;
     sim_files := match c with
                  | Some content => (path, content) :: sim_files w
                  | None => sim_files w
                  end |}.

Definition sim_write (path : string) (c : Content) (w : Sim) : Outcome unit * Sim :=
  if list_includes (sim_readonly w) path
  then (Thrown ("EACCES: permission denied, open '" +:+ path +:+ "'"), sim_store path None w)
  else (Returned tt, sim_store path (Some c) w).

Definition sim_copy (src dst : string) (w : Sim) : Outcome unit * Sim :=
  match assoc src (sim_files w) with
  | Some c => sim_write dst c w
  | None => (Thrown ("ENOENT: no such file or directory, copyfile '" +:+ src +:+ "'"),
             sim_store dst None w)
  end.

Definition sim_process : ProcessInfo :=
  {| process_version := "v20.11.0";
     process_uptime := Number.of_Z 1;
     memoryUsage_rss := 52428800;
     memoryUsage_heapUsed := 10485760;
     memoryUsage_heapTotal := 20971520;
     memoryUsage_external := 1048576;
     cpuUsage := (1000, 500);
     process_platform := "linux";
     process_arch := "x64" |}.

#[export] Instance Sim_host : Host Sim := {
  fs_mkdir path w :=
    if list_includes (sim_readonly w) path
    then (Thrown ("EACCES: permission denied, mkdir '" +:+ path +:+ "'"), w)
    else (Returned tt, w);
  fs_writeFile := sim_write;
  fs_copyFile := sim_copy;
  fs_readdir _ w := (sim_workflow_files w, w);
  fs_readPackageJson w := (sim_package w, w);
  fs_stat_mtime _ w := (Returned "2025-01-01T00:00:00.000Z", w);
  execAsync cmd w :=
    (if String.eqb cmd "npm --version" then Returned "10.2.4" else Returned "Python 3.11.4", w);
  process _ := sim_process;
  process_env_MCP_PORT _ := None;
  Date_now w := (sim_clock w, sim_tick 1 w);
  Date_toISOString w := ("2025-01-01T00:00:00.000Z", w);
  mcpManager_readServers w :=
    (match sim_registry w with
     | Returned entries => Returned (list_to_map entries)
     | Thrown msg => Thrown msg
     end, sim_tick (sim_load_ms w) w);
  mcpManager_probeHealth url _ _ w :=
    (if list_includes (sim_throwing w) url then Thrown ("Invalid URL: " +:+ url)
     else Returned (list_includes (sim_alive w) url), sim_tick 5 w);
}.

Definition sim_server (p : Z) : string * ServerConfig :=
  ("server-" +:+ pretty p,
   {| command := Some "node"; args := Some ["server.js"]; port := Some p;
      healthPath := None |}).

Definition sim_url (p : Z) : string := "http://localhost:" +:+ pretty p +:+ "/health".

(** A quiet world around a given registry and a given set of live ports. *)
Definition sim_world (registry : Outcome (list (string * ServerConfig)))
    (alive throwing : list Z) (readonly : list string) : Sim :=
  {| sim_registry := registry;
     sim_alive := sim_url <$> alive;
     sim_throwing := sim_url <$> throwing;
     sim_readonly := readonly;
     sim_workflow_files := Returned requiredWorkflows;
     sim_package := Returned {| pkg_name := Some "echotune-ai"; pkg_version := Some "2.1.0";
                                pkg_dependencies := Some ["express"];
                                pkg_devDependencies := None;
                                pkg_scripts := Some ["start"; "mcp:health"] |};
     sim_load_ms := 12;
     sim_clock := 1700000000000;
     sim_fs_log := [];
     sim_files := [] |}.

Definition ten_servers : list (string * ServerConfig) :=
  sim_server <$> [4000; 4001; 4002; 4003; 4004; 4005; 4006; 4007; 4008; 4009].

(** * Notions used by the properties *)

(** ** Binary64 rounding

    [binary_round_aux] shifts the mantissa right, rounds to nearest even and
    shifts again.  A shift record [mrs] approximates the fraction [N / D] from
    below when its mantissa is at most [N / D] and its two sticky bits are
    clear exactly when the fraction is the mantissa. *)
Definition approx (mrs : shr_record) (D N : Z) : Prop :=
  0 <= shr_m mrs /\ shr_m mrs * D <= N /\
  (orb (shr_r mrs) (shr_s mrs) = false <-> N = shr_m mrs * D).

(** A double that is [+0] or a positive number at most the integer [B],
    written on a grid that contains [B]. *)
Definition small (x : spec_float) (B : Z) : Prop :=
  x = S754_zero false
  \/ exists m e, x = S754_finite false m e /\ e <= 0 /\ Z.pos m <= B * 2 ^ (- e).

(** ** Counting the classified servers *)

Definition is_healthy (r : ServerResult) : bool := String.eqb (status r) "healthy".

Definition is_failed (r : ServerResult) : bool :=
  String.eqb (status r) "unhealthy" || String.eqb (status r) "error".

Definition count_where (P : ServerResult → bool) (m : gmap string ServerResult) : Z :=
  Z.of_nat (size (filter (λ entry, P (snd entry) = true) m)).

Definition classified (r : ServerResult) : Prop :=
  status r = "healthy" ∨ status r = "unhealthy" ∨ status r = "error".

Definition add_counts (dh df : Z) (s : Summary) : Summary :=
  {| overall_status := overall_status s; health_score := health_score s;
     total_servers := total_servers s; healthy_servers := healthy_servers s + dh;
     failed_servers := failed_servers s + df; warnings := warnings s |}.

Definition b2z (b : bool) : Z := if b then 1 else 0.

(** ** What the sweep leaves in the report *)

Section SweepDefinitions.

Context {W : Type} `{Host W}.

(** The score computed from the two counters. *)
Definition score_of (healthy total : Z) : Z :=
  if 0 <? total then Number.round (health_ratio healthy total) else 0.

(** What [collectMCPServerStatus] leaves in [this.results], in terms of the
    answer of [readServers] in the world [w] where it was called.  [probed]
    holds the result of every iteration of the loop under the name of its
    server; the results object keeps them all but the one named
    [__proto__]. *)
Definition registry_outcome (w : W) (r : Results) : Prop :=
  let s := summary r in
  match mcpManager_readServers w with
  | (Returned servers, _) =>
      ∃ probed : gmap string ServerResult,
        mcp_servers (components r) = Some (Collected (delete "__proto__" probed))
        ∧ dom probed = dom servers
        ∧ map_Forall (λ _ x, classified x) probed
        ∧ total_servers s = Z.of_nat (size servers)
        ∧ healthy_servers s = count_where is_healthy probed
        ∧ failed_servers s = count_where is_failed probed
        ∧ health_score s = score_of (healthy_servers s) (total_servers s)
  | (Thrown msg, _) =>
      mcp_servers (components r) = Some (Failed msg)
      ∧ total_servers s = 0 ∧ healthy_servers s = 0 ∧ failed_servers s = 0
      ∧ health_score s = 0
  end.

(** The part of the reporter that only [collectMCPServerStatus] writes. *)
Definition servers_view (t : Reporter) :=
  let s := summary (results t) in
  (mcp_servers (components (results t)), total_servers s, healthy_servers s,
   failed_servers s, health_score s).

(** The fields that no step of the sweep writes. *)
Definition same_identity (t t' : Reporter) : Prop :=
  reportDir t' = reportDir t ∧ this_timestamp t' = this_timestamp t
  ∧ timestampDir t' = timestampDir t
  ∧ timestamp (results t') = timestamp (results t).

(** A step that leaves the server counters alone and may add warnings. *)
Definition peripheral (t t' : Reporter) : Prop :=
  same_identity t t'
  ∧ servers_view t' = servers_view t
  ∧ warnings (summary (results t)) ≤ warnings (summary (results t')).

(** The rating of a configuration load time, in the words of the
    specification: below 1000 ms excellent, below 3000 ms good, otherwise
    needs_optimization. *)
Definition rate_config_load (configLoadTime : Z) : string :=
  if configLoadTime <? 1000 then "excellent"
  else if configLoadTime <? 3000 then "good"
  else "needs_optimization".

(** The stored rating is the rating of the stored load time. *)
Definition performance_rated (r : Results) : Prop :=
  match performance (components r) with
  | Some (Collected p) => config_performance p = rate_config_load (config_load_time_ms p)
  | Some (Failed _) => True
  | None => False
  end.

(** The last two steps of the sweep, as a function of the reporter. *)
Definition finalize (t : Reporter) : Reporter :=
  let t' := with_results (set_recommendations (deriveRecommendations (results t))) t in
  with_results (with_summary (set_overall_status (classify (summary (results t'))))) t'.

(** The reporter at the start of the sweep: as constructed, with
    [timestampDir] set if [initialize] ran. *)
Definition fresh (now : string) (dir : option string) : Reporter :=
  match dir with
  | Some d => set_timestampDir d (constructor now)
  | None => constructor now
  end.

(** The world in which [collectMCPServerStatus] reads the registry: the one
    [collectSystemInfo] leaves. *)
Definition registry_world (now : string) (dir : option string) (w : W) : W :=
  snd (collectSystemInfo (fresh now dir) w).

End SweepDefinitions.

(** ** The finalized report of a run *)

Section RunsDefinitions.

Context {W : Type} `{Host W}.

(** The finalized AggregateReport: [this.results] when the sweep is over. *)
Definition finalized (now : string) (dir : option string) (w : W) : Results :=
  results (snd (fst (sweep (fresh now dir) w))).




(** The required workflows that the run found missing. *)
Definition run_missing (r : Results) : list string :=
  match workflows (components r) with
  | Some (Collected w) => missing_workflows (required_workflows w)
  | _ => []
  end.

End RunsDefinitions.

(** ** Concrete runs *)

(** Ten servers of which three answer, and one whose probe throws. *)
Definition ten_world : Sim :=
  sim_world (Returned ten_servers) [4000; 4001; 4002] [4005] [].

(** A registry that cannot be loaded. *)
Definition broken_world : Sim :=
  sim_world (Thrown "Cannot find module './mcp-manager.js'") [] [] [].

(** A registry in which one of two servers is named [__proto__], as
    [JSON.parse] gives for a configuration file with that key; both answer. *)
Definition proto_servers : list (string * ServerConfig) :=
  [("__proto__", snd (sim_server 4000)); sim_server 4001].

Definition proto_world : Sim :=
  sim_world (Returned proto_servers) [4000; 4001] [] [].

(** The timestamp the scripted host gives. *)
Definition run_now : string := "2025-01-01T00:00:00.000Z".

(** ** Observing the file system calls

    A host wrapped so that every [fs.writeFile] and [fs.copyFile] the
    reporter attempts is recorded, latest first, with what was handed over
    and whether the call succeeded.  Everything else is passed through. *)

Record FsCall : Type := {
  fs_call : string;
  fs_target : string;
  fs_payload : option Content;
  fs_succeeded : bool;
}.

Definition Traced (W : Type) : Type := W * list FsCall.

Definition pass {W A} (f : W → A * W) (tw : Traced W) : A * Traced W :=
  let '(a, w') := f (fst tw) in (a, (w', snd tw)).

Definition record_call {W} (call : string) (target : string) (payload : option Content)
    (f : W → Outcome unit * W) (tw : Traced W) : Outcome unit * Traced W :=
  let '(o, w') := f (fst tw) in
  (o, (w', {| fs_call := call; fs_target := target; fs_payload := payload;
              fs_succeeded := returned o |} :: snd tw)).

#[export] Instance Traced_host {W : Type} `{Host W} : Host (Traced W) := {
  fs_mkdir path := pass (fs_mkdir path);
  fs_writeFile path content :=
    record_call "writeFile" path (Some content) (fs_writeFile path content);
  fs_copyFile src dst := record_call "copyFile" dst None (fs_copyFile src dst);
  fs_readdir path := pass (fs_readdir path);
  fs_readPackageJson := pass fs_readPackageJson;
  fs_stat_mtime path := pass (fs_stat_mtime path);
  execAsync cmd := pass (execAsync cmd);
  process tw := process (fst tw);
  process_env_MCP_PORT tw := process_env_MCP_PORT (fst tw);
  Date_now := pass Date_now;
  Date_toISOString := pass Date_toISOString;
  mcpManager_readServers := pass mcpManager_readServers;
  mcpManager_probeHealth url timeoutMs pollIntervalMs :=
    pass (mcpManager_probeHealth url timeoutMs pollIntervalMs);
}.

(** The five calls of [generateReports], in the order of the source. *)
Definition planned_targets (dir : string) : list string :=
  [ path_join dir "mcp-status-report.json";
    path_join dir "mcp-status-report.md";
    path_join dir "mcp-status-summary.txt";
    "mcp-status-report.json";
    "mcp-status-report.md" ].

(** ** Reading the terse summary back *)

(** The line feed. *)
Definition is_newline (c : ascii) : bool := Ascii.eqb c (ascii_of_nat 10).

(** [text.split('\n')] *)
Fixpoint split_lines (text : string) : list string :=
  match text with
  | EmptyString => [EmptyString]
  | String c rest =>
      if is_newline c then EmptyString :: split_lines rest
      else match split_lines rest with
           | line :: more => String c line :: more
           | [] => [String c EmptyString]
           end
  end.

(** [s] without its prefix [p], if it starts with [p]. *)
Fixpoint strip_prefix (p s : string) : option string :=
  match p, s with
  | EmptyString, _ => Some s
  | String a p', String b s' => if Ascii.eqb a b then strip_prefix p' s' else None
  | String _ _, EmptyString => None
  end.

(** The value of the first line that starts with [label]. *)
Definition read_field (label text : string) : option string :=
  head (omap (strip_prefix label) (split_lines text)).

(** No line break in [s]. *)
Fixpoint no_newline (s : string) : bool :=
  match s with
  | EmptyString => true
  | String c rest => negb (is_newline c) && no_newline rest
  end.

(** The characters of [Date.prototype.toISOString()]:
    [YYYY-MM-DDTHH:mm:ss.sssZ], with a sign for years beyond four digits. *)
Definition timestamp_char (c : ascii) : bool :=
  let n := Ascii.nat_of_ascii c in
  ((48 <=? n) && (n <=? 58) || (n =? 45) || (n =? 43) || (n =? 46)
   || (n =? 84) || (n =? 90))%nat.

(** A string made of such characters only. *)
Fixpoint timestamp_like (s : string) : bool :=
  match s with
  | EmptyString => true
  | String c rest => timestamp_char c && timestamp_like rest
  end.

(** The statuses that [determineOverallStatus] assigns. *)
Definition assigned_statuses : list string :=
  ["critical"; "degraded"; "warning"; "partial"; "healthy"].

(** ** Emission as a decision tree *)

Section EmissionFactsDefinitions.

Context {W : Type} `{Host W}.

(** [generateReports] as one decision tree over the answers of the host. *)
Definition emission_script (t : Reporter) (w : W) : Outcome unit * Reporter * W :=
  match timestampDir t with
  | None => (Thrown "The path argument must be of type string. Received undefined", t, w)
  | Some dir =>
    let jsonReportPath := path_join dir "mcp-status-report.json" in
    let mdReportPath := path_join dir "mcp-status-report.md" in
    let summaryPath := path_join dir "mcp-status-summary.txt" in
    match fs_writeFile jsonReportPath (JsonText (results t)) w with
    | (Thrown msg, w1) => (Thrown msg, t, w1)
    | (Returned _, w1) =>
      match renderMarkdown (this_timestamp t) (results t) with
      | Thrown msg => (Thrown msg, t, w1)
      | Returned markdownReport =>
        match fs_writeFile mdReportPath (PlainText markdownReport) w1 with
        | (Thrown msg, w2) => (Thrown msg, t, w2)
        | (Returned _, w2) =>
          let '(now, w3) := Date_toISOString w2 in
          match fs_writeFile summaryPath (PlainText (renderSummary now (results t))) w3 with
          | (Thrown msg, w4) => (Thrown msg, t, w4)
          | (Returned _, w4) =>
            let t' := with_results
                        (set_artifacts [jsonReportPath; mdReportPath; summaryPath]) t in
            match fs_copyFile jsonReportPath "mcp-status-report.json" w4 with
            | (Thrown msg, w5) => (Thrown msg, t', w5)
            | (Returned _, w5) =>
              let '(o, w6) := fs_copyFile mdReportPath "mcp-status-report.md" w5 in
              (o, t', w6)
            end
          end
        end
      end
    end
  end.

End EmissionFactsDefinitions.

(** ** Concrete runs of the command line *)

(** The ten-server world, observed. *)
Definition ten_run : Z * Reporter * Traced Sim := main (ten_world, []).

(** The world in which the markdown report cannot be written, observed. *)
Definition readonly_markdown_world : Sim :=
  sim_world (Returned ten_servers) [4000; 4001; 4002] [4005]
    ["reports/mcp-status/2025-01-01/mcp-status-report.md"].

(** The run of the command line in that world. *)
Definition readonly_markdown_run : Z * Reporter * Traced Sim :=
  main (readonly_markdown_world, []).

(** The world in which the registry cannot be loaded, observed. *)
Definition broken_run : Z * Reporter * Traced Sim := main (broken_world, []).

(** Tolerance to partial persistence failures as the specification words
    it, on an observed run: every artifact is attempted, and the invocation
    fails only if no write succeeded. *)
Definition partial_failure_tolerant (run : Z * Reporter * Traced Sim)
    (artifacts : list string) : Prop :=
  let code := fst (fst run) in
  let log := snd (snd run) in
  (∀ path, path ∈ artifacts →
     ∃ c, c ∈ log ∧ fs_call c = "writeFile" ∧ fs_target c = path)
  ∧ (code ≠ 0 →
     ∀ c, c ∈ log → fs_call c = "writeFile" → fs_succeeded c = false).

(** The three artifacts of the scripted runs. *)
Definition run_artifacts : list string :=
  [ "reports/mcp-status/2025-01-01/mcp-status-report.json";
    "reports/mcp-status/2025-01-01/mcp-status-report.md";
    "reports/mcp-status/2025-01-01/mcp-status-summary.txt" ].

(** What the three runs leave behind. *)
Definition targets_of (run : Z * Reporter * Traced Sim) : list (string * bool) :=
  (λ c, (fs_target c, fs_succeeded c)) <$> reverse (snd (snd run)).

(** ** The health probe *)

Module McpManager.

Inductive Response : Type :=
| NetworkError
| HttpStatus (code : Z).

Definition is_2xx (r : Response) : bool :=
  match r with
  | HttpStatus code => (200 <=? code) && (code <? 300)
  | NetworkError => false
  end.

(** What the probe meets: which URLs are malformed, what a request issued
    at a given time is answered, and how long that request takes. *)
Record Endpoint : Type := {
  malformed : string → bool;
  respond : string → Z → Response;
  duration : string → Z → Z;
}.

(** Modelled from the spec: [scripts/mcp-manager.js], which exports
    [probeHealth], is not among the sources.  The specification (Health
    Prober) says: issue a request to the endpoint; if it fails (network
    error, non-2xx), wait [pollIntervalMs] and retry, until a success is
    observed or the cumulative elapsed time exceeds [timeoutMs], at which
    point the probe returns false.  [poll] is that loop from the time [now],
    against the deadline [start + timeoutMs]; a request takes the time the
    endpoint says (never a negative one). *)
Fixpoint poll (fuel : nat) (e : Endpoint) (url : string) (pollIntervalMs deadline now : Z)
    : option bool :=
  match fuel with
  | O => None
  | S fuel' =>
      if is_2xx (respond e url now) then Some true
      else
        let next := now + Z.max 0 (duration e url now) + pollIntervalMs in
        if deadline <? next then Some false
        else poll fuel' e url pollIntervalMs deadline next
  end.

(** Modelled from the spec: the probe never throws for network-level
    failures, only for programmer errors such as a malformed URL.  [None]
    stands for a probe that has not returned within [fuel] requests. *)
Definition probeHealth (fuel : nat) (e : Endpoint) (url : string)
    (timeoutMs pollIntervalMs start : Z) : option (Outcome bool) :=
  if malformed e url then Some (Thrown ("Invalid URL: " +:+ url))
  else Returned <$> poll fuel e url pollIntervalMs (start + timeoutMs) start.

(** The time of the [n]-th retry after a request at [now]. *)
Fixpoint attempt_time (e : Endpoint) (url : string) (pollIntervalMs now : Z) (n : nat) : Z :=
  match n with
  | O => now
  | S n' =>
      attempt_time e url pollIntervalMs
        (now + Z.max 0 (duration e url now) + pollIntervalMs) n'
  end.

(** The number of requests that fit between [now] and the deadline. *)
Definition requests_needed (pollIntervalMs deadline now : Z) : nat :=
  S (Z.to_nat ((deadline - now) `div` pollIntervalMs)).

End McpManager.

(** A server that starts answering 2000 ms after the probe begins. *)
Definition slow_starter : McpManager.Endpoint :=
  {| McpManager.malformed := λ url, negb (starts_with "http://" url);
     McpManager.respond := λ _ now,
       if now <? 2000 then McpManager.NetworkError else McpManager.HttpStatus 200;
     McpManager.duration := λ _ _, 20 |}.

(** * Notions used by the further properties *)

(** ** Binary64 rounding between two bounds *)

(** A positive double between [l / 2^s] and [B], written on a grid that
    contains both. *)
Definition between (x : spec_float) (l B s : Z) : Prop :=
  exists m e, x = S754_finite false m e /\ e <= - s
    /\ Z.pos m <= B * 2 ^ (- e) /\ l * 2 ^ (- e) <= Z.pos m * 2 ^ s.

(** ** The sections of the report and the warnings they account for *)

(** The parts of [this.results] that the collection steps fill in, one
    each, and the artifact list that only [generateReports] writes. *)
Definition sections (r : Results) :=
  (system_info r, mcp_servers (components r), workflows (components r),
   packages (components r), performance (components r), artifacts r).

(** A section whose collection threw holds [{ error }]. *)
Definition failed_component {A} (c : option (Component A)) : Z :=
  match c with
  | Some (Failed _) => 1
  | _ => 0
  end.

(** The performance section warns when its collection threw and when the
    configuration load was rated needs_optimization. *)
Definition performance_warning (c : option (Component PerformanceResults)) : Z :=
  match c with
  | Some (Failed _) => 1
  | Some (Collected p) =>
      if String.eqb (config_performance p) "needs_optimization" then 1 else 0
  | None => 0
  end.

Definition missing_system_info (r : Results) : Z :=
  match system_info r with
  | Some _ => 0
  | None => 1
  end.

(** The warnings a report accounts for, section by section. *)
Definition expected_warnings (r : Results) : Z :=
  missing_system_info r
  + failed_component (mcp_servers (components r))
  + failed_component (workflows (components r))
  + failed_component (packages (components r))
  + performance_warning (performance (components r)).

Section SectionsDefinitions.

Context {W : Type} `{Host W}.

(** The worlds in which [collectWorkflowStatus] and [collectPackageStatus]
    run: those the steps before them leave. *)
Definition workflows_world (now : string) (dir : option string) (w : W) : W :=
  snd ((collectSystemInfo >>> collectMCPServerStatus) (fresh now dir) w).

Definition packages_world (now : string) (dir : option string) (w : W) : W :=
  snd ((collectSystemInfo >>> collectMCPServerStatus >>> collectWorkflowStatus)
         (fresh now dir) w).

(** What [collectWorkflowStatus] leaves in [this.results], in terms of the
    answer of [fs.readdir] in the world [w] where it was called. *)
Definition workflows_outcome (w : W) (r : Results) : Prop :=
  match fs_readdir ".github/workflows" w with
  | (Returned files, _) =>
      ∃ wf : WorkflowResults,
        workflows (components r) = Some (Collected wf)
        ∧ total_workflows wf = Z.of_nat (length files)
        ∧ workflow_files wf = filter (λ f, is_mcp_workflow f = true) files
        ∧ mcp_workflows wf = Z.of_nat (length (workflow_files wf))
        ∧ required_workflows wf
          = (λ workflow, (workflow, list_includes files workflow)) <$> requiredWorkflows
  | (Thrown msg, _) => workflows (components r) = Some (Failed msg)
  end.

(** What [collectPackageStatus] leaves in [this.results], in terms of the
    answers of [fs.readFile] and [fs.stat] in the world [w] where it was
    called. *)
Definition packages_outcome (w : W) (r : Results) : Prop :=
  match fs_readPackageJson w with
  | (Returned packageData, w1) =>
      match fs_stat_mtime "package.json" w1 with
      | (Returned mtime, _) =>
          let deps := default [] (pkg_dependencies packageData) in
          let devDeps := default [] (pkg_devDependencies packageData) in
          ∃ p : PackageResults,
            packages (components r) = Some (Collected p)
            ∧ package_name p = pkg_name packageData
            ∧ package_version p = pkg_version packageData
            ∧ total_dependencies p = Z.of_nat (length (spread_keys deps devDeps))
            ∧ mcp_dependency_list p
              = filter (λ d, is_mcp_dependency d = true) (spread_keys deps devDeps)
            ∧ mcp_dependencies p = Z.of_nat (length (mcp_dependency_list p))
            ∧ mcp_script_list p
              = filter (λ s, is_mcp_script s = true) (default [] (pkg_scripts packageData))
            ∧ mcp_scripts p = Z.of_nat (length (mcp_script_list p))
            ∧ last_modified p = mtime
      | (Thrown msg, _) => packages (components r) = Some (Failed msg)
      end
  | (Thrown msg, _) => packages (components r) = Some (Failed msg)
  end.

End SectionsDefinitions.

(** ** A host without a shell

    Every [execAsync] throws; everything else is passed through. *)

Record NoShell (W : Type) : Type := { with_shell : W }.
Arguments with_shell {W} _.

Definition shell_less {W A} (f : W → A * W) (w : NoShell W) : A * NoShell W :=
  let '(a, w') := f (with_shell w) in (a, {| with_shell := w' |}).

#[export] Instance NoShell_host {W : Type} `{Host W} : Host (NoShell W) := {
  fs_mkdir path := shell_less (fs_mkdir path);
  fs_writeFile path content := shell_less (fs_writeFile path content);
  fs_copyFile src dst := shell_less (fs_copyFile src dst);
  fs_readdir path := shell_less (fs_readdir path);
  fs_readPackageJson := shell_less fs_readPackageJson;
  fs_stat_mtime path := shell_less (fs_stat_mtime path);
  execAsync cmd w := (Thrown ("Command failed: " +:+ cmd), w);
  process w := process (with_shell w);
  process_env_MCP_PORT w := process_env_MCP_PORT (with_shell w);
  Date_now := shell_less Date_now;
  Date_toISOString := shell_less Date_toISOString;
  mcpManager_readServers := shell_less mcpManager_readServers;
  mcpManager_probeHealth url timeoutMs pollIntervalMs :=
    shell_less (mcpManager_probeHealth url timeoutMs pollIntervalMs);
}.

(** Ten servers that all answer. *)
Definition healthy_world : Sim :=
  sim_world (Returned ten_servers)
    [4000; 4001; 4002; 4003; 4004; 4005; 4006; 4007; 4008; 4009] [] [].

(** The same fleet on a machine where nothing else can be collected: no
    shell, no workflow directory, no [package.json], and a registry that
    takes five seconds to load. *)
Definition bare_world : NoShell Sim :=
  {| with_shell :=
       {| sim_registry := sim_registry healthy_world;
          sim_alive := sim_alive healthy_world;
          sim_throwing := [];
          sim_readonly := [];
          sim_workflow_files :=
            Thrown "ENOENT: no such file or directory, scandir '.github/workflows'";
          sim_package :=
            Thrown "ENOENT: no such file or directory, open 'package.json'";
          sim_load_ms := 5000;
          sim_clock := 1700000000000;
          sim_fs_log := [];
          sim_files := [] |} |}.

(** Only two of the three required workflows are there. *)
Definition two_workflows_world : Sim :=
  {| sim_registry := sim_registry healthy_world;
     sim_alive := sim_alive healthy_world;
     sim_throwing := [];
     sim_readonly := [];
     sim_workflow_files := Returned ["ci.yml"; "mcp-validation.yml"; "mcp-scheduled-discovery.yml"];
     sim_package := sim_package healthy_world;
     sim_load_ms := 12;
     sim_clock := 1700000000000;
     sim_fs_log := [];
     sim_files := [] |}.

(** ** Observed runs of the command line *)

(** A computation on the observed host that attempts no write and no copy:
    it leaves the record of the file system calls as it was. *)
Definition quiet {W A} (m : Js (Traced W) A) : Prop :=
  ∀ t tw, snd (snd (m t tw)) = snd tw.

(** The directory of a run that starts at [now]. *)
Definition run_directory (now : string) : string :=
  path_join "reports/mcp-status" (before_T now).

(** A world in which the report directory cannot be created. *)
Definition no_directory_world : Sim :=
  sim_world (Returned ten_servers) [4000; 4001; 4002] [4005] ["reports/mcp-status"].

(** A report whose server section or performance section holds
    [{ error }]. *)
Definition uncollected (r : Results) : Prop :=
  (∃ error, mcp_servers (components r) = Some (Failed error))
  ∨ (∃ error, performance (components r) = Some (Failed error)).

(** * The workflow integration tester: class [MCPWorkflowTester]

    The tester keeps one mutable object, [this.testResults]: three counters
    and the array [tests] of everything it logged.  Its methods are
    computations over that object and the world, as those of the reporter
    are. *)

(** [typeof v === 'object'], on the values that are not functions. *)
Definition typeof_object (v : JsVal) : bool :=
  match v with
  | JsNull | JsArr _ | JsObj _ => true
  | _ => false
  end.

(** [Object.keys(v)]; the properties of an object are listed in their
    enumeration order, and a string is the sequence of its characters. *)
Definition Object_keys (v : JsVal) : Outcome (list string) :=
  match v with
  | JsUndefined | JsNull => Thrown "Cannot convert undefined or null to object"
  | JsObj props => Returned (fst <$> props)
  | JsArr items => Returned ((λ i, pretty (Z.of_nat i)) <$> seq 0 (length items))
  | JsStr s => Returned ((λ i, pretty (Z.of_nat i)) <$> seq 0 (String.length s))
  | JsBool _ | JsNum _ => Returned []
  end.

(** [s.toLowerCase()] on the ASCII letters. *)
Definition lower_char (c : ascii) : ascii :=
  let n := Ascii.nat_of_ascii c in
  if ((65 <=? n) && (n <=? 90))%nat then Ascii.ascii_of_nat (n + 32) else c.

Fixpoint toLowerCase (s : string) : string :=
  match s with
  | EmptyString => EmptyString
  | String c s' => String (lower_char c) (toLowerCase s')
  end.

Module WorkflowTester.

(** An element of [this.testResults.tests]. *)
Record TestEntry : Type := {
  message : string;
  type : string;
  timestamp : string;
}.

(** [this.testResults] *)
Record TestResults : Type := {
  passed : Z;
  failed : Z;
  warnings : Z;
  tests : list TestEntry;
}.

(** [report.summary] *)
Record TestSummary : Type := {
  total_tests : Z;
  summary_passed : Z;
  summary_failed : Z;
  summary_warnings : Z;
  score : Z;
}.

(** The arrays of the tester: there is one, [this.testResults.tests]. *)
Inductive ArrayRef : Type :=
| testResults_tests.

(** The object [report] of [generateTestReport].  Its property [tests] is
    the array [this.testResults.tests] itself, not a copy of it. *)
Record TestReport : Type := {
  report_timestamp : string;
  summary : TestSummary;
  report_tests : ArrayRef;
  status : string;
}.

(** The elements of an array at a given state of the tester. *)
Definition elements (a : ArrayRef) (t : TestResults) : list TestEntry :=
  match a with
  | testResults_tests => tests t
  end.

(** [JSON.stringify(report, null, 2)], kept as the values it serialises:
    the array is written out as it is when [stringify] is called. *)
Record ReportDocument : Type := {
  document_timestamp : string;
  document_summary : TestSummary;
  document_tests : list TestEntry;
  document_status : string;
}.

Definition JSON_stringify (report : TestReport) (t : TestResults) : ReportDocument :=
  {| document_timestamp := report_timestamp report;
     document_summary := summary report;
     document_tests := elements (report_tests report) t;
     document_status := status report |}.

(** What [require] gives: [undefined], [null], or a value of which
    [typeof m[name] === 'function'] is known for every name. *)
Inductive Exports : Type :=
| ExportsUndefined
| ExportsNull
| ExportsValue (is_function : string → bool).

(** Everything the tester reaches outside its own object.  [console.log]
    only prints and is left out. *)
Class Host (W : Type) : Type := {
  fs_readdir : string → W → Outcome (list string) * W;
  fs_readFile : string → W → Outcome string * W;
  fs_access : string → W → Outcome unit * W;
  fs_mkdir : string → W → Outcome unit * W;
  fs_writeFile : string → ReportDocument → W → Outcome unit * W;
  Date_toISOString : W → string * W;
  JSON_parse : string → Outcome JsVal;
  (** [require('./mcp-manager.js')] *)
  require_mcpManager : W → Outcome Exports * W;
  (** [await mcpManager.readServers()], when [readServers] is a function *)
  mcpManager_readServers : W → Outcome JsVal * W;
  (** [typeof require('./mcp-status-reporter.js') === 'function'] *)
  require_statusReporter : W → Outcome bool * W;
  (** [typeof new MCPStatusReporter().generateFullReport === 'function'] *)
  new_statusReporter : W → Outcome bool * W;
}.

(** ** The monad of tester methods *)

Definition Js (W A : Type) : Type := TestResults → W → Outcome A * TestResults * W.

Definition ret {W A} (a : A) : Js W A := λ t w, (Returned a, t, w).

Definition throw {W A} (msg : string) : Js W A := λ t w, (Thrown msg, t, w).

Definition bind {W A B} (m : Js W A) (k : A → Js W B) : Js W B :=
  λ t w,
    match m t w with
    | (Returned a, t', w') => k a t' w'
    | (Thrown msg, t', w') => (Thrown msg, t', w')
    end.

Definition try_catch {W A} (body : Js W A) (handler : string → Js W A) : Js W A :=
  λ t w,
    match body t w with
    | (Returned a, t', w') => (Returned a, t', w')
    | (Thrown msg, t', w') => handler msg t' w'
    end.

(** Inside this module the notations of the reporter's monad stand for the
    tester's. *)
#[local] Set Warnings "-notation-overridden".
#[local] Notation "'let*' x := m 'in' k" := (bind m (λ x, k))
  (at level 10, x pattern, m at level 100, k at level 200).
#[local] Notation "m >>> k" := (bind m (λ _, k))
  (at level 100, k at level 200, right associativity).
#[local] Set Warnings "notation-overridden".

Definition call {W A} (f : W → Outcome A * W) : Js W A :=
  λ t w, let '(o, w') := f w in (o, t, w').

Definition call_total {W A} (f : W → A * W) : Js W A :=
  λ t w, let '(a, w') := f w in (Returned a, t, w').

(** An expression that may throw. *)
Definition eval {W A} (o : Outcome A) : Js W A := λ t w, (o, t, w).

Definition this {W} : Js W TestResults := λ t w, (Returned t, t, w).

Definition assign {W} (f : TestResults → TestResults) : Js W unit :=
  λ t w, (Returned tt, f t, w).

(** [for (const x of xs) { body(x) }] *)
Fixpoint for_of {W X} (xs : list X) (body : X → Js W unit) : Js W unit :=
  match xs with
  | [] => ret tt
  | x :: xs' => body x >>> for_of xs' body
  end.

(** ** The methods *)

(** [new MCPWorkflowTester()] *)
Definition constructor : TestResults :=
  {| passed := 0; failed := 0; warnings := 0; tests := [] |}.

(** [this.testResults.tests.push(entry)] and the three conditional
    increments. *)
Definition push (entry : TestEntry) (t : TestResults) : TestResults :=
  {| passed := passed t + b2z (String.eqb (type entry) "pass");
     failed := failed t + b2z (String.eqb (type entry) "fail");
     warnings := warnings t + b2z (String.eqb (type entry) "warn");
     tests := tests t ++ [entry] |}.

Section Methods.

Context {W : Type} `{Host W}.

Definition log (message type : string) : Js W unit :=
  let* now := call_total Date_toISOString in
  assign (push {| message := message; type := type; timestamp := now |}).

Definition requiredWorkflows : list string :=
  ["mcp-validation-gateway.yml"; "mcp-scheduled-discovery.yml"; "mcp-validation.yml"].

Definition testWorkflowFiles : Js W unit :=
  log "Testing MCP workflow files..." "info" >>>
  let workflowsDir := ".github/workflows" in
  try_catch
    (let* files := call (fs_readdir workflowsDir) in
     for_of requiredWorkflows (λ workflow,
       if list_includes files workflow then
         log ("Workflow " +:+ workflow +:+ " exists") "pass" >>>
         let* content := call (fs_readFile (path_join workflowsDir workflow)) in
         (if includes content "mcp-manager.js"
          then log ("Workflow " +:+ workflow +:+ " includes MCP manager integration") "pass"
          else log ("Workflow " +:+ workflow +:+ " missing MCP manager integration") "warn") >>>
         (if includes content "on:"
          then log ("Workflow " +:+ workflow +:+ " has proper triggers") "pass"
          else log ("Workflow " +:+ workflow +:+ " missing triggers") "fail")
       else
         log ("Required workflow " +:+ workflow +:+ " not found") "fail"))
    (λ error_message,
       log ("Error reading workflow directory: " +:+ error_message) "fail").

Definition requiredExports : list string :=
  ["readServers"; "install"; "health"; "test"; "report"].

(** [typeof mcpManager[exportName] === 'function'] *)
Definition typeof_function (mcpManager : Exports) (exportName : string) : Outcome bool :=
  match mcpManager with
  | ExportsValue is_function => Returned (is_function exportName)
  | ExportsUndefined =>
      Thrown ("Cannot read properties of undefined (reading '" +:+ exportName +:+ "')")
  | ExportsNull =>
      Thrown ("Cannot read properties of null (reading '" +:+ exportName +:+ "')")
  end.

Definition testMCPManagerScript : Js W unit :=
  log "Testing MCP Manager script..." "info" >>>
  try_catch
    (call (fs_access "scripts/mcp-manager.js") >>>
     log "MCP Manager script exists" "pass" >>>
     let* mcpManager := call require_mcpManager in
     for_of requiredExports (λ exportName,
       let* is_function := eval (typeof_function mcpManager exportName) in
       if is_function : bool
       then log ("MCP Manager exports " +:+ exportName) "pass"
       else log ("MCP Manager missing export: " +:+ exportName) "fail") >>>
     try_catch
       (let* callable := eval (typeof_function mcpManager "readServers") in
        let* servers :=
          if callable : bool then call mcpManager_readServers
          else throw "mcpManager.readServers is not a function" in
        if typeof_object servers then
          let* keys := eval (Object_keys servers) in
          log ("MCP Manager can read server configuration ("
               +:+ pretty (Z.of_nat (length keys)) +:+ " servers)") "pass"
        else
          log "MCP Manager readServers returns invalid data" "fail")
       (λ error_message,
          log ("MCP Manager readServers error: " +:+ error_message) "warn"))
    (λ error_message,
       log ("MCP Manager script error: " +:+ error_message) "fail").

Definition testStatusReporter : Js W unit :=
  log "Testing MCP Status Reporter..." "info" >>>
  try_catch
    (call (fs_access "scripts/mcp-status-reporter.js") >>>
     log "MCP Status Reporter script exists" "pass" >>>
     let* is_function := call require_statusReporter in
     if is_function : bool then
       log "MCP Status Reporter is properly exported" "pass" >>>
       let* has_generateFullReport := call new_statusReporter in
       if has_generateFullReport : bool
       then log "MCP Status Reporter can be instantiated" "pass"
       else log "MCP Status Reporter missing generateFullReport method" "fail"
     else
       log "MCP Status Reporter not properly exported" "fail")
    (λ error_message,
       log ("Status Reporter error: " +:+ error_message) "fail").

Definition requiredScripts : list string :=
  ["mcp:install"; "mcp:health"; "mcp:test"; "mcp:report"; "mcp:validate"].

(** [a || {}] *)
Definition or_empty_object (a : JsVal) : JsVal :=
  if truthy a then a else JsObj [].

Definition testPackageScripts : Js W unit :=
  log "Testing package.json MCP scripts..." "info" >>>
  try_catch
    (let* text := call (fs_readFile "package.json") in
     let* packageData := eval (JSON_parse text) in
     let* packageData_scripts := eval (getProp packageData "scripts") in
     let scripts := or_empty_object packageData_scripts in
     for_of requiredScripts (λ script,
       let* entry := eval (getProp scripts script) in
       if truthy entry
       then log ("Package script " +:+ script +:+ " configured") "pass"
       else log ("Package script " +:+ script +:+ " missing") "fail") >>>
     let* keys := eval (Object_keys scripts) in
     let mcpScripts :=
       filter (λ script, includes script "mcp:" || includes script "MCP" = true) keys in
     log ("Found " +:+ pretty (Z.of_nat (length mcpScripts)) +:+ " MCP-related scripts")
         "info")
    (λ error_message,
       log ("Package.json error: " +:+ error_message) "fail").

Definition testMCPServerConfig : Js W unit :=
  log "Testing MCP server configuration..." "info" >>>
  try_catch
    (let mcpServerPackage := path_join "mcp-server" "package.json" in
     call (fs_access mcpServerPackage) >>>
     log "MCP server package.json exists" "pass" >>>
     let* text := call (fs_readFile mcpServerPackage) in
     let* packageData := eval (JSON_parse text) in
     let* servers := eval (getProp packageData "servers") in
     let* configured :=
       if truthy servers
       then let* keys := eval (Object_keys servers) in ret (0 <? length keys)%nat
       else ret false in
     if configured : bool then
       let* keys := eval (Object_keys servers) in
       log ("MCP servers configured: " +:+ join ", " keys) "pass"
     else
       log "No MCP servers configured in mcp-server/package.json" "warn")
    (λ error_message,
       log ("MCP server config error: " +:+ error_message) "warn").

Definition docs : list string := ["docs/MCP_VALIDATION_WORKFLOWS.md"; "README.md"].

Definition testDocumentation : Js W unit :=
  log "Testing MCP documentation..." "info" >>>
  for_of docs (λ doc,
    try_catch
      (call (fs_access doc) >>>
       log ("Documentation " +:+ doc +:+ " exists") "pass" >>>
       let* content := call (fs_readFile doc) in
       if includes (toLowerCase content) "mcp"
       then log ("Documentation " +:+ doc +:+ " includes MCP references") "pass"
       else log ("Documentation " +:+ doc +:+ " missing MCP references") "warn")
      (λ _, log ("Documentation " +:+ doc +:+ " not found") "warn")).

Definition testReportDirectory : Js W unit :=
  log "Testing report directory structure..." "info" >>>
  try_catch
    (call (fs_mkdir "reports") >>>
     call (fs_mkdir "reports/mcp-status") >>>
     log "Report directories created successfully" "pass")
    (λ error_message,
       log ("Report directory error: " +:+ error_message) "warn").

(** [totalTests > 0 ? Math.round((passed / totalTests) * 100) : 0] *)
Definition compute_score (t : TestResults) : Z :=
  let totalTests := passed t + failed t in
  if 0 <? totalTests then Number.round (health_ratio (passed t) totalTests) else 0.

(** The object literal [report]. *)
Definition make_report (now : string) (t : TestResults) : TestReport :=
  {| report_timestamp := now;
     summary := {| total_tests := Z.of_nat (length (tests t));
                   summary_passed := passed t;
                   summary_failed := failed t;
                   summary_warnings := warnings t;
                   score := compute_score t |};
     report_tests := testResults_tests;
     status := if failed t =? 0 then "passed" else "failed" |}.

Definition generateTestReport : Js W TestReport :=
  let* t := this in
  let score := compute_score t in
  let* now := call_total Date_toISOString in
  let report := make_report now t in
  call (fs_writeFile "mcp-workflow-integration-test-results.json"
          (JSON_stringify report t)) >>>
  log (nl +:+ "📊 MCP Workflow Integration Test Results:") "info" >>>
  log ("Total Tests: " +:+ pretty (total_tests (summary report))) "info" >>>
  let* t := this in
  log ("Passed: " +:+ pretty (summary_passed (summary report)))
      (if 0 <? passed t then "pass" else "info") >>>
  let* t := this in
  log ("Failed: " +:+ pretty (summary_failed (summary report)))
      (if 0 <? failed t then "fail" else "info") >>>
  let* t := this in
  log ("Warnings: " +:+ pretty (summary_warnings (summary report)))
      (if 0 <? warnings t then "warn" else "info") >>>
  log ("Score: " +:+ pretty score +:+ "%")
      (if 80 <=? score then "pass" else if 60 <=? score then "warn" else "fail") >>>
  ret report.

(** The seven checks of [runFullTest], after its opening line. *)
Definition runChecks : Js W unit :=
  testWorkflowFiles >>>
  testMCPManagerScript >>>
  testStatusReporter >>>
  testPackageScripts >>>
  testMCPServerConfig >>>
  testDocumentation >>>
  testReportDirectory.

Definition runFullTest : Js W bool :=
  log "🎵 Starting MCP Workflow Integration Tests for EchoTune AI..." "info" >>>
  runChecks >>>
  let* report := generateTestReport in
  if String.eqb (status report) "passed" then
    log (nl +:+ "🎉 All MCP workflow integration tests passed!") "pass" >>>
    ret true
  else
    log (nl +:+ "⚠️ Some MCP workflow integration tests failed") "warn" >>>
    ret false.

(** The script run directly: the exit code of the process. *)
Definition main (w : W) : Z * TestResults * W :=
  match runFullTest constructor w with
  | (Returned success, t, w') => (if success : bool then 0 else 1, t, w')
  | (Thrown _, t, w') => (1, t, w')
  end.

End Methods.

(** ** Notions used by the properties *)

(** The types [log] is called with. *)
Definition log_types : list string := ["info"; "pass"; "fail"; "warn"].

(** The number of entries of a type. *)
Definition count_type (ty : string) (l : list TestEntry) : Z :=
  Z.of_nat (length (filter (λ e, type e = ty) l)).

(** The counters count the entries of their type. *)
Definition consistent (t : TestResults) : Prop :=
  passed t = count_type "pass" (tests t)
  ∧ failed t = count_type "fail" (tests t)
  ∧ warnings t = count_type "warn" (tests t).

(** [t'] is [t] after some more calls of [log]. *)
Definition extends (t t' : TestResults) : Prop :=
  ∃ new : list TestEntry,
    tests t' = (tests t ++ new)%list
    ∧ passed t' = passed t + count_type "pass" new
    ∧ failed t' = failed t + count_type "fail" new
    ∧ warnings t' = warnings t + count_type "warn" new
    ∧ Forall (λ e, type e ∈ log_types) new.

(** A computation that only touches the tester through [log]. *)
Definition grows {W A} (m : Js W A) : Prop :=
  ∀ t w, extends t (snd (fst (m t w))).

(** A computation that never throws. *)
Definition total {W A} (m : Js W A) : Prop :=
  ∀ t w, returned (fst (fst (m t w))) = true.

(** A computation that leaves the failure counter where it is. *)
Definition spares {W A} (m : Js W A) : Prop :=
  ∀ t w, failed (snd (fst (m t w))) = failed t.

(** The tester has logged [message] as passed. *)
Definition has_passed (message_ : string) (t : TestResults) : Prop :=
  ∃ e, e ∈ tests t ∧ type e = "pass" ∧ message e = message_.

(** A computation that, when it returns, has logged a failure or has logged
    every one of [messages] as passed. *)
Definition checks {W A} (m : Js W A) (messages : list string) : Prop :=
  ∀ t w,
    match m t w with
    | (Returned _, t', _) =>
        failed t < failed t' ∨ Forall (λ message_, has_passed message_ t') messages
    | (Thrown _, _, _) => True
    end.

(** What a run without failures has logged as passed, check by check. *)
Definition workflow_messages : list string :=
  (λ workflow, "Workflow " +:+ workflow +:+ " has proper triggers") <$> requiredWorkflows.

Definition export_messages : list string :=
  (λ exportName, "MCP Manager exports " +:+ exportName) <$> requiredExports.

Definition script_messages : list string :=
  (λ script, "Package script " +:+ script +:+ " configured") <$> requiredScripts.

Definition passing_messages : list string :=
  (workflow_messages ++ export_messages
   ++ ["MCP Status Reporter can be instantiated"] ++ script_messages)%list.

Section Notions.

Context {W : Type} `{Host W}.

(** The tester when [runFullTest] is about to generate the report. *)
Definition before_report (w : W) : Outcome unit * TestResults * W :=
  (log "🎵 Starting MCP Workflow Integration Tests for EchoTune AI..." "info" >>>
   runChecks) constructor w.

(** The document that [generateTestReport] hands to [fs.writeFile] when it
    is called on the tester [t] in the world [w]. *)
Definition report_document (t : TestResults) (w : W) : ReportDocument :=
  JSON_stringify (make_report (fst (Date_toISOString w)) t) t.

End Notions.

(** ** A scripted host *)

Record Sim : Type := {
  sim_files : list (string * string);     (* path and content of the files *)
  sim_workflows : Outcome (list string);  (* the listing of .github/workflows *)
  sim_exports : Outcome Exports;
  sim_servers : Outcome JsVal;            (* the answer of readServers *)
  sim_reporter : Outcome bool;            (* the reporter module is a function *)
  sim_instance : Outcome bool;            (* its instances have generateFullReport *)
  sim_readonly : list string;             (* paths that cannot be created or written *)
  sim_saved : list (string * ReportDocument);
}.

Definition sim_save (path : string) (doc : ReportDocument) (w : Sim) : Sim :=
  {| sim_files := sim_files w; sim_workflows := sim_workflows w;
     sim_exports := sim_exports w; sim_servers := sim_servers w;
     sim_reporter := sim_reporter w; sim_instance := sim_instance w;
     sim_readonly := sim_readonly w;
     sim_saved := (path, doc) :: sim_saved w |}.

Definition sim_guard (syscall path : string) (w : Sim) : Outcome unit :=
  if list_includes (sim_readonly w) path
  then Thrown ("EACCES: permission denied, " +:+ syscall +:+ " '" +:+ path +:+ "'")
  else Returned tt.

#[export] Instance Sim_host : Host Sim := {
  fs_readdir _ w := (sim_workflows w, w);
  fs_readFile path w :=
    (match assoc path (sim_files w) with
     | Some content => Returned content
     | None => Thrown ("ENOENT: no such file or directory, open '" +:+ path +:+ "'")
     end, w);
  fs_access path w :=
    (match assoc path (sim_files w) with
     | Some _ => Returned tt
     | None => Thrown ("ENOENT: no such file or directory, access '" +:+ path +:+ "'")
     end, w);
  fs_mkdir path w := (sim_guard "mkdir" path w, w);
  fs_writeFile path doc w :=
    match sim_guard "open" path w with
    | Returned _ => (Returned tt, sim_save path doc w)
    | Thrown msg => (Thrown msg, w)
    end;
  Date_toISOString w := ("2025-01-01T00:00:00.000Z", w);
  JSON_parse := λ text,
    if String.eqb text "{ scripts }"
    then Returned (JsObj [("scripts",
           JsObj [("start", JsStr "node src/index.js");
                  ("mcp:install", JsStr "node scripts/mcp-manager.js install");
                  ("mcp:health", JsStr "node scripts/mcp-manager.js health");
                  ("mcp:test", JsStr "node scripts/mcp-manager.js test");
                  ("mcp:report", JsStr "node scripts/mcp-manager.js report");
                  ("mcp:validate", JsStr "npm run mcp:install && npm run mcp:health")])])
    else if String.eqb text "{ servers }"
    then Returned (JsObj [("servers", JsObj [("filesystem", JsObj []); ("browser", JsObj [])])])
    else Thrown "Unexpected token in JSON";
  require_mcpManager w := (sim_exports w, w);
  mcpManager_readServers w := (sim_servers w, w);
  require_statusReporter w := (sim_reporter w, w);
  new_statusReporter w := (sim_instance w, w);
}.

(** A repository in which everything the tester looks for is in place. *)
Definition complete_world : Sim :=
  {| sim_files :=
       [ (".github/workflows/mcp-validation-gateway.yml",
          "on: [pull_request] run: node scripts/mcp-manager.js health");
         (".github/workflows/mcp-scheduled-discovery.yml",
          "on: [schedule] run: node scripts/mcp-manager.js report");
         (".github/workflows/mcp-validation.yml",
          "on: [push] run: node scripts/mcp-manager.js test");
         ("scripts/mcp-manager.js", "module.exports = { ... }");
         ("scripts/mcp-status-reporter.js", "module.exports = MCPStatusReporter");
         ("package.json", "{ scripts }");
         ("mcp-server/package.json", "{ servers }");
         ("docs/MCP_VALIDATION_WORKFLOWS.md", "# MCP Validation Workflows");
         ("README.md", "EchoTune AI") ];
     sim_workflows := Returned ["ci.yml"; "mcp-validation-gateway.yml";
                                "mcp-scheduled-discovery.yml"; "mcp-validation.yml"];
     sim_exports := Returned (ExportsValue (λ name, list_includes requiredExports name));
     sim_servers := Returned (JsObj [("filesystem", JsObj []); ("browser", JsObj [])]);
     sim_reporter := Returned true;
     sim_instance := Returned true;
     sim_readonly := [];
     sim_saved := [] |}.

(** The same repository without its scheduled discovery workflow. *)
Definition incomplete_world : Sim :=
  {| sim_files := sim_files complete_world;
     sim_workflows := Returned ["ci.yml"; "mcp-validation-gateway.yml"; "mcp-validation.yml"];
     sim_exports := sim_exports complete_world;
     sim_servers := sim_servers complete_world;
     sim_reporter := Returned true;
     sim_instance := Returned true;
     sim_readonly := [];
     sim_saved := [] |}.

(** A repository without documentation, without [mcp-server/package.json]
    and where the report directory cannot be created. *)
Definition undocumented_world : Sim :=
  {| sim_files := take 6 (sim_files complete_world);
     sim_workflows := sim_workflows complete_world;
     sim_exports := sim_exports complete_world;
     sim_servers := Thrown "ENOENT: no such file or directory, open 'mcp-servers.json'";
     sim_reporter := Returned true;
     sim_instance := Returned true;
     sim_readonly := ["reports"];
     sim_saved := [] |}.

(** The complete repository, in a directory where the results file cannot
    be written. *)
Definition unwritable_world : Sim :=
  {| sim_files := sim_files complete_world;
     sim_workflows := sim_workflows complete_world;
     sim_exports := sim_exports complete_world;
     sim_servers := sim_servers complete_world;
     sim_reporter := Returned true;
     sim_instance := Returned true;
     sim_readonly := ["mcp-workflow-integration-test-results.json"];
     sim_saved := [] |}.

End WorkflowTester.

(** * Properties *)

(** ** Binary64 arithmetic: the health ratio never exceeds 100 *)

(** One shift halves the mantissa and keeps the approximation. *)
Lemma shr_1_approx mrs D N :
  0 < D -> approx mrs D N -> approx (shr_1 mrs) (2 * D) N.
Proof.
  intros HD. destruct mrs as [m r s]. unfold approx. cbn [shr_m shr_r shr_s].
  intros (Hm & Hle & Hex).
  destruct m as [|p|p]; [| |lia].
  - cbn [shr_1 shr_m shr_r shr_s orb]. split; [lia|]. split; [lia|].
    rewrite Hex. lia.
  - destruct p as [p|p|]; cbn [shr_1 shr_m shr_r shr_s orb];
      (split; [lia|]); (split; [lia|]).
    + split; [discriminate|]. lia.
    + rewrite Hex. lia.
    + split; [discriminate|]. lia.
Qed.

Lemma pow2_xO p : 2 ^ Z.pos p~0 = 2 ^ Z.pos p * 2 ^ Z.pos p.
Proof.
  assert (E : Z.pos p~0 = Z.pos p + Z.pos p) by lia.
  rewrite E. now rewrite Z.pow_add_r by lia.
Qed.

Lemma pow2_xI p : 2 ^ Z.pos p~1 = 2 ^ Z.pos p * 2 ^ Z.pos p * 2.
Proof.
  assert (E : Z.pos p~1 = Z.pos p + Z.pos p + 1) by lia.
  rewrite E. now rewrite !Z.pow_add_r by lia.
Qed.

(** So do [p] shifts. *)
Lemma iter_pos_approx p : forall mrs D N,
  0 < D -> approx mrs D N -> approx (SpecFloat.iter_pos shr_1 p mrs) (2 ^ Z.pos p * D) N.
Proof.
  induction p as [p IH|p IH|]; intros mrs D N HD H; cbn [SpecFloat.iter_pos].
  - replace (2 ^ Z.pos p~1 * D) with (2 ^ Z.pos p * (2 ^ Z.pos p * (2 * D)))
      by (rewrite pow2_xI; ring).
    assert (0 < 2 ^ Z.pos p) by (apply Z.pow_pos_nonneg; lia).
    apply IH; [nia|]. apply IH; [lia|]. now apply shr_1_approx.
  - replace (2 ^ Z.pos p~0 * D) with (2 ^ Z.pos p * (2 ^ Z.pos p * D))
      by (rewrite pow2_xO; ring).
    assert (0 < 2 ^ Z.pos p) by (apply Z.pow_pos_nonneg; lia).
    apply IH; [nia|]. now apply IH.
  - change (2 ^ 1) with 2. now apply shr_1_approx.
Qed.

(** A positive integer has at least the value of its top bit. *)
Lemma Zdigits2_lower m : 0 < m -> 2 ^ (Zdigits2 m - 1) <= m.
Proof.
  destruct m as [|p|p]; try lia. intros _. cbn [Zdigits2].
  induction p as [p IH|p IH|]; cbn [digits2_pos].
  - rewrite Pos2Z.inj_succ.
    replace (Z.succ (Z.pos (digits2_pos p)) - 1) with (Z.pos (digits2_pos p) - 1 + 1) by lia.
    rewrite Z.pow_add_r by lia. lia.
  - rewrite Pos2Z.inj_succ.
    replace (Z.succ (Z.pos (digits2_pos p)) - 1) with (Z.pos (digits2_pos p) - 1 + 1) by lia.
    rewrite Z.pow_add_r by lia. lia.
  - reflexivity.
Qed.

(** A mantissa that stays below [B < 2^53] at a non-positive exponent is
    rounded at a non-positive exponent. *)
Lemma fexp_nonpos m e B :
  0 <= m -> e <= 0 -> m <= B * 2 ^ (- e) -> B < 2 ^ 53 ->
  fexp Number.prec Number.emax (Zdigits2 m + e) <= 0.
Proof.
  intros Hm He Hle HB. unfold fexp, emin, Number.prec, Number.emax.
  apply Z.max_lub; [|lia].
  destruct (Z.eq_dec m 0) as [->|Hne]; [cbn; lia|].
  pose proof (Zdigits2_lower m ltac:(lia)) as Hd.
  assert (Hpow : 0 < 2 ^ (- e)) by (apply Z.pow_pos_nonneg; lia).
  assert (Hlt : 2 ^ (Zdigits2 m - 1) < 2 ^ (53 - e)).
  { replace (53 - e) with (53 + - e) by lia. rewrite Z.pow_add_r by lia. nia. }
  apply Z.pow_lt_mono_r_iff in Hlt; lia.
Qed.

(** [shr] by [n] places moves the exponent by [n] and keeps the approximation. *)
Lemma shr_approx mrs e n D N :
  0 < D -> approx mrs D N ->
  snd (shr mrs e n) = e + Z.max 0 n /\
  approx (fst (shr mrs e n)) (2 ^ Z.max 0 n * D) N.
Proof.
  intros HD H. destruct n as [|p|p]; cbn [shr fst snd].
  - split; [lia|]. change (2 ^ Z.max 0 0) with 1. now rewrite Z.mul_1_l.
  - split; [lia|]. replace (Z.max 0 (Z.pos p)) with (Z.pos p) by lia.
    now apply iter_pos_approx.
  - split; [lia|]. replace (Z.max 0 (Z.neg p)) with 0 by lia.
    change (2 ^ 0) with 1. now rewrite Z.mul_1_l.
Qed.

(** The record of a mantissa and a location approximates what they stand for. *)
Lemma approx_of_loc m l D N :
  0 <= m -> m * D <= N -> (l = loc_Exact <-> N = m * D) ->
  approx (shr_record_of_loc m l) D N.
Proof.
  intros Hm Hle Hex. unfold approx.
  destruct l as [|[]]; cbn [shr_record_of_loc shr_m shr_r shr_s orb];
    (split; [lia|]); (split; [lia|]); rewrite <- Hex; split; congruence.
Qed.

(** Rounding to nearest even keeps the mantissa or adds one, and adds one
    only when the fraction is strictly above the mantissa. *)
Lemma round_nearest_even_bound mrs D N :
  approx mrs D N ->
  let m1 := round_nearest_even (shr_m mrs) (loc_of_shr_record mrs) in
  shr_m mrs <= m1 /\ (m1 = shr_m mrs \/ (m1 = shr_m mrs + 1 /\ shr_m mrs * D < N)).
Proof.
  destruct mrs as [m r s]. unfold approx. cbn [shr_m shr_r shr_s].
  intros (Hm & Hle & Hex).
  destruct r, s; cbn [loc_of_shr_record round_nearest_even orb] in *.
  - split; [lia|]. right. split; [lia|].
    assert (N <> m * D) by (intros E; apply Hex in E; discriminate). lia.
  - assert (N <> m * D) by (intros E; apply Hex in E; discriminate).
    destruct (Z.even m); (split; [lia|]); [left|right]; lia.
  - split; [lia|]. now left.
  - split; [lia|]. now left.
Qed.

(** Rounding never crosses an integer bound: a non-negative fraction
    [N / D * 2^ex] that is at most [B] rounds to a double that is at most
    [B]. *)
Lemma binary_round_aux_bound mx ex lx D N B :
  0 <= mx -> ex <= 0 -> 0 < D -> mx * D <= N ->
  (lx = loc_Exact <-> N = mx * D) ->
  1 <= B < 2 ^ 53 -> N <= B * D * 2 ^ (- ex) ->
  binary_round_aux Number.prec Number.emax false mx ex lx = S754_zero false
  \/ exists m e,
       binary_round_aux Number.prec Number.emax false mx ex lx = S754_finite false m e
       /\ e <= 0 /\ Z.pos m <= B * 2 ^ (- e).
Proof.
  intros Hmx Hex HD Hle Hloc HB HN.
  assert (Hp : 0 < 2 ^ (- ex)) by (apply Z.pow_pos_nonneg; lia).
  unfold binary_round_aux, shr_fexp.
  pose proof (fexp_nonpos mx ex B Hmx Hex ltac:(nia) ltac:(lia)) as Hf1.
  set (n1 := fexp Number.prec Number.emax (Zdigits2 mx + ex) - ex) in *.
  destruct (shr_approx (shr_record_of_loc mx lx) ex n1 D N HD
              (approx_of_loc mx lx D N Hmx Hle Hloc)) as [He1 Ha1].
  destruct (shr (shr_record_of_loc mx lx) ex n1) as [mrs1 e1].
  cbn [fst snd] in He1, Ha1.
  assert (He1' : e1 <= 0) by lia.
  set (k1 := Z.max 0 n1) in *.
  assert (Hk1 : 0 <= k1) by lia.
  assert (Hpk : 0 < 2 ^ k1) by (apply Z.pow_pos_nonneg; lia).
  assert (Hsplit : 2 ^ (- ex) = 2 ^ (- e1) * 2 ^ k1).
  { rewrite <- Z.pow_add_r by lia. f_equal. lia. }
  assert (Hpe1 : 0 < 2 ^ (- e1)) by (apply Z.pow_pos_nonneg; lia).
  destruct (round_nearest_even_bound mrs1 _ N Ha1) as [Hge Hcases].
  set (m1 := round_nearest_even (shr_m mrs1) (loc_of_shr_record mrs1)) in *.
  destruct Ha1 as (Hm1 & Hle1 & _).
  assert (Hm1B : m1 <= B * 2 ^ (- e1)).
  { rewrite Hsplit in HN.
    destruct Hcases as [-> | [-> Hlt]].
    - apply Z.mul_le_mono_pos_r with (p := 2 ^ k1 * D); [nia|]. nia.
    - assert (shr_m mrs1 < B * 2 ^ (- e1)); [|lia].
      apply Z.mul_lt_mono_pos_r with (p := 2 ^ k1 * D); [nia|]. nia. }
  pose proof (fexp_nonpos m1 e1 B ltac:(lia) He1' Hm1B ltac:(lia)) as Hf2.
  set (n2 := fexp Number.prec Number.emax (Zdigits2 m1 + e1) - e1) in *.
  destruct (shr_approx (shr_record_of_loc m1 loc_Exact) e1 n2 1 m1 ltac:(lia)
              (approx_of_loc m1 loc_Exact 1 m1 ltac:(lia) ltac:(lia) ltac:(split; [lia|reflexivity])))
    as [He2 Ha2].
  destruct (shr (shr_record_of_loc m1 loc_Exact) e1 n2) as [mrs2 e2].
  cbn [fst snd] in He2, Ha2.
  destruct Ha2 as (Hm2 & Hle2 & _).
  set (k2 := Z.max 0 n2) in *.
  assert (Hpk2 : 0 < 2 ^ k2) by (apply Z.pow_pos_nonneg; lia).
  assert (He2' : e2 <= 0) by lia.
  assert (Hsplit2 : 2 ^ (- e1) = 2 ^ (- e2) * 2 ^ k2).
  { rewrite <- Z.pow_add_r by lia. f_equal. lia. }
  destruct (shr_m mrs2) as [|m2|m2] eqn:Em2; [now left| |lia].
  right. exists m2, e2.
  replace (e2 <=? Number.emax - Number.prec) with true
    by (symmetry; apply Z.leb_le; unfold Number.emax, Number.prec; lia).
  split; [reflexivity|]. split; [lia|].
  rewrite Hsplit2 in Hm1B.
  apply Z.mul_le_mono_pos_r with (p := 2 ^ k2); [lia|]. nia.
Qed.

(** Shifting a mantissa left. *)
Lemma digits2_pos_iter_xO p k :
  digits2_pos (Pos.iter xO p k) = (digits2_pos p + k)%positive.
Proof.
  induction k as [|k IH] using Pos.peano_ind.
  - cbn. lia.
  - rewrite Pos.iter_succ. cbn [digits2_pos]. rewrite IH. lia.
Qed.

Lemma Zpos_iter_xO p k : Z.pos (Pos.iter xO p k) = Z.pos p * 2 ^ Z.pos k.
Proof.
  induction k as [|k IH] using Pos.peano_ind.
  - cbn. lia.
  - rewrite Pos.iter_succ, Pos2Z.inj_xO, IH, Pos2Z.inj_succ, Z.pow_succ_r by lia. ring.
Qed.

(** A mantissa that already sits at its exponent is left alone. *)
Lemma binary_round_aux_exact m e :
  fexp Number.prec Number.emax (Z.pos (digits2_pos m) + e) <= e ->
  e <= Number.emax - Number.prec ->
  binary_round_aux Number.prec Number.emax false (Z.pos m) e loc_Exact
  = S754_finite false m e.
Proof.
  intros Hf He. unfold binary_round_aux, shr_fexp. cbn [Zdigits2].
  assert (Hshr : forall mrs, shr mrs e
            (fexp Number.prec Number.emax (Z.pos (digits2_pos m) + e) - e) = (mrs, e)).
  { intros mrs.
    destruct (fexp Number.prec Number.emax (Z.pos (digits2_pos m) + e) - e) eqn:E;
      [reflexivity|lia|reflexivity]. }
  rewrite Hshr. cbn [shr_record_of_loc shr_m loc_of_shr_record round_nearest_even Zdigits2].
  rewrite Hshr. cbn [shr_record_of_loc shr_m].
  apply Z.leb_le in He. now rewrite He.
Qed.

(** A positive integer below [2^53] is a double exactly: a mantissa of 53
    bits at a non-positive exponent. *)
Lemma of_Z_pos p :
  Z.pos p < 2 ^ 53 ->
  exists m e,
    Number.of_Z (Z.pos p) = S754_finite false m e
    /\ digits2_pos m = 53%positive /\ -52 <= e <= 0
    /\ Z.pos m = Z.pos p * 2 ^ (- e).
Proof.
  intros Hp.
  pose proof (Zdigits2_lower (Z.pos p) ltac:(lia)) as Hd. cbn [Zdigits2] in Hd.
  assert (Hd53 : Z.pos (digits2_pos p) <= 53).
  { assert (Hlt : 2 ^ (Z.pos (digits2_pos p) - 1) < 2 ^ 53) by lia.
    apply Z.pow_lt_mono_r_iff in Hlt; lia. }
  unfold Number.of_Z, binary_normalize, binary_round.
  assert (Hfexp : fexp Number.prec Number.emax (Z.pos (digits2_pos p) + 0)
                  = Z.pos (digits2_pos p) - 53).
  { unfold fexp, emin, Number.prec, Number.emax. lia. }
  rewrite Hfexp. unfold shl_align.
  destruct (Z.pos (digits2_pos p) - 53 - 0) as [|k|k] eqn:Ek; [|lia|].
  - exists p, 0. rewrite binary_round_aux_exact.
    + repeat split; lia.
    + unfold fexp, emin, Number.prec, Number.emax. lia.
    + unfold Number.prec, Number.emax. lia.
  - exists (Pos.iter xO p k), (Z.pos (digits2_pos p) - 53).
    rewrite binary_round_aux_exact.
    + rewrite digits2_pos_iter_xO, Zpos_iter_xO.
      repeat split; try lia. f_equal. f_equal. lia.
    + rewrite digits2_pos_iter_xO. unfold fexp, emin, Number.prec, Number.emax. lia.
    + unfold Number.prec, Number.emax. lia.
Qed.

(** The location of a quotient is exact when the remainder is zero. *)
Lemma new_location_exact d r :
  new_location d r = loc_Exact <-> r = 0.
Proof.
  unfold new_location, new_location_even, new_location_odd.
  destruct (Z.even d); destruct (Z.eqb_spec r 0) as [->|Hne];
    split; try reflexivity; try discriminate; try contradiction.
  all: intros E; try (destruct (2 * r + 1 ?= d); discriminate); congruence.
Qed.

(** The ratio is rounded as a double before [Math.round] sees it: 3 of 10
    gives 30 and 1 of 8 gives 13 (12.5 goes up), but 29 of 200 gives 14, the
    product of the double nearest to 0.145 and 100 lying just below 14.5. *)
Example health_ratio_rounding :
  Number.round (health_ratio 3 10) = 30
  ∧ Number.round (health_ratio 1 8) = 13
  ∧ Number.round (health_ratio 29 200) = 14
  ∧ health_ratio 29 200 = S754_finite false 8162774324609023 (-49).
Proof. vm_compute. done. Qed.

(** [healthy / total] is at most one. *)
Lemma div_small h t :
  0 <= h <= t -> 0 < t < 2 ^ 53 ->
  small (Number.div (Number.of_Z h) (Number.of_Z t)) 1.
Proof.
  intros Hh Ht. unfold Number.div.
  destruct t as [|pt|pt]; try lia.
  destruct (of_Z_pos pt ltac:(lia)) as (m2 & e2 & -> & Hd2 & He2 & Hv2).
  destruct h as [|ph|ph]; try lia.
  { left. reflexivity. }
  destruct (of_Z_pos ph ltac:(lia)) as (m1 & e1 & -> & Hd1 & He1 & Hv1).
  unfold SFdiv, SFdiv_core_binary. cbn [Zdigits2 xorb]. rewrite Hd1, Hd2.
  assert (Hemin : Z.min (fexp Number.prec Number.emax (53 + e1 - (53 + e2))) (e1 - e2)
                  = e1 - e2 - 53).
  { unfold fexp, emin, Number.prec, Number.emax. lia. }
  rewrite Hemin.
  replace (e1 - e2 - (e1 - e2 - 53)) with 53 by lia.
  cbv beta iota. rewrite Z.shiftl_mul_pow2 by lia.
  pose proof (Z_div_mod (Z.pos m1 * 2 ^ 53) (Z.pos m2) ltac:(lia)) as Hdiv.
  destruct (Z.div_eucl (Z.pos m1 * 2 ^ 53) (Z.pos m2)) as [q r].
  destruct Hdiv as [Hqr Hr].
  assert (Hq : 0 <= q) by nia.
  apply (binary_round_aux_bound q (e1 - e2 - 53) _ (Z.pos m2) (Z.pos m1 * 2 ^ 53) 1);
    try lia.
  - rewrite new_location_exact. lia.
  - rewrite Hv1, Hv2.
    assert (E : 2 ^ (- e2) * 2 ^ (- (e1 - e2 - 53)) = 2 ^ (- e1) * 2 ^ 53).
    { rewrite <- !Z.pow_add_r by lia. f_equal. lia. }
    assert (0 < 2 ^ (- e1) * 2 ^ 53) by (apply Z.mul_pos_pos; apply Z.pow_pos_nonneg; lia).
    nia.
Qed.

Lemma of_Z_100 : Number.of_Z 100 = S754_finite false 7036874417766400 (-46).
Proof. reflexivity. Qed.

(** Times 100, at most 100. *)
Lemma mul_100_small x :
  small x 1 -> small (Number.mul x (Number.of_Z 100)) 100.
Proof.
  intros [-> | (m & e & -> & He & Hm)]; rewrite of_Z_100.
  { left. reflexivity. }
  unfold Number.mul, SFmul. cbn [xorb].
  apply (binary_round_aux_bound _ (e + -46) loc_Exact 1 (Z.pos (m * 7036874417766400)) 100);
    try lia.
  - split; [lia|reflexivity].
  - replace (- (e + -46)) with (- e + 46) by lia.
    rewrite Z.pow_add_r by lia. change (2 ^ 46) with 70368744177664.
    rewrite Pos2Z.inj_mul. nia.
Qed.

(** [Math.round] of a double between 0 and 100. *)
Lemma round_small x : small x 100 -> 0 <= Number.round x <= 100.
Proof.
  intros [-> | (m & e & -> & He & Hm)]; cbn [Number.round]; [lia|].
  assert (Hp : 0 < 2 ^ (- e)) by (apply Z.pow_pos_nonneg; lia).
  destruct (Z.leb_spec 0 e) as [H0|Hneg].
  - replace e with 0 in * by lia. change (2 ^ (- 0)) with 1 in Hm.
    change (2 ^ 0) with 1. lia.
  - assert (E : 2 ^ (1 - e) = 2 * 2 ^ (- e)).
    { replace (1 - e) with (1 + - e) by lia. now rewrite Z.pow_add_r by lia. }
    rewrite E. split.
    + apply Z.div_pos; lia.
    + apply Z.lt_succ_r, Z.div_lt_upper_bound; lia.
Qed.


(** ** Counting the classified servers *)

Lemma count_where_empty P : count_where P ∅ = 0.
Proof. unfold count_where. by rewrite map_filter_empty, map_size_empty. Qed.

Lemma count_where_insert P (m : gmap string ServerResult) k r :
  m !! k = None →
  count_where P (<[k:=r]> m) = count_where P m + b2z (P r).
Proof.
  intros Hk. unfold count_where.
  destruct (P r) eqn:HP; simpl.
  - rewrite map_filter_insert_True by done.
    rewrite map_size_insert_None; [lia|].
    by apply map_lookup_filter_None_2; left.
  - rewrite map_filter_insert_not' ; [lia| simpl; congruence |].
    intros y Hy. congruence.
Qed.

(** The results object is the map of all results without its [__proto__]
    entry, before and after an assignment. *)
Lemma set_property_delete {A} (k : string) (r : A) (m : gmap string A) :
  set_property k r (delete "__proto__" m) = delete "__proto__" (<[k:=r]> m).
Proof.
  unfold set_property. destruct (String.eqb_spec k "__proto__") as [->|Hne].
  - by rewrite delete_insert_eq.
  - by rewrite delete_insert_ne.
Qed.

Lemma add_counts_compose a b c d (t : Reporter) :
  with_results (with_summary (add_counts a b))
    (with_results (with_summary (add_counts c d)) t)
  = with_results (with_summary (add_counts (c + a) (d + b))) t.
Proof.
  unfold with_results, with_summary, add_counts; simpl.
  do 3 f_equal; lia.
Qed.

Lemma add_counts_zero (t : Reporter) :
  with_results (with_summary (add_counts 0 0)) t = t.
Proof.
  destruct t as [? ? [? [] ? ? ? ?] ?].
  unfold with_results, with_summary, add_counts; simpl.
  do 3 f_equal; lia.
Qed.

(** ** Running the methods *)

Lemma bind_returned {W A B} (m : Js W A) (k : A → Js W B) t w a t' w' :
  m t w = (Returned a, t', w') → bind m k t w = k a t' w'.
Proof. unfold bind. by intros ->. Qed.

Lemma bind_thrown {W A B} (m : Js W A) (k : A → Js W B) t w msg t' w' :
  m t w = (Thrown msg, t', w') → bind m k t w = (Thrown msg, t', w').
Proof. unfold bind. by intros ->. Qed.

Lemma incr_healthy_counts s : incr_healthy_servers s = add_counts 1 0 s.
Proof. unfold incr_healthy_servers, add_counts. f_equal; lia. Qed.

Lemma incr_failed_counts s : incr_failed_servers s = add_counts 0 1 s.
Proof. unfold incr_failed_servers, add_counts. f_equal; lia. Qed.

(** ** The sweep, step by step *)

Section Sweep.

Context {W : Type} `{Host W}.

(** One iteration of the loop: the server gets exactly one of the three
    classifications, and exactly one of the two counters moves by one. *)
Lemma testServer_spec k cfg (acc : gmap string ServerResult) (t : Reporter) (w : W) :
  ∃ r w',
    testServer (k, cfg) acc t w
    = (Returned (set_property k r acc),
       with_results (with_summary (add_counts (b2z (is_healthy r)) (b2z (is_failed r)))) t,
       w')
    ∧ classified r
    ∧ b2z (is_healthy r) + b2z (is_failed r) = 1.
Proof.
  unfold testServer, bind, try_catch, call, call_total, ask, assign_summary,
    assign_results, assign, ret, with_results, with_summary.
  destruct (Date_toISOString w) as [last w1].
  destruct (Date_now w1) as [start w2].
  destruct (mcpManager_probeHealth _ 5000 500 w2) as [[[|]|msg] w3];
    [destruct (Date_now w3) as [stop w4] ..|];
    cbn beta iota; rewrite ?incr_healthy_counts, ?incr_failed_counts;
    (eexists _, _; split; [apply (f_equal2 pair); [apply (f_equal2 pair)|]; reflexivity|]);
    (split; [|done]).
  - by left.
  - by right; left.
  - by right; right.
Qed.

(** The loop over the registry: every server is probed and classified, and
    the two counters grow by the number of servers classified healthy and
    failed; the results object holds the result of every server but the one
    named [__proto__]. *)
Lemma for_of_testServer_spec (entries : list (string * ServerConfig)) :
  NoDup entries.*1 →
  ∀ (acc : gmap string ServerResult) (t : Reporter) (w : W),
    (∀ k, k ∈ entries.*1 → acc !! k = None) →
    ∃ acc' w',
      for_of entries testServer (delete "__proto__" acc) t w
      = (Returned (delete "__proto__" acc'),
         with_results (with_summary (add_counts
           (count_where is_healthy acc' - count_where is_healthy acc)
           (count_where is_failed acc' - count_where is_failed acc))) t,
         w')
      ∧ dom acc' = dom acc ∪ list_to_set entries.*1
      ∧ (map_Forall (λ _ r, classified r) acc → map_Forall (λ _ r, classified r) acc').
Proof.
  induction entries as [|[k cfg] entries IH]; intros Hnodup acc t w Hfresh.
  - exists acc, w. rewrite !Z.sub_diag, add_counts_zero. simpl.
    split; [done|]. split; [by rewrite (right_id_L ∅ (∪))|done].
  - rewrite fmap_cons in Hnodup, Hfresh. cbn [fst] in Hnodup, Hfresh.
    apply NoDup_cons in Hnodup as [Hk Hnodup].
    destruct (testServer_spec k cfg (delete "__proto__" acc) t w)
      as (r & w1 & Hstep & Hr & _).
    rewrite set_property_delete in Hstep.
    assert (Hacc : acc !! k = None) by (apply Hfresh, elem_of_cons; by left).
    destruct (IH Hnodup (<[k:=r]> acc)
                (with_results (with_summary
                   (add_counts (b2z (is_healthy r)) (b2z (is_failed r)))) t) w1)
      as (acc' & w' & Hloop & Hdom & Hall).
    { intros k' Hk'. rewrite lookup_insert_ne; [|by intros ->].
      apply Hfresh, elem_of_cons. by right. }
    exists acc', w'. split; [|split].
    + cbn [for_of]. rewrite (bind_returned _ _ _ _ _ _ _ Hstep), Hloop.
      rewrite add_counts_compose.
      rewrite !count_where_insert by done.
      apply (f_equal2 pair); [apply (f_equal2 pair); [done|]|done].
      do 3 f_equal; lia.
    + rewrite Hdom, dom_insert_L, fmap_cons, list_to_set_cons. cbn [fst].
      by rewrite (assoc_L (∪)), (comm_L (∪) {[k]}).
    + intros Hold. apply Hall. by apply map_Forall_insert_2.
Qed.

Lemma registry_outcome_view w t t' :
  servers_view t' = servers_view t →
  registry_outcome w (results t) → registry_outcome w (results t').
Proof.
  unfold servers_view, registry_outcome. intros [= -> -> -> -> ->]. done.
Qed.

Lemma same_identity_trans t1 t2 t3 :
  same_identity t1 t2 → same_identity t2 t3 → same_identity t1 t3.
Proof.
  unfold same_identity. intros (? & ? & ? & ?) (? & ? & ? & ?).
  repeat split; congruence.
Qed.

Lemma peripheral_trans t1 t2 t3 :
  peripheral t1 t2 → peripheral t2 t3 → peripheral t1 t3.
Proof.
  unfold peripheral. intros (? & E1 & ?) (? & E2 & ?).
  split; [eauto using same_identity_trans|]. split; [congruence|lia].
Qed.

Lemma counted_summary (s : Summary) (n h f : Z) :
  healthy_servers s = 0 → failed_servers s = 0 → health_score s = 0 →
  let s' := compute_health_score (add_counts h f (set_total_servers n s)) in
  total_servers s' = n ∧ healthy_servers s' = h ∧ failed_servers s' = f
  ∧ health_score s' = score_of h n ∧ warnings s' = warnings s.
Proof.
  destruct s as [st sc tot he fa wa]; cbn. intros -> -> ->.
  unfold compute_health_score, score_of. cbn.
  destruct (0 <? n); cbn; repeat split; lia.
Qed.

(** [collectMCPServerStatus] from counters at zero: it never throws. *)
Lemma collectMCPServerStatus_spec (t : Reporter) (w : W) :
  total_servers (summary (results t)) = 0 →
  healthy_servers (summary (results t)) = 0 →
  failed_servers (summary (results t)) = 0 →
  health_score (summary (results t)) = 0 →
  ∃ t' w',
    collectMCPServerStatus t w = (Returned tt, t', w')
    ∧ registry_outcome w (results t')
    ∧ same_identity t t'
    ∧ warnings (summary (results t)) ≤ warnings (summary (results t'))
    ∧ system_info (results t') = system_info (results t).
Proof.
  intros Htotal Hhealthy Hfailed Hscore.
  unfold collectMCPServerStatus, registry_outcome, try_catch.
  destruct (mcpManager_readServers w) as [[servers|msg] w1] eqn:Hread.
  - rewrite (bind_returned _ _ _ _ servers t w1)
      by (unfold call; by rewrite Hread).
    unfold bind at 1, assign_summary at 1, assign_results at 1, assign at 1.
    destruct (for_of_testServer_spec (map_to_list servers)
                (NoDup_fst_map_to_list servers) ∅
                (with_results (with_summary
                   (set_total_servers (Z.of_nat (size servers)))) t) w1)
      as (serverResults & w' & Hloop & Hdom & Hall); [done|].
    rewrite delete_empty in Hloop.
    rewrite (bind_returned _ _ _ _ _ _ _ Hloop).
    eexists _, w'. split; [reflexivity|].
    assert (Hkeys : dom serverResults = dom servers).
    { rewrite Hdom, dom_empty_L, (left_id_L ∅ (∪)).
      apply set_eq. intros k. rewrite elem_of_list_to_set, elem_of_dom.
      rewrite list_elem_of_fmap. split.
      - intros [[k' cfg] [-> Hin]]. apply elem_of_map_to_list in Hin. by exists cfg.
      - intros [cfg Hk]. exists (k, cfg). split; [done|].
        by apply elem_of_map_to_list. }
    specialize (Hall (map_Forall_empty _)).
    rewrite !count_where_empty, !Z.sub_0_r.
    unfold same_identity.
    cbn -[compute_health_score add_counts set_total_servers].
    destruct (counted_summary (summary (results t)) (Z.of_nat (size servers))
                (count_where is_healthy serverResults)
                (count_where is_failed serverResults))
      as (-> & -> & -> & -> & ->); [done..|].
    split; [by exists serverResults|]. repeat split. lia.
  - unfold bind at 1, call. rewrite Hread.
    eexists _, w1. split; [reflexivity|]. unfold same_identity. cbn.
    repeat split; lia || done.
Qed.

Ltac js_unfold :=
  unfold bind, try_catch, call, call_total, ask, this, assign_components,
    assign_summary, assign_results, assign, ret, throw.

Ltac peripheral_done :=
  eexists _, _; split; [reflexivity|];
  unfold peripheral, same_identity, servers_view; cbn; repeat split; lia.

(** The four other collection steps never throw and are peripheral. *)
Lemma collectSystemInfo_spec (t : Reporter) (w : W) :
  ∃ t' w', collectSystemInfo t w = (Returned tt, t', w') ∧ peripheral t t'.
Proof.
  unfold collectSystemInfo. js_unfold.
  destruct (execAsync "npm --version" w) as [[npm|msg] w1]; [|peripheral_done].
  destruct (execAsync "python3 --version" w1) as [[py|msg] w2]; peripheral_done.
Qed.

Lemma collectWorkflowStatus_spec (t : Reporter) (w : W) :
  ∃ t' w', collectWorkflowStatus t w = (Returned tt, t', w') ∧ peripheral t t'.
Proof.
  unfold collectWorkflowStatus. js_unfold.
  destruct (fs_readdir ".github/workflows" w) as [[files|msg] w1]; peripheral_done.
Qed.

Lemma collectPackageStatus_spec (t : Reporter) (w : W) :
  ∃ t' w', collectPackageStatus t w = (Returned tt, t', w') ∧ peripheral t t'.
Proof.
  unfold collectPackageStatus. js_unfold.
  destruct (fs_readPackageJson w) as [[packageData|msg] w1]; [|peripheral_done].
  destruct (fs_stat_mtime "package.json" w1) as [[mtime|msg] w2]; peripheral_done.
Qed.

Lemma collectPerformanceMetrics_spec (t : Reporter) (w : W) :
  ∃ t' w',
    collectPerformanceMetrics t w = (Returned tt, t', w')
    ∧ peripheral t t' ∧ performance_rated (results t').
Proof.
  unfold collectPerformanceMetrics, performance_rated, rate_config_load. js_unfold.
  destruct (Date_now w) as [startTime w1].
  destruct (mcpManager_readServers w1) as [[servers|msg] w2].
  - destruct (Date_now w2) as [endTime w3].
    destruct (Date_toISOString w3) as [now w4].
    destruct (endTime - startTime <? 1000) eqn:H1000;
      [|destruct (endTime - startTime <? 3000) eqn:H3000].
    all: eexists _, _; split; [reflexivity|].
    all: unfold peripheral, same_identity, servers_view; cbn.
    all: rewrite ?H1000, ?H3000; repeat split; lia.
  - eexists _, _; split; [reflexivity|].
    unfold peripheral, same_identity, servers_view; cbn. repeat split; lia.
Qed.

Lemma finalize_summary (t : Reporter) :
  summary (results (finalize t))
  = set_overall_status (classify (summary (results t))) (summary (results t)).
Proof. reflexivity. Qed.

Lemma finalize_components (t : Reporter) :
  components (results (finalize t)) = components (results t).
Proof. reflexivity. Qed.

Lemma finalize_recommendations (t : Reporter) :
  recommendations (results (finalize t)) = deriveRecommendations (results t).
Proof. reflexivity. Qed.

(** The whole sweep from a fresh reporter: it never throws; [t5] is the
    reporter after the five collection steps. *)
Lemma sweep_spec (now : string) (dir : option string) (w : W) :
  ∃ t5 w',
    sweep (fresh now dir) w = (Returned tt, finalize t5, w')
    ∧ registry_outcome (registry_world now dir w) (results t5)
    ∧ performance_rated (results t5)
    ∧ same_identity (fresh now dir) t5
    ∧ 0 ≤ warnings (summary (results t5)).
Proof.
  unfold sweep, registry_world.
  destruct (collectSystemInfo_spec (fresh now dir) w) as (t1 & w1 & E1 & P1).
  rewrite E1. cbn [snd].
  destruct (collectMCPServerStatus_spec t1 w1) as (t2 & w2 & E2 & R2 & I2 & W2 & _).
  1-4: destruct P1 as (_ & [= _ Ht Hh Hf Hs] & _);
    rewrite ?Ht, ?Hh, ?Hf, ?Hs; by destruct dir.
  destruct (collectWorkflowStatus_spec t2 w2) as (t3 & w3 & E3 & P3).
  destruct (collectPackageStatus_spec t3 w3) as (t4 & w4 & E4 & P4).
  destruct (collectPerformanceMetrics_spec t4 w4) as (t5 & w5 & E5 & P5 & R5).
  exists t5, w5.
  rewrite (bind_returned _ _ _ _ _ _ _ E1), (bind_returned _ _ _ _ _ _ _ E2),
    (bind_returned _ _ _ _ _ _ _ E3), (bind_returned _ _ _ _ _ _ _ E4),
    (bind_returned _ _ _ _ _ _ _ E5).
  pose proof (peripheral_trans _ _ _ P3 (peripheral_trans _ _ _ P4 P5))
    as (I5 & V5 & W5).
  split; [reflexivity|]. split; [by apply (registry_outcome_view w1 t2)|].
  split; [done|].
  destruct P1 as (I1 & _ & W1).
  split; [eauto using same_identity_trans|].
  assert (warnings (summary (results (fresh now dir))) = 0) by by destruct dir.
  lia.
Qed.

(** Every classified entry is counted once: as healthy or as failed. *)
Lemma classified_counts (m : gmap string ServerResult) :
  map_Forall (λ _ r, classified r) m →
  count_where is_healthy m + count_where is_failed m = Z.of_nat (size m).
Proof.
  induction m as [|k r m Hk _ IH] using map_first_key_ind.
  - intros _. by rewrite !count_where_empty, map_size_empty.
  - intros Hall. apply map_Forall_insert in Hall as [Hr Hall]; [|done].
    rewrite !count_where_insert, map_size_insert_None by done.
    specialize (IH Hall).
    assert (b2z (is_healthy r) + b2z (is_failed r) = 1); [|lia].
    unfold is_healthy, is_failed. by destruct Hr as [-> | [-> | ->]].
Qed.

End Sweep.

(** ** The finalized report of every run *)

Section Runs.

Context {W : Type} `{Host W}.

(** The finalized report is that of [sweep_spec]. *)
Lemma finalized_spec (now : string) (dir : option string) (w : W) :
∃ t5,
  finalized now dir w = results (finalize t5)
  ∧ fst (fst (sweep (fresh now dir) w)) = Returned tt
  ∧ registry_outcome (registry_world now dir w) (results t5)
  ∧ performance_rated (results t5)
  ∧ 0 ≤ warnings (summary (results t5)).
Proof.
destruct (sweep_spec now dir w) as (t5 & w' & E & R & P & _ & Hw).
exists t5. unfold finalized. rewrite E. done.
Qed.

(** In every run the two counters are non-negative, add up to the number of
  registered servers, and the score is the one computed from them. *)
Lemma finalized_counts (now : string) (dir : option string) (w : W) :
let s := summary (finalized now dir w) in
0 ≤ healthy_servers s ∧ 0 ≤ failed_servers s
∧ healthy_servers s + failed_servers s = total_servers s
∧ health_score s = score_of (healthy_servers s) (total_servers s).
Proof.
destruct (finalized_spec now dir w) as (t5 & -> & _ & R & _).
rewrite finalize_summary. cbn.
unfold registry_outcome in R.
destruct (mcpManager_readServers _) as [[servers|msg] w2].
- destruct R as (m & _ & Hdom & Hall & -> & -> & -> & ->).
  pose proof (classified_counts m Hall) as Hsum.
  assert (size m = size servers) by by rewrite <- !size_dom, Hdom.
  unfold count_where in *. repeat split; lia.
- destruct R as (_ & -> & -> & -> & ->). done.
Qed.

(** C1. In every run the overall status of the finalized report is the
    first matching rule of: failed > healthy gives critical, score < 50
    gives degraded, warnings > 3 gives warning, score < 80 gives partial,
    otherwise healthy.  In particular a run with 10 services of which 3 are
    healthy is critical. *)
Theorem overall_status_first_matching_rule (now : string) (dir : option string) (w : W) :
  let s := summary (finalized now dir w) in
  overall_status s =
    (if failed_servers s >? healthy_servers s then "critical"
     else if health_score s <? 50 then "degraded"
     else if warnings s >? 3 then "warning"
     else if health_score s <? 80 then "partial"
     else "healthy")
  ∧ (total_servers s = 10 → healthy_servers s = 3 → overall_status s = "critical").
Proof.
  pose proof (finalized_counts now dir w) as (_ & _ & Hsum & _).
  destruct (finalized_spec now dir w) as (t5 & E & _).
  rewrite E in *. rewrite finalize_summary in *. cbn in *.
  unfold classify. rewrite !Z.gtb_ltb. split; [done|].
  intros Htotal Hhealthy.
  destruct (Z.ltb_spec (healthy_servers (summary (results t5)))
              (failed_servers (summary (results t5)))); [done|lia].
Qed.


(** X17. When the registry load succeeds with N servers, every server is
    probed and counted once, so the healthy and the failed counter add up to
    N.  The results object has an entry, classified healthy, unhealthy or
    error, under every name of the registry except [__proto__].  When no
    server has that name it has exactly N entries, the healthy counter is the
    number of healthy entries and the failed counter the number of unhealthy
    or error entries; when a server has that name it has N - 1 entries and
    the two counters count one server more than there are entries. *)
Theorem every_server_counted_once (now : string) (dir : option string) (w : W)
    (servers : gmap string ServerConfig) (w2 : W) :
  mcpManager_readServers (registry_world now dir w) = (Returned servers, w2) →
  let r := finalized now dir w in
  ∃ serverResults : gmap string ServerResult,
    mcp_servers (components r) = Some (Collected serverResults)
    ∧ dom serverResults = dom servers ∖ {["__proto__"]}
    ∧ map_Forall (λ _ x, classified x) serverResults
    ∧ total_servers (summary r) = Z.of_nat (size servers)
    ∧ healthy_servers (summary r) + failed_servers (summary r) = Z.of_nat (size servers)
    ∧ (servers !! "__proto__" = None →
       size serverResults = size servers
       ∧ healthy_servers (summary r) = count_where is_healthy serverResults
       ∧ failed_servers (summary r) = count_where is_failed serverResults)
    ∧ (is_Some (servers !! "__proto__") →
       S (size serverResults) = size servers
       ∧ count_where is_healthy serverResults ≤ healthy_servers (summary r)
       ∧ count_where is_failed serverResults ≤ failed_servers (summary r)
       ∧ healthy_servers (summary r) + failed_servers (summary r)
         = count_where is_healthy serverResults + count_where is_failed serverResults + 1).
Proof.
  intros Hread.
  destruct (finalized_spec now dir w) as (t5 & -> & _ & R & _). cbv zeta.
  rewrite finalize_summary, finalize_components. cbn.
  unfold registry_outcome in R. rewrite Hread in R.
  destruct R as (m & Hm & Hdom & Hall & Ht & Hh & Hf & _).
  pose proof (classified_counts m Hall) as Hsum.
  assert (Hsize : size m = size servers) by by rewrite <- !size_dom, Hdom.
  exists (delete "__proto__" m).
  split; [done|]. split; [by rewrite dom_delete_L, Hdom|].
  split; [by apply map_Forall_delete|]. split; [done|]. split; [lia|].
  split.
  - intros Hnone.
    assert (Hm_none : m !! "__proto__" = None).
    { apply not_elem_of_dom. rewrite Hdom. by apply not_elem_of_dom. }
    rewrite delete_id by done. done.
  - intros Hsome.
    assert (Hm_some : is_Some (m !! "__proto__")).
    { apply elem_of_dom. rewrite Hdom. by apply elem_of_dom. }
    destruct Hm_some as [r Hr].
    pose proof (classified_counts _ (map_Forall_delete _ m "__proto__" Hall)) as Hsum'.
    rewrite <- (insert_delete_id m "__proto__" r Hr) in Hh, Hf, Hsize.
    rewrite count_where_insert in Hh, Hf by apply lookup_delete_eq.
    rewrite map_size_insert_None in Hsize by apply lookup_delete_eq.
    assert (Hone : b2z (is_healthy r) + b2z (is_failed r) = 1).
    { unfold is_healthy, is_failed.
      by destruct (Hall _ _ Hr) as [-> | [-> | ->]]. }
    assert (0 ≤ b2z (is_healthy r)) by by destruct (is_healthy r).
    assert (0 ≤ b2z (is_failed r)) by by destruct (is_failed r).
    repeat split; lia.
Qed.

(** C10. A run with no registered server, or whose registry load throws,
    has both counters and the score at 0 and is classified degraded, never
    healthy. *)
Theorem zero_services_degraded (now : string) (dir : option string) (w : W) :
  match mcpManager_readServers (registry_world now dir w) with
  | (Returned servers, _) => servers = ∅
  | (Thrown _, _) => True
  end →
  let s := summary (finalized now dir w) in
  healthy_servers s = 0 ∧ failed_servers s = 0 ∧ health_score s = 0
  ∧ overall_status s = "degraded" ∧ overall_status s ≠ "healthy".
Proof.
  intros Hzero.
  destruct (finalized_spec now dir w) as (t5 & -> & _ & R & _). cbv zeta.
  rewrite finalize_summary. cbn.
  unfold registry_outcome in R.
  assert (Hs : healthy_servers (summary (results t5)) = 0
               ∧ failed_servers (summary (results t5)) = 0
               ∧ health_score (summary (results t5)) = 0).
  { destruct (mcpManager_readServers _) as [[servers|msg] w2].
    - subst servers. destruct R as (m & _ & Hdom & _ & Ht & Hh & Hf & Hs).
      rewrite dom_empty_L in Hdom. apply dom_empty_inv_L in Hdom. subst m.
      rewrite count_where_empty in Hh, Hf.
      rewrite map_size_empty in Ht. rewrite Hs, Ht. done.
    - destruct R as (_ & _ & -> & -> & ->). done. }
  destruct Hs as (Hh & Hf & Hs). unfold classify. rewrite Hh, Hf, Hs. done.
Qed.


End Runs.

(** ** The properties on a concrete run *)

Lemma overall_status_first_matching_rule_witness :
  let s := summary (finalized run_now None ten_world) in
  (total_servers s = 10 ∧ healthy_servers s = 3) ∧ overall_status s = "critical".
Proof.
  cbv zeta.
  assert (Ht : total_servers (summary (finalized run_now None ten_world)) = 10)
    by (vm_compute; reflexivity).
  assert (Hh : healthy_servers (summary (finalized run_now None ten_world)) = 3)
    by (vm_compute; reflexivity).
  split; [by split|].
  exact (proj2 (overall_status_first_matching_rule run_now None ten_world) Ht Hh).
Defined.


Lemma every_server_counted_once_witness :
  mcpManager_readServers (registry_world run_now None ten_world)
  = (Returned (list_to_map ten_servers), sim_tick 12 ten_world)
  ∧ ∃ serverResults : gmap string ServerResult,
      mcp_servers (components (finalized run_now None ten_world))
      = Some (Collected serverResults)
      ∧ dom serverResults
        = dom (list_to_map ten_servers : gmap string ServerConfig) ∖ {["__proto__"]}.
Proof.
  assert (Hread : mcpManager_readServers (registry_world run_now None ten_world)
                  = (Returned (list_to_map ten_servers), sim_tick 12 ten_world))
    by (vm_compute; reflexivity).
  split; [exact Hread|].
  destruct (every_server_counted_once run_now None ten_world _ _ Hread)
    as (m & Hm & Hdom & _).
  exists m. by split.
Defined.

(** C3. A registry of two servers, one of them named [__proto__], both
    answering: both are probed and counted (total 2, healthy 2), but the
    per-service results have one entry only, and none under the name
    [__proto__]. *)
Theorem proto_named_server_has_no_entry :
  let r := finalized run_now None proto_world in
  fst (mcpManager_readServers (registry_world run_now None proto_world))
  = Returned (list_to_map proto_servers)
  ∧ size (list_to_map proto_servers : gmap string ServerConfig) = 2%nat
  ∧ total_servers (summary r) = 2
  ∧ healthy_servers (summary r) = 2
  ∧ failed_servers (summary r) = 0
  ∧ ∃ serverResults : gmap string ServerResult,
      mcp_servers (components r) = Some (Collected serverResults)
      ∧ size serverResults = 1%nat
      ∧ serverResults !! "__proto__" = None
      ∧ status <$> serverResults !! "server-4001" = Some "healthy".
Proof.
  cbv zeta.
  split; [vm_compute; reflexivity|]. split; [vm_compute; reflexivity|].
  split; [vm_compute; reflexivity|]. split; [vm_compute; reflexivity|].
  split; [vm_compute; reflexivity|].
  eexists. split; [vm_compute; reflexivity|].
  split; [vm_compute; reflexivity|]. split; vm_compute; reflexivity.
Qed.

Lemma zero_services_degraded_witness :
  match mcpManager_readServers (registry_world run_now None broken_world) with
  | (Returned servers, _) => servers = ∅
  | (Thrown _, _) => True
  end
  ∧ overall_status (summary (finalized run_now None broken_world)) = "degraded".
Proof.
  assert (Hzero : match mcpManager_readServers (registry_world run_now None broken_world) with
                  | (Returned servers, _) => servers = (∅ : gmap string ServerConfig)
                  | (Thrown _, _) => True
                  end) by (vm_compute; exact I).
  split; [exact Hzero|].
  exact (proj1 (proj2 (proj2 (proj2
           (zero_services_degraded run_now None broken_world Hzero))))).
Defined.

(** ** Reading the terse summary back *)

Lemma append_cons (c : ascii) (a b : string) : String c a +:+ b = String c (a +:+ b).
Proof. reflexivity. Qed.

Lemma append_nil (b : string) : "" +:+ b = b.
Proof. reflexivity. Qed.

Lemma no_newline_app (a b : string) :
  no_newline (a +:+ b) = no_newline a && no_newline b.
Proof.
  induction a as [|c a IH]; rewrite ?append_nil, ?append_cons; cbn [no_newline];
    [done|].
  by rewrite IH, andb_assoc.
Qed.

Lemma split_lines_line (a rest : string) :
  no_newline a = true →
  split_lines (a +:+ nl +:+ rest) = a :: split_lines rest.
Proof.
  induction a as [|c a IH]; cbn [no_newline]; intros Ha.
  - reflexivity.
  - apply andb_prop in Ha as [Hc Ha].
    rewrite append_cons. cbn [split_lines]. destruct (is_newline c); [done|].
    by rewrite (IH Ha).
Qed.

Lemma strip_prefix_app (p s : string) : strip_prefix p (p +:+ s) = Some s.
Proof.
  induction p as [|c p IH]; rewrite ?append_nil, ?append_cons; cbn [strip_prefix];
    [done|].
  by rewrite Ascii.eqb_refl.
Qed.

Lemma timestamp_like_no_newline (s : string) :
  timestamp_like s = true → no_newline s = true.
Proof.
  induction s as [|c s IH]; cbn; [done|]. intros [Hc Hs]%andb_prop.
  rewrite (IH Hs), andb_true_r. unfold is_newline.
  destruct (Ascii.eqb_spec c (ascii_of_nat 10)) as [->|]; [discriminate|done].
Qed.

Lemma timestamp_like_no_label (label s : string) (c : ascii) :
  timestamp_char c = false →
  timestamp_like s = true → strip_prefix (String c label) s = None.
Proof.
  intros Hc. destruct s as [|c' s]; cbn; [done|]. intros [Hc' _]%andb_prop.
  destruct (Ascii.eqb_spec c c') as [->|]; [congruence|done].
Qed.

Lemma no_newline_pretty_N_go (x : N) (s : string) :
  no_newline s = true → no_newline (pretty_N_go x s) = true.
Proof.
  revert s. induction (N.lt_wf_0 x) as [x _ IH]; intros s Hs.
  assert (x = 0 ∨ 0 < x)%N as [->|Hpos] by lia.
  - by rewrite pretty_N_go_0.
  - rewrite pretty_N_go_step by done. apply IH.
    { by apply N.div_lt. }
    cbn [no_newline]. rewrite Hs, andb_true_r.
    unfold pretty_N_char. by repeat case_match.
Qed.

Lemma no_newline_pretty (z : Z) : no_newline (pretty z) = true.
Proof.
  assert (HN : ∀ n : N, no_newline (pretty n) = true).
  { intros n. unfold pretty, pretty_N. case_decide; [done|].
    by apply no_newline_pretty_N_go. }
  destruct z as [|p|p]; [done|apply HN|].
  unfold pretty, pretty_Z. rewrite no_newline_app. cbn. apply HN.
Qed.




(** ** Emission *)

Section EmissionFacts.

Context {W : Type} `{Host W}.

(** [generateReports] is its decision tree. *)
Lemma generateReports_script (t : Reporter) (w : W) :
  generateReports t w = emission_script t w.
Proof.
  unfold generateReports, emission_script, generateMarkdownReport,
    generateSummaryReport, in_timestampDir, bind, call, call_total, this,
    assign_results, assign, ret, throw.
  destruct (timestampDir t) as [dir|] eqn:Hdir; [|done].
  destruct (fs_writeFile _ _ w) as [[[]|msg1] w1]; [|done].
  destruct (renderMarkdown _ _) as [md|msg2]; [|done].
  rewrite Hdir.
  destruct (fs_writeFile _ _ w1) as [[[]|msg3] w2]; [|done].
  destruct (Date_toISOString w2) as [now w3].
  rewrite Hdir.
  destruct (fs_writeFile _ _ w3) as [[[]|msg4] w4]; [|done].
  cbn [with_results results timestampDir].
  destruct (fs_copyFile _ _ w4) as [[[]|msg5] w5]; [|done].
  destruct (fs_copyFile _ _ w5) as [[[]|msg6] w6]; done.
Qed.

End EmissionFacts.

Section TracedEmission.

Context {W : Type} `{Host W}.

Ltac traced_step :=
  cbn [fs_writeFile fs_copyFile Date_toISOString Traced_host];
  unfold record_call, pass; cbn [fst snd returned];
  match goal with
  | |- context [fs_writeFile ?p ?c ?w] =>
      lazymatch w with (_, _) => fail | _ => destruct (fs_writeFile p c w) as [[[]|?] ?] end
  | |- context [fs_copyFile ?a ?b ?w] =>
      lazymatch w with (_, _) => fail | _ => destruct (fs_copyFile a b w) as [[[]|?] ?] end
  | |- context [Date_toISOString ?w] =>
      lazymatch w with (_, _) => fail | _ => destruct (Date_toISOString w) as [? ?] eqn:? end
  | |- context [renderMarkdown ?a ?b] => destruct (renderMarkdown a b) as [?|?] eqn:?
  end;
  cbn [fst snd returned].

Ltac all_succeeded H :=
  repeat (apply Forall_cons in H as [? H]); try done.

(** The markdown report cannot be rendered when the registry could not be
    loaded: the entry [error] of [{ error: message }] is a string, and the
    template reads [server.config.command] on it. *)
Lemma markdown_throws_on_registry_error (this_timestamp : string) (r : Results)
    (error : string) :
  mcp_servers (components r) = Some (Failed error) →
  renderMarkdown this_timestamp r
  = Thrown "Cannot read properties of undefined (reading 'command')".
Proof. unfold renderMarkdown, render_servers. by intros ->. Qed.

(** C4, as amended.  The three writes and the two copies of
    [generateReports] are attempted in sequence and nothing is attempted
    after a failure; emission returns normally exactly when all five calls
    were made and succeeded. *)
Theorem emission_aborts_on_first_failure (t : Reporter) (w : W) :
  let run := generateReports (H := Traced_host) t (w, []) in
  let log := snd (snd run) in
  Forall (λ c, fs_succeeded c = true) (tail log)
  ∧ (returned (fst (fst run)) = true
     ↔ length log = 5%nat ∧ Forall (λ c, fs_succeeded c = true) log)
  ∧ match timestampDir t with
    | Some dir => fs_target <$> reverse log `prefix_of` planned_targets dir
    | None => log = []
    end.
Proof.
  cbv zeta. rewrite generateReports_script. unfold emission_script, planned_targets.
  destruct (timestampDir t) as [dir|].
  2: { cbn. split; [done|]. split; [|done]. split; [done|]. by intros [[=] _]. }
  repeat traced_step.
  all: cbn [tail length fmap list_fmap reverse rev_append].
  all: split; [repeat constructor|].
  all: split; [split; [try done|by intros [[=] Hall]; all_succeeded Hall]|].
  all: try (split; [done|by repeat constructor]).
  all: unfold prefix; eexists; reflexivity.
Qed.


End TracedEmission.

(** ** The command line *)

Section CommandLine.

Context {W : Type} `{Host W}.

(** [initialize] throws or sets [timestampDir]. *)
Lemma initialize_cases (now : string) (w : W) :
  (∃ msg t w', initialize (constructor now) w = (Thrown msg, t, w'))
  ∨ (∃ w', initialize (constructor now) w
           = (Returned tt,
              fresh now (Some (path_join "reports/mcp-status" (before_T now))), w')).
Proof.
  unfold initialize, bind, this, call, assign.
  cbn [reportDir this_timestamp constructor].
  destruct (fs_mkdir "reports/mcp-status" w) as [[[]|msg] w1]; [|left; eauto].
  destruct (fs_mkdir _ w1) as [[[]|msg] w2]; [|left; eauto].
  right. by exists w2.
Qed.

(** C8. The exit code is 0 when the full report returns and 1 when it
    throws; and whether it throws is decided by [initialize] and
    [generateReports] alone: the sweep between them never throws, whatever
    the servers answer and whatever overall status results. *)
Theorem exit_code_reflects_report_generation (w : W) :
  let now := fst (Date_toISOString w) in
  let w0 := snd (Date_toISOString w) in
  let full := generateFullReport (constructor now) w0 in
  let code := fst (fst (main w)) in
  (returned (fst (fst full)) = true → code = 0)
  ∧ (returned (fst (fst full)) = false → code = 1)
  ∧ returned (fst (fst full))
    = match initialize (constructor now) w0 with
      | (Returned _, t1, w1) =>
          returned (fst (fst (generateReports (snd (fst (sweep t1 w1)))
                                              (snd (sweep t1 w1)))))
      | (Thrown _, _, _) => false
      end.
Proof.
  cbv zeta. unfold main.
  destruct (Date_toISOString w) as [now w0]. cbn [fst snd].
  split; [|split].
  - by destruct (generateFullReport _ _) as [[[r|msg] t'] w'].
  - by destruct (generateFullReport _ _) as [[[r|msg] t'] w'].
  - unfold generateFullReport, try_catch.
    destruct (initialize_cases now w0) as [(msg & t1 & w1 & E)|(w1 & E)].
    + by rewrite (bind_thrown _ _ _ _ _ _ _ E), E.
    + rewrite (bind_returned _ _ _ _ _ _ _ E), E.
      destruct (sweep_spec now (Some (path_join "reports/mcp-status" (before_T now))) w1)
        as (t5 & w5 & Esweep & _).
      rewrite (bind_returned _ _ _ _ _ _ _ Esweep), Esweep. cbn [fst snd].
      unfold bind, this, ret.
      by destruct (generateReports (finalize t5) w5) as [[[[]|msg] t6] w6].
Qed.

End CommandLine.

(** ** Observed runs of the command line *)

Example ten_run_outcome :
  fst (fst ten_run) = 0
  ∧ overall_status (summary (results (snd (fst ten_run)))) = "critical"
  ∧ targets_of ten_run
    = [ ("reports/mcp-status/2025-01-01/mcp-status-report.json", true);
        ("reports/mcp-status/2025-01-01/mcp-status-report.md", true);
        ("reports/mcp-status/2025-01-01/mcp-status-summary.txt", true);
        ("mcp-status-report.json", true);
        ("mcp-status-report.md", true) ].
Proof. vm_compute. done. Qed.

Example readonly_markdown_run_outcome :
  fst (fst readonly_markdown_run) = 1
  ∧ targets_of readonly_markdown_run
    = [ ("reports/mcp-status/2025-01-01/mcp-status-report.json", true);
        ("reports/mcp-status/2025-01-01/mcp-status-report.md", false) ].
Proof. vm_compute. done. Qed.

Example broken_run_outcome :
  fst (fst broken_run) = 1
  ∧ targets_of broken_run
    = [ ("reports/mcp-status/2025-01-01/mcp-status-report.json", true) ].
Proof. vm_compute. done. Qed.

(** C4, counterexample.  A single failing write is fatal and stops the
    emission: when only the markdown report cannot be written, the structured
    document is written, the summary is never attempted, and the process
    exits with code 1. *)
Lemma single_write_failure_is_fatal :
  ¬ partial_failure_tolerant readonly_markdown_run run_artifacts.
Proof.
  intros [Hattempted _].
  destruct (Hattempted "reports/mcp-status/2025-01-01/mcp-status-summary.txt")
    as (c & Hc & _ & Htarget).
  { unfold run_artifacts. by repeat constructor. }
  assert (Hin : (fs_target c, fs_succeeded c) ∈ targets_of readonly_markdown_run).
  { unfold targets_of. apply list_elem_of_fmap. exists c. split; [done|].
    by apply elem_of_reverse. }
  destruct readonly_markdown_run_outcome as [_ Htargets].
  rewrite Htargets, Htarget in Hin.
  apply elem_of_cons in Hin as [[=]|Hin].
  apply elem_of_cons in Hin as [[=]|Hin].
  by apply elem_of_nil in Hin.
Qed.

(** The amended statement on the run that cannot write the markdown report. *)
Lemma emission_aborts_on_first_failure_witness :
  let run := generateReports (H := Traced_host)
               (fresh run_now (Some "reports/mcp-status/2025-01-01"))
               (readonly_markdown_world, []) in
  returned (fst (fst run)) = false
  ∧ (returned (fst (fst run)) = true
     ↔ length (snd (snd run)) = 5%nat
       ∧ Forall (λ c, fs_succeeded c = true) (snd (snd run))).
Proof.
  cbv zeta. split; [vm_compute; reflexivity|].
  exact (proj1 (proj2 (emission_aborts_on_first_failure
                         (fresh run_now (Some "reports/mcp-status/2025-01-01"))
                         readonly_markdown_world))).
Defined.


(** A critical fleet, reported, exits with code 0. *)
Lemma exit_code_reflects_report_generation_witness :
  returned (fst (fst (generateFullReport
                        (constructor (fst (Date_toISOString ten_world)))
                        (snd (Date_toISOString ten_world))))) = true
  ∧ fst (fst (main ten_world)) = 0
  ∧ overall_status (summary (results (snd (fst (main ten_world))))) = "critical".
Proof.
  assert (Hret : returned (fst (fst (generateFullReport
                    (constructor (fst (Date_toISOString ten_world)))
                    (snd (Date_toISOString ten_world))))) = true)
    by (vm_compute; reflexivity).
  split; [exact Hret|]. split.
  - exact (proj1 (exit_code_reflects_report_generation ten_world) Hret).
  - vm_compute. reflexivity.
Defined.

(** For every host: when the registry cannot be loaded, emission throws,
    whatever the file system does. *)
Lemma registry_error_always_fatal {W : Type} `{Host W}
    (now : string) (dir : option string) (w w' : W) :
  returned (fst (mcpManager_readServers (registry_world now dir w))) = false →
  returned (fst (fst (generateReports (snd (fst (sweep (fresh now dir) w))) w')))
  = false.
Proof.
  intros Hread.
  destruct (sweep_spec now dir w) as (t5 & w5 & -> & R & _). cbn [fst snd].
  unfold registry_outcome in R.
  destruct (mcpManager_readServers _) as [[servers|msg] w2]; [done|].
  destruct R as (Hfailed & _).
  rewrite generateReports_script. unfold emission_script.
  destruct (timestampDir (finalize t5)); [|done].
  destruct (fs_writeFile _ _ w') as [[[]|msg1] w1]; [|done].
  by rewrite (markdown_throws_on_registry_error _ _ msg).
Qed.

(** C6, the run in which the registry cannot be loaded.  The sweep goes on
    as a run without servers and counts warnings (for the registry and for
    the metrics), but the markdown report then throws: only the structured
    document is written and the process exits with code 1. *)
Theorem registry_failure_aborts_report :
  let r := results (snd (fst broken_run)) in
  health_score (summary r) = 0
  ∧ overall_status (summary r) = "degraded"
  ∧ warnings (summary r) = 2
  ∧ mcp_servers (components r) = Some (Failed "Cannot find module './mcp-manager.js'")
  ∧ renderMarkdown run_now r
    = Thrown "Cannot read properties of undefined (reading 'command')"
  ∧ targets_of broken_run
    = [ ("reports/mcp-status/2025-01-01/mcp-status-report.json", true) ]
  ∧ fst (fst broken_run) = 1.
Proof. vm_compute. done. Qed.

(** ** The health probe *)

(** Retries only come later. *)
Lemma attempt_time_ge (e : McpManager.Endpoint) (url : string) (pollIntervalMs : Z) (n : nat) :
  0 < pollIntervalMs →
  ∀ now, now ≤ McpManager.attempt_time e url pollIntervalMs now n.
Proof.
  intros Hpos. induction n as [|n IH]; intros now; cbn [McpManager.attempt_time]; [lia|].
  etrans; [|apply IH]. lia.
Qed.

(** With enough fuel the polling loop returns; it returns true exactly
    when one of its requests, the first or one issued before the deadline,
    is answered with a 2xx status. *)
Lemma poll_spec (e : McpManager.Endpoint) (url : string) (pollIntervalMs deadline : Z)
    (fuel : nat) :
  0 < pollIntervalMs →
  ∀ now,
    (McpManager.requests_needed pollIntervalMs deadline now ≤ fuel)%nat →
    ∃ b,
      McpManager.poll fuel e url pollIntervalMs deadline now = Some b
      ∧ (b = true ↔
         ∃ n, McpManager.is_2xx
                (McpManager.respond e url
                   (McpManager.attempt_time e url pollIntervalMs now n)) = true
              ∧ (n = 0%nat
                 ∨ McpManager.attempt_time e url pollIntervalMs now n ≤ deadline)).
Proof.
  intros Hpos. unfold McpManager.requests_needed.
  induction fuel as [|fuel IH]; intros now Hfuel; [lia|].
  cbn [McpManager.poll].
  destruct (McpManager.is_2xx (McpManager.respond e url now)) eqn:Hok.
  { exists true. split; [done|]. split; [|done]. intros _. exists 0%nat. by split; [|left]. }
  set (next := now + Z.max 0 (McpManager.duration e url now) + pollIntervalMs).
  assert (Hnext : now + pollIntervalMs ≤ next) by (unfold next; lia).
  destruct (Z.ltb_spec deadline next) as [Hlate|Hintime].
  - exists false. split; [done|]. split; [done|].
    intros (n & Hn & Hwhen). destruct n as [|n]; cbn [McpManager.attempt_time] in *.
    + congruence.
    + fold next in Hn, Hwhen. destruct Hwhen as [|Hwhen]; [done|].
      pose proof (attempt_time_ge e url pollIntervalMs n Hpos next). lia.
  - destruct (IH next) as (b & Hpoll & Hb).
    { assert ((deadline - next) `div` pollIntervalMs + 1
              ≤ (deadline - now) `div` pollIntervalMs).
      { replace ((deadline - next) `div` pollIntervalMs + 1)
          with ((deadline - next + 1 * pollIntervalMs) `div` pollIntervalMs)
          by (rewrite Z.div_add by lia; lia).
        apply Z.div_le_mono; lia. }
      assert (0 ≤ (deadline - next) `div` pollIntervalMs)
        by (apply Z.div_pos; lia).
      lia. }
    exists b. split; [done|]. rewrite Hb. split.
    + intros (n & Hn & Hwhen). exists (S n). cbn [McpManager.attempt_time].
      fold next. split; [done|]. right. destruct Hwhen as [->|]; [by cbn|done].
    + intros (n & Hn & Hwhen). destruct n as [|n]; cbn [McpManager.attempt_time] in *.
      * congruence.
      * fold next in Hn, Hwhen. exists n. split; [done|].
        destruct Hwhen as [|]; [done|]. by right.
Qed.

(** The call of the aggregator: which probe is invoked for a server, and how
    its three outcomes are classified. *)
Lemma testServer_call {W : Type} `{Host W} (k : string) (cfg : ServerConfig)
    (acc : gmap string ServerResult) (t : Reporter) (w : W) :
  let w2 := snd (Date_now (snd (Date_toISOString w))) in
  let url := probe_url cfg (process_env_MCP_PORT w2) in
  ∃ r t' w',
    testServer (k, cfg) acc t w = (Returned (set_property k r acc), t', w')
    ∧ match fst (mcpManager_probeHealth url 5000 500 w2) with
      | Returned true => status r = "healthy"
      | Returned false => status r = "unhealthy"
      | Thrown msg => status r = "error" ∧ error_message r = Some msg
      end.
Proof.
  unfold testServer, bind, try_catch, call, call_total, ask, assign_summary,
    assign_results, assign, ret.
  destruct (Date_toISOString w) as [last w1]. cbn [fst snd].
  destruct (Date_now w1) as [start w2]. cbn [fst snd].
  destruct (mcpManager_probeHealth _ 5000 500 w2) as [[[|]|msg] w3];
    [destruct (Date_now w3) as [stop w4] ..|]; cbn [fst];
    by eexists _, _, _.
Qed.

(** C7. The aggregator probes [http://localhost:{port}{healthPath}], the
    path defaulting to [/health], with a timeout of 5000 ms and a polling
    interval of 500 ms, and classifies a thrown probe as [error].  The probe
    (modelled from the specification) returns: it polls again
    [pollIntervalMs] after every network error or non-2xx answer, returns
    true exactly when some request made within the time budget is answered
    with a 2xx status, returns false otherwise, and throws only on a
    malformed URL. *)
Theorem probe_polls_until_timeout :
  (∀ (W : Type) (H : Host W) k cfg acc t (w : W),
     let w2 := snd (Date_now (snd (Date_toISOString w))) in
     let url := probe_url cfg (process_env_MCP_PORT w2) in
     ∃ r t' w',
       testServer (k, cfg) acc t w = (Returned (set_property k r acc), t', w')
       ∧ match fst (mcpManager_probeHealth url 5000 500 w2) with
         | Returned true => status r = "healthy"
         | Returned false => status r = "unhealthy"
         | Thrown msg => status r = "error" ∧ error_message r = Some msg
         end)
  ∧ (∀ cfg env n,
       port cfg = Some n → n ≠ 0 →
       probe_url cfg env
       = "http://localhost:" +:+ pretty n +:+
         match healthPath cfg with
         | Some path => if String.eqb path "" then "/health" else path
         | None => "/health"
         end)
  ∧ (∀ e url timeoutMs pollIntervalMs start fuel,
       McpManager.malformed e url = false →
       0 < pollIntervalMs →
       (McpManager.requests_needed pollIntervalMs (start + timeoutMs) start ≤ fuel)%nat →
       ∃ b,
         McpManager.probeHealth fuel e url timeoutMs pollIntervalMs start
         = Some (Returned b)
         ∧ (b = true ↔
            ∃ n, McpManager.is_2xx
                   (McpManager.respond e url
                      (McpManager.attempt_time e url pollIntervalMs start n)) = true
                 ∧ (n = 0%nat
                    ∨ McpManager.attempt_time e url pollIntervalMs start n - start
                      ≤ timeoutMs)))
  ∧ (∀ e url timeoutMs pollIntervalMs start fuel,
       McpManager.malformed e url = true →
       ∃ msg,
         McpManager.probeHealth fuel e url timeoutMs pollIntervalMs start
         = Some (Thrown msg)).
Proof.
  split; [|split; [|split]].
  - intros W H k cfg acc t w. apply testServer_call.
  - intros cfg env n Hport Hn. unfold probe_url, probe_port, str_or.
    rewrite Hport. by destruct (Z.eqb_spec n 0).
  - intros e url timeoutMs pollIntervalMs start fuel Hurl Hpos Hfuel.
    unfold McpManager.probeHealth. rewrite Hurl.
    destruct (poll_spec e url pollIntervalMs (start + timeoutMs) fuel Hpos start Hfuel)
      as (b & -> & Hb).
    exists b. split; [done|]. rewrite Hb.
    split; intros (n & Hn & Hwhen); exists n; (split; [done|]);
      (destruct Hwhen; [by left|right; lia]).
  - intros e url timeoutMs pollIntervalMs start fuel Hurl.
    unfold McpManager.probeHealth. rewrite Hurl. eauto.
Qed.

(** Probed with a budget of 5000 ms the slow starter is alive; with a
    budget of 1000 ms it is not. *)
Lemma probe_polls_until_timeout_witness :
  (McpManager.malformed slow_starter "http://localhost:3001/health" = false
   ∧ 0 < 500
   ∧ (McpManager.requests_needed 500 (0 + 5000) 0 ≤ 11)%nat)
  ∧ McpManager.probeHealth 11 slow_starter "http://localhost:3001/health" 5000 500 0
    = Some (Returned true)
  ∧ McpManager.probeHealth 11 slow_starter "http://localhost:3001/health" 1000 500 0
    = Some (Returned false).
Proof.
  assert (Hurl : McpManager.malformed slow_starter "http://localhost:3001/health" = false)
    by reflexivity.
  assert (Hpos : 0 < 500) by lia.
  assert (Hfuel : (McpManager.requests_needed 500 (0 + 5000) 0 ≤ 11)%nat)
    by (vm_compute; lia).
  split; [by repeat split|].
  destruct (proj1 (proj2 (proj2 probe_polls_until_timeout))
              slow_starter "http://localhost:3001/health" 5000 500 0 11%nat
              Hurl Hpos Hfuel) as (b & Hprobe & _).
  split; [|reflexivity].
  rewrite Hprobe. f_equal. f_equal.
  assert (Hrun : McpManager.probeHealth 11 slow_starter "http://localhost:3001/health"
                   5000 500 0 = Some (Returned true)) by reflexivity.
  congruence.
Defined.

(** * Further properties *)

(** ** Binary64 arithmetic: the health ratio between two bounds *)

(** One shift keeps the mantissa the integer part of the fraction. *)
Lemma shr_1_floor mrs D N :
  0 < D -> 0 <= shr_m mrs -> N < (shr_m mrs + 1) * D ->
  N < (shr_m (shr_1 mrs) + 1) * (2 * D).
Proof.
  intros HD. destruct mrs as [m r s]. cbn [shr_m].
  intros Hm Hlt.
  destruct m as [|p|p]; [| |lia].
  - cbn [shr_1 shr_m]. lia.
  - destruct p as [p|p|]; cbn [shr_1 shr_m]; lia.
Qed.

Lemma shr_1_nonneg mrs : 0 <= shr_m mrs -> 0 <= shr_m (shr_1 mrs).
Proof.
  destruct mrs as [m r s]. cbn [shr_m]. intros Hm.
  destruct m as [|p|p]; [| |lia].
  - cbn [shr_1 shr_m]. lia.
  - destruct p as [p|p|]; cbn [shr_1 shr_m]; lia.
Qed.

Lemma iter_pos_floor p : forall mrs D N,
  0 < D -> 0 <= shr_m mrs -> N < (shr_m mrs + 1) * D ->
  0 <= shr_m (SpecFloat.iter_pos shr_1 p mrs)
  /\ N < (shr_m (SpecFloat.iter_pos shr_1 p mrs) + 1) * (2 ^ Z.pos p * D).
Proof.
  induction p as [p IH|p IH|]; intros mrs D N HD Hm H; cbn [SpecFloat.iter_pos].
  - replace (2 ^ Z.pos p~1 * D) with (2 ^ Z.pos p * (2 ^ Z.pos p * (2 * D)))
      by (rewrite pow2_xI; ring).
    assert (0 < 2 ^ Z.pos p) by (apply Z.pow_pos_nonneg; lia).
    pose proof (shr_1_nonneg mrs Hm) as Hm1.
    pose proof (shr_1_floor mrs D N HD Hm H) as H1.
    destruct (IH (shr_1 mrs) (2 * D) N ltac:(lia) Hm1 H1) as [Hm2 H2].
    apply IH; [nia|done..].
  - replace (2 ^ Z.pos p~0 * D) with (2 ^ Z.pos p * (2 ^ Z.pos p * D))
      by (rewrite pow2_xO; ring).
    assert (0 < 2 ^ Z.pos p) by (apply Z.pow_pos_nonneg; lia).
    destruct (IH mrs D N HD Hm H) as [Hm2 H2].
    apply IH; [nia|done..].
  - change (2 ^ 1) with 2. split; [by apply shr_1_nonneg|by apply shr_1_floor].
Qed.

Lemma shr_floor mrs e n D N :
  0 < D -> 0 <= shr_m mrs -> N < (shr_m mrs + 1) * D ->
  N < (shr_m (fst (shr mrs e n)) + 1) * (2 ^ Z.max 0 n * D).
Proof.
  intros HD Hm H. destruct n as [|p|p]; cbn [shr fst snd].
  - change (2 ^ Z.max 0 0) with 1. now rewrite Z.mul_1_l.
  - replace (Z.max 0 (Z.pos p)) with (Z.pos p) by lia.
    now apply iter_pos_floor.
  - replace (Z.max 0 (Z.neg p)) with 0 by lia.
    change (2 ^ 0) with 1. now rewrite Z.mul_1_l.
Qed.

(** A mantissa that stays below [B] with [B * 2^s < 2^53] is rounded at an
    exponent of at most [- s]. *)
Lemma fexp_grid m e B s :
  0 <= m -> 0 <= s <= 1 -> e <= - s -> m <= B * 2 ^ (- e) -> B * 2 ^ s < 2 ^ 53 ->
  fexp Number.prec Number.emax (Zdigits2 m + e) <= - s.
Proof.
  intros Hm Hs He Hle HB. unfold fexp, emin, Number.prec, Number.emax.
  apply Z.max_lub; [|lia].
  destruct (Z.eq_dec m 0) as [->|Hne]; [cbn; lia|].
  pose proof (Zdigits2_lower m ltac:(lia)) as Hd.
  assert (Hpow : 0 < 2 ^ (- e)) by (apply Z.pow_pos_nonneg; lia).
  assert (Hps : 0 < 2 ^ s) by (apply Z.pow_pos_nonneg; lia).
  assert (Hlt : 2 ^ (Zdigits2 m - 1) * 2 ^ s < 2 ^ (53 - e)).
  { replace (53 - e) with (53 + - e) by lia. rewrite Z.pow_add_r by lia. nia. }
  rewrite <- Z.pow_add_r in Hlt by (destruct m; cbn in *; lia).
  apply Z.pow_lt_mono_r_iff in Hlt; lia.
Qed.

(** Rounding stays between two bounds of the grid. *)
Lemma binary_round_aux_between mx ex lx D N l B s :
  0 <= mx -> 0 <= s <= 1 -> ex <= - s -> 0 < D ->
  mx * D <= N < (mx + 1) * D ->
  (lx = loc_Exact <-> N = mx * D) ->
  1 <= l -> 1 <= B -> B * 2 ^ s < 2 ^ 53 ->
  N <= B * D * 2 ^ (- ex) ->
  l * D * 2 ^ (- ex) <= N * 2 ^ s ->
  between (binary_round_aux Number.prec Number.emax false mx ex lx) l B s.
Proof.
  intros Hmx Hs Hex HD [Hle Hfl] Hloc Hl HB HB53 HN HL.
  assert (Hp : 0 < 2 ^ (- ex)) by (apply Z.pow_pos_nonneg; lia).
  assert (Hps : 0 < 2 ^ s) by (apply Z.pow_pos_nonneg; lia).
  unfold binary_round_aux, shr_fexp.
  pose proof (fexp_grid mx ex B s Hmx Hs Hex ltac:(nia) HB53) as Hf1.
  set (n1 := fexp Number.prec Number.emax (Zdigits2 mx + ex) - ex) in *.
  destruct (shr_approx (shr_record_of_loc mx lx) ex n1 D N HD
              (approx_of_loc mx lx D N Hmx Hle Hloc)) as [He1 Ha1].
  pose proof (shr_floor (shr_record_of_loc mx lx) ex n1 D N HD) as Hfl1.
  destruct (shr (shr_record_of_loc mx lx) ex n1) as [mrs1 e1].
  cbn [fst snd] in He1, Ha1, Hfl1.
  assert (Hfl1' : N < (shr_m mrs1 + 1) * (2 ^ Z.max 0 n1 * D)).
  { apply Hfl1; destruct lx as [|[]]; cbn [shr_record_of_loc shr_m]; lia. }
  clear Hfl1.
  assert (He1' : e1 <= - s) by lia.
  set (k1 := Z.max 0 n1) in *.
  assert (Hk1 : 0 <= k1) by lia.
  assert (Hpk : 0 < 2 ^ k1) by (apply Z.pow_pos_nonneg; lia).
  assert (Hsplit : 2 ^ (- ex) = 2 ^ (- e1) * 2 ^ k1).
  { rewrite <- Z.pow_add_r by lia. f_equal. lia. }
  assert (Hpe1 : 0 < 2 ^ (- e1)) by (apply Z.pow_pos_nonneg; lia).
  assert (Hgrid1 : 2 ^ (- e1) = 2 ^ (- e1 - s) * 2 ^ s).
  { rewrite <- Z.pow_add_r by lia. f_equal. lia. }
  assert (Hpg1 : 0 < 2 ^ (- e1 - s)) by (apply Z.pow_pos_nonneg; lia).
  destruct (round_nearest_even_bound mrs1 _ N Ha1) as [Hge Hcases].
  set (m1 := round_nearest_even (shr_m mrs1) (loc_of_shr_record mrs1)) in *.
  destruct Ha1 as (Hm1 & Hle1 & _).
  assert (Hm1B : m1 <= B * 2 ^ (- e1)).
  { rewrite Hsplit in HN.
    destruct Hcases as [-> | [-> Hlt]].
    - apply Z.mul_le_mono_pos_r with (p := 2 ^ k1 * D); [nia|]. nia.
    - assert (shr_m mrs1 < B * 2 ^ (- e1)); [|lia].
      apply Z.mul_lt_mono_pos_r with (p := 2 ^ k1 * D); [nia|]. nia. }
  assert (Hm1L : l * 2 ^ (- e1 - s) <= m1).
  { assert (l * 2 ^ (- e1 - s) < shr_m mrs1 + 1); [|lia].
    rewrite Hsplit, Hgrid1 in HL.
    apply Z.mul_lt_mono_pos_r with (p := 2 ^ s * (2 ^ k1 * D)); [nia|]. nia. }
  pose proof (fexp_grid m1 e1 B s ltac:(lia) Hs He1' Hm1B HB53) as Hf2.
  set (n2 := fexp Number.prec Number.emax (Zdigits2 m1 + e1) - e1) in *.
  destruct (shr_approx (shr_record_of_loc m1 loc_Exact) e1 n2 1 m1 ltac:(lia)
              (approx_of_loc m1 loc_Exact 1 m1 ltac:(lia) ltac:(lia) ltac:(split; [lia|reflexivity])))
    as [He2 Ha2].
  pose proof (shr_floor (shr_record_of_loc m1 loc_Exact) e1 n2 1 m1 ltac:(lia)) as Hfl2.
  destruct (shr (shr_record_of_loc m1 loc_Exact) e1 n2) as [mrs2 e2].
  cbn [fst snd shr_record_of_loc shr_m] in He2, Ha2, Hfl2.
  specialize (Hfl2 ltac:(lia) ltac:(lia)).
  destruct Ha2 as (Hm2 & Hle2 & _).
  set (k2 := Z.max 0 n2) in *.
  assert (Hpk2 : 0 < 2 ^ k2) by (apply Z.pow_pos_nonneg; lia).
  assert (He2' : e2 <= - s) by lia.
  assert (Hsplit2 : 2 ^ (- e1 - s) = 2 ^ (- e2 - s) * 2 ^ k2).
  { rewrite <- Z.pow_add_r by lia. f_equal. lia. }
  assert (Hgrid2 : 2 ^ (- e2) = 2 ^ (- e2 - s) * 2 ^ s).
  { rewrite <- Z.pow_add_r by lia. f_equal. lia. }
  assert (Hpg2 : 0 < 2 ^ (- e2 - s)) by (apply Z.pow_pos_nonneg; lia).
  assert (Hm2L : l * 2 ^ (- e2 - s) <= shr_m mrs2).
  { assert (l * 2 ^ (- e2 - s) < shr_m mrs2 + 1); [|lia].
    rewrite Hsplit2 in Hm1L.
    apply Z.mul_lt_mono_pos_r with (p := 2 ^ k2); [lia|].
    rewrite <- Z.mul_assoc. eapply Z.le_lt_trans; [exact Hm1L|]. lia. }
  assert (Hgl : 1 * 2 ^ (- e2 - s) <= l * 2 ^ (- e2 - s))
    by (apply Z.mul_le_mono_nonneg_r; lia).
  assert (Hm2B : shr_m mrs2 <= B * (2 ^ (- e2 - s) * 2 ^ s)).
  { rewrite Hgrid1, Hsplit2 in Hm1B.
    apply Z.mul_le_mono_pos_r with (p := 2 ^ k2); [lia|]. lia. }
  assert (Hm2S : l * (2 ^ (- e2 - s) * 2 ^ s) <= shr_m mrs2 * 2 ^ s).
  { rewrite Z.mul_assoc. apply Z.mul_le_mono_nonneg_r; lia. }
  clear - Hm2L Hgl Hm2B Hm2S Hgrid2 Hpg2 He2' Hl Hs.
  destruct (shr_m mrs2) as [|m2|m2] eqn:Em2; [lia| |lia].
  exists m2, e2.
  replace (e2 <=? Number.emax - Number.prec) with true
    by (symmetry; apply Z.leb_le; unfold Number.emax, Number.prec; lia).
  split; [reflexivity|]. split; [lia|]. rewrite Hgrid2. split; assumption.
Qed.

(** [h / t] is between [1 / 2^s] and one when [t <= 2^s * h <= 2^s * t]. *)
Lemma div_between h t s :
  0 <= s <= 1 -> 0 < t < 2 ^ 53 -> h <= t -> t <= 2 ^ s * h ->
  between (Number.div (Number.of_Z h) (Number.of_Z t)) 1 1 s.
Proof.
  intros Hs Ht Hh Hhalf. unfold Number.div.
  assert (Hps : 0 < 2 ^ s) by (apply Z.pow_pos_nonneg; lia).
  destruct t as [|pt|pt]; try lia.
  destruct (of_Z_pos pt ltac:(lia)) as (m2 & e2 & -> & Hd2 & He2 & Hv2).
  destruct h as [|ph|ph]; try lia.
  destruct (of_Z_pos ph ltac:(lia)) as (m1 & e1 & -> & Hd1 & He1 & Hv1).
  unfold SFdiv, SFdiv_core_binary. cbn [Zdigits2 xorb]. rewrite Hd1, Hd2.
  assert (Hemin : Z.min (fexp Number.prec Number.emax (53 + e1 - (53 + e2))) (e1 - e2)
                  = e1 - e2 - 53).
  { unfold fexp, emin, Number.prec, Number.emax. lia. }
  rewrite Hemin.
  replace (e1 - e2 - (e1 - e2 - 53)) with 53 by lia.
  cbv beta iota. rewrite Z.shiftl_mul_pow2 by lia.
  pose proof (Z_div_mod (Z.pos m1 * 2 ^ 53) (Z.pos m2) ltac:(lia)) as Hdiv.
  destruct (Z.div_eucl (Z.pos m1 * 2 ^ 53) (Z.pos m2)) as [q r].
  destruct Hdiv as [Hqr Hr].
  assert (Hq : 0 <= q) by nia.
  assert (E : 2 ^ (- e2) * 2 ^ (- (e1 - e2 - 53)) = 2 ^ (- e1) * 2 ^ 53).
  { rewrite <- !Z.pow_add_r by lia. f_equal. lia. }
  assert (0 < 2 ^ (- e1) * 2 ^ 53) by (apply Z.mul_pos_pos; apply Z.pow_pos_nonneg; lia).
  apply (binary_round_aux_between q (e1 - e2 - 53) _ (Z.pos m2) (Z.pos m1 * 2 ^ 53) 1 1 s);
    try lia.
  - rewrite new_location_exact. lia.
  - destruct Hs as [? ?]. assert (s = 0 \/ s = 1) as [-> | ->] by lia; reflexivity.
  - rewrite Hv1, Hv2. nia.
  - rewrite Hv1, Hv2. nia.
Qed.

(** Times 100: between [100 / 2^s] and 100. *)
Lemma mul_100_between x s :
  0 <= s <= 1 -> between x 1 1 s -> between (Number.mul x (Number.of_Z 100)) 100 100 s.
Proof.
  intros Hs (m & e & -> & He & Hm & Hl). rewrite of_Z_100.
  unfold Number.mul, SFmul. cbn [xorb].
  assert (Hps : 0 < 2 ^ s) by (apply Z.pow_pos_nonneg; lia).
  assert (E : 2 ^ (- (e + -46)) = 2 ^ (- e) * 70368744177664).
  { replace (- (e + -46)) with (- e + 46) by lia.
    rewrite Z.pow_add_r by lia. reflexivity. }
  apply (binary_round_aux_between _ (e + -46) loc_Exact 1
           (Z.pos (m * 7036874417766400)) 100 100 s); try lia.
  all: try (split; [lia|reflexivity]).
  all: try (assert (s = 0 \/ s = 1) as [-> | ->] by lia; reflexivity).
  all: rewrite E, Pos2Z.inj_mul; nia.
Qed.

(** [Math.round] of a double between [100 / 2^s] and 100. *)
Lemma round_between x s :
  0 <= s <= 1 -> between x 100 100 s -> 100 <= 2 ^ s * Number.round x <= 2 ^ s * 100.
Proof.
  intros Hs (m & e & -> & He & Hm & Hl). cbn [Number.round].
  assert (Hp : 0 < 2 ^ (- e)) by (apply Z.pow_pos_nonneg; lia).
  assert (Hps : 2 ^ s = 1 \/ 2 ^ s = 2).
  { assert (s = 0 \/ s = 1) as [-> | ->] by lia; [by left|by right]. }
  destruct (Z.leb_spec 0 e) as [H0|Hneg].
  - replace e with 0 in * by lia. change (2 ^ (- 0)) with 1 in *.
    change (2 ^ 0) with 1. lia.
  - assert (E : 2 ^ (1 - e) = 2 * 2 ^ (- e)).
    { replace (1 - e) with (1 + - e) by lia. now rewrite Z.pow_add_r by lia. }
    rewrite E.
    assert (Hup : (2 * Z.pos m + 2 ^ (- e)) `div` (2 * 2 ^ (- e)) <= 100).
    { apply Z.lt_succ_r, Z.div_lt_upper_bound; lia. }
    assert (Hlow : 50 <= (2 * Z.pos m + 2 ^ (- e)) `div` (2 * 2 ^ (- e))).
    { apply Z.div_le_lower_bound; lia. }
    assert (Hlow1 : 2 ^ s = 1 -> 100 <= (2 * Z.pos m + 2 ^ (- e)) `div` (2 * 2 ^ (- e))).
    { intros E1. apply Z.div_le_lower_bound; lia. }
    destruct Hps as [E1|E2]; [specialize (Hlow1 E1); lia|lia].
Qed.

(** When at least half of the servers are healthy the score is at least 50;
    when all are, it is 100. *)
Lemma score_of_majority h t :
  0 < t < 2 ^ 53 -> h <= t -> t <= 2 * h -> 50 <= score_of h t <= 100.
Proof.
  intros Ht Hh Hhalf. unfold score_of, health_ratio.
  destruct (Z.ltb_spec 0 t); [|lia].
  pose proof (round_between _ 1 ltac:(lia)
                (mul_100_between _ 1 ltac:(lia) (div_between h t 1 ltac:(lia) Ht Hh Hhalf))).
  change (2 ^ 1) with 2 in *. lia.
Qed.

Lemma score_of_all h : 0 < h < 2 ^ 53 -> score_of h h = 100.
Proof.
  intros Hh. unfold score_of, health_ratio.
  destruct (Z.ltb_spec 0 h); [|lia].
  pose proof (round_between _ 0 ltac:(lia)
                (mul_100_between _ 0 ltac:(lia)
                   (div_between h h 0 ltac:(lia) Hh ltac:(lia) ltac:(change (2^0) with 1; lia)))).
  change (2 ^ 0) with 1 in *. lia.
Qed.

(** ** The sections of the report *)

Section Sections.

Context {W : Type} `{Host W}.

Ltac js_unfold :=
  unfold bind, try_catch, call, call_total, ask, this, assign_components,
    assign_summary, assign_results, assign, ret, throw.

Ltac step_done :=
  eexists _, _; split; [reflexivity|];
  unfold sections, failed_component, performance_warning; cbn;
  repeat split; lia.

(** [collectSystemInfo] fills in the system information or adds a warning. *)
Lemma collectSystemInfo_section (t : Reporter) (w : W) :
  system_info (results t) = None →
  ∃ t' w',
    collectSystemInfo t w = (Returned tt, t', w')
    ∧ sections (results t')
      = (system_info (results t'), mcp_servers (components (results t)),
         workflows (components (results t)), packages (components (results t)),
         performance (components (results t)), artifacts (results t))
    ∧ warnings (summary (results t'))
      = warnings (summary (results t)) + missing_system_info (results t').
Proof.
  intros Hnone. unfold collectSystemInfo, missing_system_info. js_unfold.
  destruct (execAsync "npm --version" w) as [[npm|msg] w1].
  - destruct (execAsync "python3 --version" w1) as [[py|msg] w2]; step_done.
  - eexists _, _; split; [reflexivity|]. unfold sections. cbn. rewrite Hnone.
    repeat split; lia.
Qed.

(** [collectMCPServerStatus] fills in its section, with a warning exactly
    when the registry could not be loaded. *)
Lemma collectMCPServerStatus_section (t : Reporter) (w : W) :
  ∃ t' w',
    collectMCPServerStatus t w = (Returned tt, t', w')
    ∧ sections (results t')
      = (system_info (results t), mcp_servers (components (results t')),
         workflows (components (results t)), packages (components (results t)),
         performance (components (results t)), artifacts (results t))
    ∧ is_Some (mcp_servers (components (results t')))
    ∧ warnings (summary (results t'))
      = warnings (summary (results t))
        + failed_component (mcp_servers (components (results t'))).
Proof.
  unfold collectMCPServerStatus, try_catch.
  destruct (mcpManager_readServers w) as [[servers|msg] w1] eqn:Hread.
  - rewrite (bind_returned _ _ _ _ servers t w1)
      by (unfold call; by rewrite Hread).
    unfold bind at 1, assign_summary at 1, assign_results at 1, assign at 1.
    destruct (for_of_testServer_spec (map_to_list servers)
                (NoDup_fst_map_to_list servers) ∅
                (with_results (with_summary
                   (set_total_servers (Z.of_nat (size servers)))) t) w1)
      as (serverResults & w' & Hloop & _); [done|].
    rewrite (bind_returned _ _ _ _ _ _ _ Hloop).
    eexists _, w'. split; [reflexivity|].
    unfold sections, compute_health_score.
    cbn -[Number.round health_ratio].
    split; [done|]. split; [done|].
    match goal with |- context [if ?c then _ else _] => destruct c end; cbn; lia.
  - unfold bind at 1, call. rewrite Hread.
    eexists _, w1. split; [reflexivity|]. unfold sections. cbn.
    repeat split; done || lia.
Qed.

Lemma collectWorkflowStatus_section (t : Reporter) (w : W) :
  ∃ t' w',
    collectWorkflowStatus t w = (Returned tt, t', w')
    ∧ sections (results t')
      = (system_info (results t), mcp_servers (components (results t)),
         workflows (components (results t')), packages (components (results t)),
         performance (components (results t)), artifacts (results t))
    ∧ workflows_outcome w (results t')
    ∧ warnings (summary (results t'))
      = warnings (summary (results t))
        + failed_component (workflows (components (results t'))).
Proof.
  unfold collectWorkflowStatus, workflows_outcome. js_unfold.
  destruct (fs_readdir ".github/workflows" w) as [[files|msg] w1].
  - eexists _, _; split; [reflexivity|]. unfold sections. cbn.
    split; [done|]. split; [|lia]. eexists. split; [reflexivity|]. done.
  - eexists _, _; split; [reflexivity|]. unfold sections. cbn.
    split; [done|]. split; [done|lia].
Qed.

Lemma collectPackageStatus_section (t : Reporter) (w : W) :
  ∃ t' w',
    collectPackageStatus t w = (Returned tt, t', w')
    ∧ sections (results t')
      = (system_info (results t), mcp_servers (components (results t)),
         workflows (components (results t)), packages (components (results t')),
         performance (components (results t)), artifacts (results t))
    ∧ packages_outcome w (results t')
    ∧ warnings (summary (results t'))
      = warnings (summary (results t))
        + failed_component (packages (components (results t'))).
Proof.
  unfold collectPackageStatus, packages_outcome. js_unfold.
  destruct (fs_readPackageJson w) as [[packageData|msg] w1].
  - destruct (fs_stat_mtime "package.json" w1) as [[mtime|msg] w2].
    + eexists _, _; split; [reflexivity|]. unfold sections. cbn.
      split; [done|]. split; [|lia]. eexists. split; [reflexivity|]. done.
    + eexists _, _; split; [reflexivity|]. unfold sections. cbn.
      split; [done|]. split; [done|lia].
  - eexists _, _; split; [reflexivity|]. unfold sections. cbn.
    split; [done|]. split; [done|lia].
Qed.

Lemma collectPerformanceMetrics_section (t : Reporter) (w : W) :
  ∃ t' w',
    collectPerformanceMetrics t w = (Returned tt, t', w')
    ∧ sections (results t')
      = (system_info (results t), mcp_servers (components (results t)),
         workflows (components (results t)), packages (components (results t)),
         performance (components (results t')), artifacts (results t))
    ∧ is_Some (performance (components (results t')))
    ∧ warnings (summary (results t'))
      = warnings (summary (results t))
        + performance_warning (performance (components (results t'))).
Proof.
  unfold collectPerformanceMetrics. js_unfold.
  destruct (Date_now w) as [startTime w1].
  destruct (mcpManager_readServers w1) as [[servers|msg] w2].
  - destruct (Date_now w2) as [endTime w3].
    destruct (Date_toISOString w3) as [now w4].
    destruct (endTime - startTime <? 1000) eqn:H1000;
      [|destruct (endTime - startTime <? 3000) eqn:H3000].
    all: eexists _, _; split; [reflexivity|].
    all: unfold sections; cbn.
    all: split; [done|]; split; [done|lia].
  - eexists _, _; split; [reflexivity|]. unfold sections. cbn.
    split; [done|]. split; [done|lia].
Qed.

(** The sections of the finalized report of every run. *)
Lemma finalized_sections (now : string) (dir : option string) (w : W) :
  let r := finalized now dir w in
  artifacts r = []
  ∧ is_Some (mcp_servers (components r))
  ∧ is_Some (performance (components r))
  ∧ workflows_outcome (workflows_world now dir w) r
  ∧ packages_outcome (packages_world now dir w) r
  ∧ warnings (summary r) = expected_warnings r.
Proof.
  cbv zeta. unfold finalized, sweep, workflows_world, packages_world.
  destruct (collectSystemInfo_section (fresh now dir) w) as (t1 & w1 & E1 & S1 & W1);
    [by destruct dir|].
  destruct (collectMCPServerStatus_section t1 w1) as (t2 & w2 & E2 & S2 & I2 & W2).
  destruct (collectWorkflowStatus_section t2 w2) as (t3 & w3 & E3 & S3 & O3 & W3).
  destruct (collectPackageStatus_section t3 w3) as (t4 & w4 & E4 & S4 & O4 & W4).
  destruct (collectPerformanceMetrics_section t4 w4) as (t5 & w5 & E5 & S5 & I5 & W5).
  rewrite !(bind_returned _ _ _ _ _ _ _ E1), !(bind_returned _ _ _ _ _ _ _ E2),
    !(bind_returned _ _ _ _ _ _ _ E3), (bind_returned _ _ _ _ _ _ _ E4),
    (bind_returned _ _ _ _ _ _ _ E5), E2, E3.
  change (results (snd (fst ((generateRecommendations >>> determineOverallStatus) t5 w5))))
    with (results (finalize t5)).
  cbn [snd].
  unfold sections in *.
  injection S1 as S1s S1w S1p S1f S1a.
  injection S2 as S2i S2w S2p S2f S2a.
  injection S3 as S3i S3s S3p S3f S3a.
  injection S4 as S4i S4s S4w S4f S4a.
  injection S5 as S5i S5s S5w S5p S5a.
  assert (Hfresh : warnings (summary (results (fresh now dir))) = 0
                   ∧ artifacts (results (fresh now dir)) = []) by by destruct dir.
  destruct Hfresh as [Hw0 Ha0].
  unfold workflows_outcome, packages_outcome, expected_warnings, missing_system_info in *.
  rewrite finalize_components, finalize_summary.
  change (artifacts (results (finalize t5))) with (artifacts (results t5)).
  change (system_info (results (finalize t5))) with (system_info (results t5)).
  cbn [warnings set_overall_status].
  split; [congruence|]. split; [congruence|]. split; [done|].
  split; [by rewrite S5w, S4w|]. split; [by rewrite S5p|].
  rewrite S5i, S4i, S3i, S2i, S5s, S4s, S3s, S5w, S4w, S5p. lia.
Qed.

End Sections.

(** The missing workflows are the required ones that are not flagged. *)
Lemma missing_workflows_fmap (f : string → bool) (l : list string) :
  missing_workflows ((λ x, (x, f x)) <$> l) = filter (λ x, f x = false) l.
Proof.
  unfold missing_workflows. induction l as [|x l IH]; [done|].
  rewrite fmap_cons. destruct (f x) eqn:E.
  - rewrite !filter_cons_False by (cbn [snd]; congruence). done.
  - rewrite !filter_cons_True by done. rewrite fmap_cons. by f_equal.
Qed.

Section SectionFacts.

Context {W : Type} `{Host W}.

(** X1. In every run the warning counter of the finalized report is the
    number of sections that could not be collected: one for missing system
    information, one for each of the server, workflow and package sections
    that holds an error, and one for the performance section when it holds an
    error or rates the configuration load needs_optimization.  It is
    therefore between 0 and 5, and the overall status warning is only reached
    with exactly four warnings: the registry was loaded and every other
    section failed or was slow. *)
Theorem warnings_account_for_sections (now : string) (dir : option string) (w : W) :
  let r := finalized now dir w in
  warnings (summary r) = expected_warnings r
  ∧ 0 ≤ warnings (summary r) ≤ 5
  ∧ (overall_status (summary r) = "warning" →
     warnings (summary r) = 4
     ∧ (∃ serverResults, mcp_servers (components r) = Some (Collected serverResults))
     ∧ system_info r = None
     ∧ failed_component (workflows (components r)) = 1
     ∧ failed_component (packages (components r)) = 1
     ∧ performance_warning (performance (components r)) = 1).
Proof.
  destruct (finalized_sections now dir w) as (_ & Is & Ip & _ & _ & Hw).
  cbv zeta. split; [done|].
  assert (Hb : ∀ A (c : option (Component A)), 0 ≤ failed_component c ≤ 1).
  { intros A [[|]|]; cbn; lia. }
  assert (Hp : 0 ≤ performance_warning (performance (components (finalized now dir w))) ≤ 1).
  { unfold performance_warning.
    destruct (performance _) as [[p|]|]; [destruct (String.eqb _ _)|..]; lia. }
  assert (Hi : 0 ≤ missing_system_info (finalized now dir w) ≤ 1).
  { unfold missing_system_info. destruct (system_info _); lia. }
  pose proof (Hb _ (mcp_servers (components (finalized now dir w)))) as Hs.
  pose proof (Hb _ (workflows (components (finalized now dir w)))) as Hwf.
  pose proof (Hb _ (packages (components (finalized now dir w)))) as Hpk.
  unfold expected_warnings in Hw. split; [lia|].
  intros Hstatus.
  destruct (finalized_spec now dir w) as (t5 & E & _ & R & _).
  rewrite E in *. rewrite finalize_summary in *. rewrite finalize_components in *.
  cbn [overall_status warnings set_overall_status] in *.
  unfold classify in Hstatus.
  destruct (healthy_servers _ <? failed_servers _); [done|].
  destruct (Z.ltb_spec (health_score (summary (results t5))) 50); [done|].
  destruct (Z.ltb_spec 3 (warnings (summary (results t5)))); [|by destruct (_ <? 80)].
  unfold registry_outcome in R.
  destruct (mcpManager_readServers _) as [[servers|msg] w2].
  - destruct R as (m & Hm & _). rewrite Hm in *. cbn [failed_component] in *.
    unfold missing_system_info in *.
    change (system_info (results (finalize t5))) with (system_info (results t5)) in *.
    destruct (system_info (results t5)); [lia|].
    repeat split; eauto; lia.
  - destruct R as (_ & _ & _ & _ & Hscore). lia.
Qed.

(** X2. In every run (the number of servers being an exact double) the
    overall status is critical exactly when fewer than half of the servers
    are healthy, and degraded exactly when there is no server at all: a fleet
    of which at least half is healthy scores at least 50. *)
Theorem degraded_only_without_servers (now : string) (dir : option string) (w : W) :
  let s := summary (finalized now dir w) in
  total_servers s < 2 ^ 53 →
  (overall_status s = "critical" ↔ 2 * healthy_servers s < total_servers s)
  ∧ (overall_status s = "degraded" ↔ total_servers s = 0)
  ∧ (0 < total_servers s → total_servers s ≤ 2 * healthy_servers s →
     50 ≤ health_score s ≤ 100).
Proof.
  cbv zeta. intros Hbig.
  pose proof (finalized_counts now dir w) as (Hh & Hf & Hsum & Hscore).
  destruct (finalized_spec now dir w) as (t5 & E & _).
  rewrite E in *. rewrite finalize_summary in *.
  cbn [overall_status warnings total_servers healthy_servers failed_servers
       health_score set_overall_status] in *.
  set (s := summary (results t5)) in *.
  assert (Hmaj : 0 < total_servers s → total_servers s ≤ 2 * healthy_servers s →
                 50 ≤ health_score s ≤ 100).
  { intros Hpos Hhalf. rewrite Hscore. apply score_of_majority; lia. }
  assert (Hzero : total_servers s = 0 → health_score s = 0).
  { intros E0. rewrite Hscore, E0. reflexivity. }
  split; [|split; [|done]]; unfold classify.
  - destruct (Z.ltb_spec (healthy_servers s) (failed_servers s)); [split; [lia|done]|].
    split; [|lia].
    destruct (health_score s <? 50); [done|].
    destruct (3 <? warnings s); [done|]. by destruct (health_score s <? 80).
  - destruct (Z.ltb_spec (healthy_servers s) (failed_servers s)); [split; [done|lia]|].
    destruct (Z.ltb_spec (health_score s) 50).
    + split; [|done]. intros _.
      destruct (Z.eq_dec (total_servers s) 0) as [|Hne]; [done|].
      specialize (Hmaj ltac:(lia) ltac:(lia)). lia.
    + split; [|intros E0; specialize (Hzero E0); lia].
      destruct (3 <? warnings s); [done|]. by destruct (health_score s <? 80).
Qed.

(** X3. When every registered server is healthy (at least one, fewer than
    [2^53]) the score is exactly 100, no server is counted as failed, and the
    overall status is healthy unless more than three warnings make it
    warning. *)
Theorem fully_healthy_fleet_scores_100 (now : string) (dir : option string) (w : W) :
  let s := summary (finalized now dir w) in
  0 < total_servers s < 2 ^ 53 →
  healthy_servers s = total_servers s →
  health_score s = 100 ∧ failed_servers s = 0
  ∧ overall_status s = (if 3 <? warnings s then "warning" else "healthy").
Proof.
  cbv zeta. intros Hbig Hall.
  pose proof (finalized_counts now dir w) as (Hh & Hf & Hsum & Hscore).
  destruct (finalized_spec now dir w) as (t5 & E & _).
  rewrite E in *. rewrite finalize_summary in *.
  cbn [overall_status warnings total_servers healthy_servers failed_servers
       health_score set_overall_status] in *.
  set (s := summary (results t5)) in *.
  assert (H100 : health_score s = 100).
  { rewrite Hscore, Hall. apply score_of_all. lia. }
  split; [done|]. split; [lia|].
  unfold classify. rewrite H100.
  destruct (Z.ltb_spec (healthy_servers s) (failed_servers s)); [lia|].
  reflexivity.
Qed.

(** X7. In every run in which the workflow directory can be listed, the
    missing workflows of the report are the required workflows absent from the
    listing, and a recommendation of category workflows is issued exactly when
    one is absent; when the directory cannot be listed the workflow section
    holds the error and no workflow recommendation is issued. *)
Theorem workflow_recommendation_iff_missing (now : string) (dir : option string) (w : W) :
  let r := finalized now dir w in
  match fs_readdir ".github/workflows" (workflows_world now dir w) with
  | (Returned files, _) =>
      run_missing r = filter (λ wf, list_includes files wf = false) requiredWorkflows
      ∧ ((∃ rec, rec ∈ recommendations r ∧ category rec = "workflows")
         ↔ ∃ wf, wf ∈ requiredWorkflows ∧ wf ∉ files)
  | (Thrown msg, _) =>
      workflows (components r) = Some (Failed msg)
      ∧ ¬ ∃ rec, rec ∈ recommendations r ∧ category rec = "workflows"
  end.
Proof.
  cbv zeta.
  destruct (finalized_sections now dir w) as (_ & _ & _ & Owf & _).
  unfold workflows_outcome in Owf.
  destruct (finalized_spec now dir w) as (t5 & E & _).
  assert (Hrecs : ∀ rec, rec ∈ recommendations (finalized now dir w) →
            category rec = "workflows" →
            rec ∈ workflow_recommendations (workflows (components (finalized now dir w)))).
  { intros rec Hin Hcat. rewrite E in *.
    rewrite finalize_recommendations in Hin. rewrite finalize_components.
    unfold deriveRecommendations in Hin.
    rewrite !elem_of_app in Hin. destruct Hin as [Hin|[Hin|[Hin|Hin]]]; [| |done|].
    - unfold health_recommendations in Hin.
      destruct (_ <? 50); [|destruct (_ <? 80)];
        [apply list_elem_of_singleton in Hin; by subst rec..|by apply elem_of_nil in Hin].
    - unfold performance_recommendations in Hin.
      destruct (performance _) as [[p|]|]; [destruct (String.eqb _ _)|..];
        try (by apply elem_of_nil in Hin).
      apply list_elem_of_singleton in Hin; by subst rec.
    - apply list_elem_of_singleton in Hin; by subst rec. }
  assert (Hback : ∀ rec,
            rec ∈ workflow_recommendations (workflows (components (finalized now dir w))) →
            rec ∈ recommendations (finalized now dir w) ∧ category rec = "workflows").
  { intros rec Hin. split.
    - rewrite E in *. rewrite finalize_recommendations. rewrite finalize_components in Hin.
      unfold deriveRecommendations. rewrite !elem_of_app. auto.
    - unfold workflow_recommendations in Hin.
      destruct (workflows _) as [[wf|]|]; try (by apply elem_of_nil in Hin).
      destruct (0 <? _)%nat; [|by apply elem_of_nil in Hin].
      apply list_elem_of_singleton in Hin; by subst rec. }
  destruct (fs_readdir _ _) as [[files|msg] w3].
  - destruct Owf as (wf & Hwf & _ & _ & _ & Hreq).
    assert (Hmissing : missing_workflows (required_workflows wf)
              = filter (λ wf, list_includes files wf = false) requiredWorkflows).
    { rewrite Hreq. apply missing_workflows_fmap. }
    split; [unfold run_missing; by rewrite Hwf|].
    assert (Hin_files : ∀ x, list_includes files x = false ↔ x ∉ files).
    { intros x. unfold list_includes. rewrite <- not_true_iff_false, existsb_exists.
      split.
      - intros Hno Hin. apply Hno. exists x. split; [by apply list_elem_of_In|].
        apply String.eqb_refl.
      - intros Hno (y & Hy & Heq). apply String.eqb_eq in Heq. subst y.
        by apply Hno, list_elem_of_In. }
    split.
    + intros (rec & Hin & Hcat). specialize (Hrecs rec Hin Hcat).
      rewrite Hwf in Hrecs. unfold workflow_recommendations in Hrecs.
      rewrite Hmissing in Hrecs.
      destruct (filter _ requiredWorkflows) as [|x xs] eqn:Hf;
        [by apply elem_of_nil in Hrecs|].
      exists x. assert (Hx : x ∈ filter (λ wf, list_includes files wf = false) requiredWorkflows)
        by (rewrite Hf; left).
      apply list_elem_of_filter in Hx as [Hx1 Hx2]. split; [done|by apply Hin_files].
    + intros (x & Hx & Hno).
      assert (Hx' : x ∈ filter (λ wf, list_includes files wf = false) requiredWorkflows)
        by (apply list_elem_of_filter; split; [by apply Hin_files|done]).
      rewrite <- Hmissing in Hx'.
      destruct (missing_workflows (required_workflows wf)) as [|y ys] eqn:Hm;
        [by apply elem_of_nil in Hx'|].
      eexists. apply Hback. rewrite Hwf. unfold workflow_recommendations.
      rewrite Hm. cbn [length Nat.ltb Nat.leb]. left.
  - split; [done|]. intros (rec & Hin & Hcat). specialize (Hrecs rec Hin Hcat).
    rewrite Owf in Hrecs. by apply elem_of_nil in Hrecs.
Qed.

End SectionFacts.

Section SectionCounts.

Context {W : Type} `{Host W}.

Lemma filter_counts {A} (P : A → bool) (l : list A) :
  0 ≤ Z.of_nat (length (filter (λ x, P x = true) l)) ≤ Z.of_nat (length l)
  ∧ Forall (λ x, P x = true) (filter (λ x, P x = true) l).
Proof.
  split; [pose proof (length_filter (λ x, P x = true) l); lia|].
  apply Forall_forall. intros x Hx. by apply list_elem_of_filter in Hx as [Hx _].
Qed.

(** X8. In every run the workflow and the package sections are set, and
    when they were collected their figures agree: the number of MCP workflows
    is the length of the listed workflow files, all of which match, and is at
    most the total; the required workflows are the three required names; the
    number of MCP dependencies is the length of the listed dependencies, all
    of which match, and is at most the total; likewise for the scripts. *)
Theorem section_counts_are_consistent (now : string) (dir : option string) (w : W) :
  let r := finalized now dir w in
  match workflows (components r) with
  | Some (Collected wf) =>
      0 ≤ mcp_workflows wf ≤ total_workflows wf
      ∧ mcp_workflows wf = Z.of_nat (length (workflow_files wf))
      ∧ Forall (λ f, is_mcp_workflow f = true) (workflow_files wf)
      ∧ (required_workflows wf).*1 = requiredWorkflows
  | Some (Failed _) => True
  | None => False
  end
  ∧ match packages (components r) with
    | Some (Collected p) =>
        0 ≤ mcp_dependencies p ≤ total_dependencies p
        ∧ mcp_dependencies p = Z.of_nat (length (mcp_dependency_list p))
        ∧ Forall (λ d, is_mcp_dependency d = true) (mcp_dependency_list p)
        ∧ mcp_scripts p = Z.of_nat (length (mcp_script_list p))
        ∧ Forall (λ s, is_mcp_script s = true) (mcp_script_list p)
    | Some (Failed _) => True
    | None => False
    end.
Proof.
  cbv zeta.
  destruct (finalized_sections now dir w) as (_ & _ & _ & Owf & Opk & _).
  unfold workflows_outcome, packages_outcome in *. split.
  - destruct (fs_readdir _ _) as [[files|msg] w3]; [|by rewrite Owf].
    destruct Owf as (wf & -> & Htotal & Hfiles & Hmcp & Hreq).
    destruct (filter_counts is_mcp_workflow files) as [Hlen Hall].
    rewrite Hmcp, Htotal, Hfiles, Hreq. repeat split; try done; lia.
  - destruct (fs_readPackageJson _) as [[packageData|msg] w4]; [|by rewrite Opk].
    destruct (fs_stat_mtime _ _) as [[mtime|msg] w5]; [|by rewrite Opk].
    cbv zeta in Opk.
    destruct Opk as (p & -> & _ & _ & Htotal & Hdeps & Hmcp & Hscripts & Hn & _).
    destruct (filter_counts is_mcp_dependency
                (spread_keys (default [] (pkg_dependencies packageData))
                             (default [] (pkg_devDependencies packageData)))) as [Hlen Hall].
    destruct (filter_counts is_mcp_script (default [] (pkg_scripts packageData)))
      as [_ Hall'].
    rewrite Hmcp, Htotal, Hdeps, Hn, Hscripts. repeat split; try done; lia.
Qed.

End SectionCounts.

(** ** Rendering and emission *)

(** The sections of a report that can be rendered. *)
Lemma render_server_returns (k : string) (x : ServerResult) :
  ∃ text, render_server (k, js_serverResult x) = Returned text.
Proof.
  unfold render_server, js_serverResult, js_config, js_option.
  cbn [getProp assoc Outcome_bind default String.eqb Ascii.eqb Bool.eqb].
  destruct (args (config x)) as [a|]; cbn [Outcome_bind truthy]; eexists; reflexivity.
Qed.

Lemma render_servers_collected (m : gmap string ServerResult) :
  ∃ text, render_servers (Some (Collected m)) = Returned text.
Proof.
  unfold render_servers, server_entries.
  assert (Hall : ∀ l : list (string * ServerResult),
            ∃ ys, map_throwing render_server
                    ((λ entry, (fst entry, js_serverResult (snd entry))) <$> l)
                  = Returned ys).
  { induction l as [|[k x] l [ys IH]]; [by eexists|].
    rewrite fmap_cons. cbn [map_throwing fst snd].
    destruct (render_server_returns k x) as [text ->]. cbn [Outcome_bind].
    rewrite IH. by eexists. }
  destruct (Hall (map_to_list m)) as [ys ->]. by eexists.
Qed.

(** The markdown report of every report object. *)
Lemma renderMarkdown_cases (this_timestamp : string) (r : Results) :
  match mcp_servers (components r), performance (components r) with
  | Some (Failed _), _ =>
      renderMarkdown this_timestamp r
      = Thrown "Cannot read properties of undefined (reading 'command')"
  | _, Some (Failed _) =>
      renderMarkdown this_timestamp r
      = Thrown "Cannot read properties of undefined (reading 'rss_mb')"
  | _, _ => ∃ text, renderMarkdown this_timestamp r = Returned text
  end.
Proof.
  unfold renderMarkdown.
  assert (Hservers : ∀ c, (∃ e, c = Some (Failed e)) ∨
            ∃ text, render_servers c = Returned text
                    ∧ match c with Some (Failed _) => False | _ => True end).
  { intros [[m|e]|]; [right|left; eauto|right].
    - destruct (render_servers_collected m) as [text ->]. eauto.
    - eexists. split; [reflexivity|done]. }
  assert (Hpk : ∃ text, render_packages (packages (components r)) = Returned text).
  { destruct (packages _) as [[p|e]|]; by eexists. }
  assert (Hwf : ∃ text, render_workflows (workflows (components r)) = Returned text).
  { destruct (workflows _) as [[p|e]|]; by eexists. }
  destruct Hpk as [pk Hpk], Hwf as [wf Hwf].
  destruct (Hservers (mcp_servers (components r))) as [[e ->]|(sv & Hsv & Hok)]; [done|].
  rewrite Hsv. cbn [Outcome_bind].
  destruct (mcp_servers (components r)) as [[m|e]|]; [|done|].
  all: destruct (performance (components r)) as [[p|e]|]; [|done|].
  all: cbn [render_performance js_performance getProp assoc Outcome_bind default
            String.eqb Ascii.eqb Bool.eqb].
  all: rewrite Hpk, Hwf; cbn [Outcome_bind]; by eexists.
Qed.


Section Quiet.

Context {W : Type} `{Host W}.

Lemma quiet_ret {A} (a : A) : quiet (W := W) (ret a).
Proof. by intros t tw. Qed.

Lemma quiet_bind {A B} (m : Js (Traced W) A) (k : A → Js (Traced W) B) :
  quiet m → (∀ a, quiet (k a)) → quiet (bind m k).
Proof.
  intros Hm Hk t tw. unfold bind. specialize (Hm t tw).
  destruct (m t tw) as [[[a|msg] t'] tw']; [|done].
  rewrite <- Hm. apply Hk.
Qed.

Lemma quiet_try_catch {A} (body : Js (Traced W) A) (handler : string → Js (Traced W) A) :
  quiet body → (∀ msg, quiet (handler msg)) → quiet (try_catch body handler).
Proof.
  intros Hm Hk t tw. unfold try_catch. specialize (Hm t tw).
  destruct (body t tw) as [[[a|msg] t'] tw']; [done|].
  rewrite <- Hm. apply Hk.
Qed.

Lemma quiet_call {A} (f : W → Outcome A * W) : quiet (call (pass f)).
Proof. intros t [w l]. unfold call, pass. cbn. by destruct (f w). Qed.

Lemma quiet_call_total {A} (f : W → A * W) : quiet (call_total (pass f)).
Proof. intros t [w l]. unfold call_total, pass. cbn. by destruct (f w). Qed.

Lemma quiet_ask {A} (f : Traced W → A) : quiet (ask f).
Proof. by intros t tw. Qed.

Lemma quiet_this : quiet (W := W) this.
Proof. by intros t tw. Qed.

Lemma quiet_assign (f : Reporter → Reporter) : quiet (W := W) (assign f).
Proof. by intros t tw. Qed.

Lemma quiet_for_of {X S} (xs : list X) (body : X → S → Js (Traced W) S) :
  (∀ x acc, quiet (body x acc)) → ∀ acc, quiet (for_of xs body acc).
Proof.
  intros Hbody. induction xs as [|x xs IH]; intros acc; cbn [for_of].
  - apply quiet_ret.
  - apply quiet_bind; [apply Hbody|intros acc'; apply IH].
Qed.

Ltac quiet_step :=
  first
    [ apply quiet_ret
    | apply quiet_this
    | apply quiet_assign
    | apply quiet_ask
    | apply quiet_call
    | apply quiet_call_total
    | apply quiet_bind; [|intros ?]
    | apply quiet_try_catch; [|intros ?]
    | apply quiet_for_of; intros ? ? ].

Ltac quiet_auto :=
  repeat (quiet_step
          || match goal with
             | |- quiet (if ?c then _ else _) => destruct c
             | |- quiet (let '(_, _) := ?p in _) => destruct p
             end).

Lemma initialize_quiet : quiet (initialize (H := Traced_host)).
Proof. unfold initialize. quiet_auto. Qed.

Lemma collectSystemInfo_quiet : quiet (collectSystemInfo (H := Traced_host)).
Proof. unfold collectSystemInfo, assign_summary, assign_results. quiet_auto. Qed.

Lemma testServer_quiet entry acc : quiet (testServer (H := Traced_host) entry acc).
Proof. unfold testServer, assign_summary, assign_results. quiet_auto. Qed.

Lemma collectMCPServerStatus_quiet : quiet (collectMCPServerStatus (H := Traced_host)).
Proof.
  unfold collectMCPServerStatus, assign_summary, assign_components, assign_results.
  repeat (quiet_step || apply testServer_quiet).
Qed.

Lemma collectWorkflowStatus_quiet : quiet (collectWorkflowStatus (H := Traced_host)).
Proof.
  unfold collectWorkflowStatus, assign_summary, assign_components, assign_results.
  quiet_auto.
Qed.

Lemma collectPackageStatus_quiet : quiet (collectPackageStatus (H := Traced_host)).
Proof.
  unfold collectPackageStatus, assign_summary, assign_components, assign_results.
  quiet_auto.
Qed.

Lemma collectPerformanceMetrics_quiet : quiet (collectPerformanceMetrics (H := Traced_host)).
Proof.
  unfold collectPerformanceMetrics, assign_summary, assign_components, assign_results.
  quiet_auto.
Qed.

Lemma sweep_quiet : quiet (sweep (H := Traced_host)).
Proof.
  unfold sweep, generateRecommendations, determineOverallStatus,
    assign_summary, assign_results.
  repeat (first [ apply collectSystemInfo_quiet | apply collectMCPServerStatus_quiet
                | apply collectWorkflowStatus_quiet | apply collectPackageStatus_quiet
                | apply collectPerformanceMetrics_quiet | quiet_step ]).
Qed.

End Quiet.

Section CommandLineCalls.

Context {W : Type} `{Host W}.

Ltac traced_step :=
  cbn [fs_writeFile fs_copyFile Date_toISOString Traced_host];
  unfold record_call, pass; cbn [fst snd returned];
  match goal with
  | |- context [fs_writeFile ?p ?c ?w] =>
      lazymatch w with (_, _) => fail | _ => destruct (fs_writeFile p c w) as [[[]|?] ?] end
  | |- context [fs_copyFile ?a ?b ?w] =>
      lazymatch w with (_, _) => fail | _ => destruct (fs_copyFile a b w) as [[[]|?] ?] end
  | |- context [Date_toISOString ?w] =>
      lazymatch w with (_, _) => fail | _ => destruct (Date_toISOString w) as [? ?] eqn:? end
  | |- context [renderMarkdown ?a ?b] => destruct (renderMarkdown a b) as [?|?] eqn:?
  end;
  cbn [fst snd returned].

Ltac all_succeeded H :=
  repeat (apply Forall_cons in H as [? H]); try done.

(** The file system calls of [generateReports] from an empty record. *)
Lemma generateReports_calls (t : Reporter) (w : W) (dir : string) :
  timestampDir t = Some dir →
  let run := generateReports (H := Traced_host) t (w, []) in
  let log := snd (snd run) in
  fs_target <$> reverse log `prefix_of` planned_targets dir
  ∧ (returned (fst (fst run)) = true
     ↔ length log = 5%nat ∧ Forall (λ c, fs_succeeded c = true) log)
  ∧ (∀ c doc, c ∈ log → fs_payload c = Some (JsonText doc) → doc = results t)
  ∧ (returned (fst (fst run)) = true →
     artifacts (results (snd (fst run))) = take 3 (planned_targets dir)
     ∧ timestampDir (snd (fst run)) = Some dir
     ∧ summary (results (snd (fst run))) = summary (results t)
     ∧ components (results (snd (fst run))) = components (results t)
     ∧ recommendations (results (snd (fst run))) = recommendations (results t)).
Proof.
  intros Hdir. cbv zeta. rewrite generateReports_script.
  unfold emission_script, planned_targets. rewrite Hdir.
  repeat traced_step.
  all: cbn [tail length fmap list_fmap reverse rev_append take].
  all: split; [unfold prefix; eexists; reflexivity|].
  all: split; [split; [try done|by intros [[=] Hall]; all_succeeded Hall]|].
  all: try (split; [done|by repeat constructor]).
  all: split; [|try done].
  all: try (intros c doc Hin Hpay;
            repeat (apply elem_of_cons in Hin as [->|Hin]; [by (discriminate || injection Hpay)|]);
            by apply elem_of_nil in Hin).
  all: intros _; rewrite ?Hdir; done.
Qed.

(** [main] on the observed host, step by step. *)
Lemma main_cases (w : W) :
  let now := fst (Date_toISOString w) in
  let tw0 : Traced W := (snd (Date_toISOString w), []) in
  let run := main (H := Traced_host) (w, []) in
  (returned (fst (fst (initialize (H := Traced_host) (constructor now) tw0))) = false
   ∧ fst (fst run) = 1 ∧ snd (snd run) = []
   ∧ results (snd (fst run)) = results (constructor now))
  ∨ (∃ w1 t5 w5,
       initialize (H := Traced_host) (constructor now) tw0
       = (Returned tt, fresh now (Some (run_directory now)), (w1, []))
       ∧ results (finalize t5)
         = finalized (W := Traced W) now (Some (run_directory now)) (w1, [])
       ∧ timestampDir (finalize t5) = Some (run_directory now)
       ∧ let emission := generateReports (H := Traced_host) (finalize t5) (w5, []) in
         snd run = snd emission
         ∧ snd (fst run) = snd (fst emission)
         ∧ fst (fst run) = (if returned (fst (fst emission)) then 0 else 1)).
Proof.
  cbv zeta. unfold main.
  cbn [Date_toISOString Traced_host]. unfold pass. cbn [fst snd].
  destruct (Date_toISOString w) as [now w0]. cbn [fst snd].
  unfold generateFullReport, try_catch.
  pose proof (initialize_quiet (constructor now) (w0, [])) as Hq0. cbn [snd] in Hq0.
  destruct (initialize_cases (H := Traced_host) now (w0, []))
    as [(msg & t1 & [w1 l1] & E)|([w1 l1] & E)]; rewrite E in Hq0 |- *;
    cbn [snd] in Hq0; subst l1.
  - left. rewrite (bind_thrown _ _ _ _ _ _ _ E). cbn [fst snd returned throw].
    split; [done|]. split; [done|]. split; [done|].
    revert E. unfold initialize, bind, this, call, assign.
    cbn [reportDir this_timestamp constructor].
    destruct (fs_mkdir "reports/mcp-status" _) as [[[]|?] ?]; [|by intros [= _ <- _]].
    destruct (fs_mkdir _ _) as [[[]|?] ?]; [done|by intros [= _ <- _]].
  - right. rewrite (bind_returned _ _ _ _ _ _ _ E).
    destruct (sweep_spec (W := Traced W) now
                (Some (path_join "reports/mcp-status" (before_T now))) (w1, []))
      as (t5 & [w5 l5] & Esweep & _ & _ & Hid & _).
    pose proof (sweep_quiet (W := W) (fresh now (Some (path_join "reports/mcp-status" (before_T now))))
                  (w1, [])) as Hq. rewrite Esweep in Hq. cbn [snd] in Hq. subst l5.
    exists w1, t5, w5. split; [done|].
    split; [unfold finalized, run_directory; by rewrite Esweep|].
    split; [change (timestampDir (finalize t5)) with (timestampDir t5);
            by destruct Hid as (_ & _ & -> & _)|].
    rewrite (bind_returned _ _ _ _ _ _ _ Esweep).
    unfold bind, this, ret, throw.
    by destruct (generateReports (W := Traced W) (finalize t5) (w5, []))
      as [[[[]|msg] t6] w6].
Qed.

(** X5. In a run of the command line the only writes and copies are those
    of [generateReports], in their order and under
    [reports/mcp-status/<date>]: [initialize] and the sweep attempt none.  The
    exit code is 0 exactly when all five were made and succeeded.  The
    structured document handed to [fs.writeFile] always has an empty
    [artifacts] list, while the report object of a successful run lists the
    three artifact paths. *)
Theorem command_line_file_calls (w : W) :
  let run := main (H := Traced_host) (w, []) in
  let dir := run_directory (fst (Date_toISOString w)) in
  let log := snd (snd run) in
  fs_target <$> reverse log `prefix_of` planned_targets dir
  ∧ (fst (fst run) = 0
     ↔ length log = 5%nat ∧ Forall (λ c, fs_succeeded c = true) log)
  ∧ (∀ c doc, c ∈ log → fs_payload c = Some (JsonText doc) → artifacts doc = [])
  ∧ (fst (fst run) = 0 →
     timestampDir (snd (fst run)) = Some dir
     ∧ artifacts (results (snd (fst run))) = take 3 (planned_targets dir)).
Proof.
  cbv zeta.
  destruct (main_cases w) as [(_ & Hcode & Hlog & _)|(w1 & t5 & w5 & _ & Hfin & Hdir & Hrun)].
  - rewrite Hcode, Hlog. split; [apply prefix_nil|].
    split; [split; [done|by intros [[=] _]]|]. split; [|done].
    intros c doc Hin. by apply elem_of_nil in Hin.
  - cbv zeta in Hrun. destruct Hrun as (Hw & Ht & Hc).
    destruct (generateReports_calls (finalize t5) w5 _ Hdir)
      as (Hprefix & Hiff & Hdoc & Hok).
    rewrite Hw, Ht, Hc.
    assert (Hzero : ∀ b : bool, (if b then 0 else 1) = 0 ↔ b = true)
      by (intros []; split; done).
    split; [done|]. split; [by rewrite Hzero|]. split.
    + intros c doc Hin Hpay. rewrite (Hdoc c doc Hin Hpay), Hfin.
      apply (finalized_sections (W := Traced W)).
    + rewrite Hzero. intros Hret. destruct (Hok Hret) as (Ha & Hd & _). done.
Qed.

(** X9. When [initialize] throws (a report directory cannot be created),
    the command line exits with code 1, attempts no write and no copy, and
    leaves the report object as constructed: nothing is collected. *)
Theorem initialize_failure_is_fatal (w : W) :
  let now := fst (Date_toISOString w) in
  let tw0 : Traced W := (snd (Date_toISOString w), []) in
  let run := main (H := Traced_host) (w, []) in
  returned (fst (fst (initialize (H := Traced_host) (constructor now) tw0))) = false →
  fst (fst run) = 1
  ∧ snd (snd run) = []
  ∧ results (snd (fst run)) = results (constructor now).
Proof.
  cbv zeta. intros Hinit.
  destruct (main_cases w) as [(_ & Hcode & Hlog & Hres)|(w1 & t5 & w5 & E & _)]; [done|].
  rewrite E in Hinit. done.
Qed.

End CommandLineCalls.

Section Uncollected.

Context {W : Type} `{Host W}.

Lemma renderMarkdown_uncollected (this_timestamp : string) (r : Results) :
  uncollected r → returned (renderMarkdown this_timestamp r) = false.
Proof.
  intros Hun. pose proof (renderMarkdown_cases this_timestamp r) as Hcases.
  destruct Hun as [[e He]|[e He]]; rewrite He in Hcases.
  - by rewrite Hcases.
  - destruct (mcp_servers (components r)) as [[m|e']|]; by rewrite Hcases.
Qed.

(** [generateReports] leaves the sections of the report alone. *)
Lemma generateReports_components (t : Reporter) (w : W) :
  components (results (snd (fst (generateReports t w)))) = components (results t).
Proof.
  rewrite generateReports_script. unfold emission_script.
  destruct (timestampDir t) as [dir|]; [|done].
  destruct (fs_writeFile _ _ w) as [[[]|msg1] w1]; [|done].
  destruct (renderMarkdown _ _) as [md|msg2]; [|done].
  destruct (fs_writeFile _ _ w1) as [[[]|msg3] w2]; [|done].
  destruct (Date_toISOString w2) as [now w3].
  destruct (fs_writeFile _ _ w3) as [[[]|msg4] w4]; [|done].
  destruct (fs_copyFile _ _ w4) as [[[]|msg5] w5]; [|done].
  by destruct (fs_copyFile _ _ w5) as [[[]|msg6] w6].
Qed.

End Uncollected.

Section UncollectedRuns.

Context {W : Type} `{Host W}.

(** Emission of a report with an uncollected section: one call at most. *)
Lemma generateReports_uncollected (t : Reporter) (w : W) :
  uncollected (results t) →
  let run := generateReports (H := Traced_host) t (w, []) in
  returned (fst (fst run)) = false
  ∧ (length (snd (snd run)) ≤ 1)%nat
  ∧ results (snd (fst run)) = results t.
Proof.
  intros Hun. cbv zeta. rewrite generateReports_script. unfold emission_script.
  destruct (timestampDir t) as [dir|]; [|repeat split; cbn; lia].
  cbn [fs_writeFile Traced_host]. unfold record_call. cbn [fst snd].
  destruct (fs_writeFile _ _ w) as [[[]|msg] w1]; [|repeat split; cbn; lia].
  pose proof (renderMarkdown_uncollected (this_timestamp t) _ Hun) as Hmd.
  destruct (renderMarkdown _ _) as [text|msg]; [done|]. repeat split; cbn; lia.
Qed.

(** X6. When the report of a command-line run ends with an [{ error }]
    server or performance section, the process exits with code 1 after at
    most one write, and the [artifacts] list stays empty. *)
Theorem uncollected_section_aborts_report (w : W) :
  let run := main (H := Traced_host) (w, []) in
  uncollected (results (snd (fst run))) →
  fst (fst run) = 1
  ∧ (length (snd (snd run)) ≤ 1)%nat
  ∧ artifacts (results (snd (fst run))) = [].
Proof.
  cbv zeta. intros Hun.
  destruct (main_cases w) as [(_ & Hcode & Hlog & Hres)|(w1 & t5 & w5 & _ & Hfin & Hdir & Hrun)].
  - rewrite Hcode, Hlog, Hres. repeat split; try done. cbn. lia.
  - cbv zeta in Hrun. destruct Hrun as (Hw & Ht & Hc).
    rewrite Hw, Ht, Hc in *.
    assert (Hun5 : uncollected (results (finalize t5))).
    { unfold uncollected in *.
      by rewrite (generateReports_components (H := Traced_host)) in Hun. }
    destruct (generateReports_uncollected (finalize t5) w5 Hun5) as (Hret & Hlen & Hres).
    rewrite Hret, Hres. split; [done|]. split; [done|].
    rewrite Hfin. apply (finalized_sections (W := Traced W)).
Qed.

End UncollectedRuns.

(** ** Reading the counts of the terse summary back *)

(** X16. Reading the terse summary of a report back gives its counters:
    the line SERVERS holds healthy/total, the line WARNINGS the warning
    counter and the line RECOMMENDATIONS the number of recommendations; the
    summary has twelve lines, and the eleventh says that all systems are
    operational exactly when the overall status is healthy (the timestamp
    being made of ISO timestamp characters and the status one of the five
    assigned ones). *)
Theorem summary_counts_read_back (now : string) (r : Results) :
  timestamp_like now = true →
  overall_status (summary r) ∈ assigned_statuses →
  let text := renderSummary now r in
  let s := summary r in
  read_field "SERVERS: " text
  = Some (pretty (healthy_servers s) +:+ "/" +:+ pretty (total_servers s) +:+ " healthy")
  ∧ read_field "WARNINGS: " text = Some (pretty (warnings s))
  ∧ read_field "RECOMMENDATIONS: " text
    = Some (pretty (Z.of_nat (length (recommendations r))))
  ∧ split_lines text !! 10%nat
    = Some (if String.eqb (overall_status s) "healthy"
            then "✅ All systems operational"
            else "⚠️ Attention required - see full report")
  ∧ length (split_lines text) = 12%nat.
Proof.
  intros Hnow Hstatus. cbv zeta.
  assert (Hupper : no_newline (toUpperCase (overall_status (summary r))) = true).
  { revert Hstatus. unfold assigned_statuses. rewrite !elem_of_cons, !elem_of_nil.
    intros Hs. destruct_or!; try done; by rewrite Hs. }
  assert (Hclosing : no_newline (if String.eqb (overall_status (summary r)) "healthy"
                                 then "✅ All systems operational"
                                 else "⚠️ Attention required - see full report") = true)
    by by destruct (String.eqb _ _).
  unfold renderSummary, unlines, join, read_field. cbn [String.concat].
  rewrite split_lines_line by done.
  rewrite split_lines_line by by apply timestamp_like_no_newline.
  rewrite split_lines_line by done.
  rewrite split_lines_line by (by rewrite no_newline_app, Hupper).
  rewrite split_lines_line by (by rewrite !no_newline_app, no_newline_pretty).
  rewrite split_lines_line by done.
  rewrite split_lines_line by (by rewrite !no_newline_app, !no_newline_pretty).
  rewrite split_lines_line by (by rewrite !no_newline_app, no_newline_pretty).
  rewrite split_lines_line by (by rewrite !no_newline_app, no_newline_pretty).
  rewrite split_lines_line by done.
  rewrite split_lines_line by exact Hclosing.
  cbn [split_lines omap list_omap].
  change (strip_prefix _ "EchoTune AI - MCP Status Summary") with (@None string).
  rewrite (timestamp_like_no_label "ERVERS: " now "S"%char),
    (timestamp_like_no_label "ARNINGS: " now "W"%char),
    (timestamp_like_no_label "ECOMMENDATIONS: " now "R"%char) by done.
  change (strip_prefix _ "") with (@None string).
  change (strip_prefix "SERVERS: " ("OVERALL STATUS: " +:+ ?x)) with (@None string).
  change (strip_prefix "WARNINGS: " ("OVERALL STATUS: " +:+ ?x)) with (@None string).
  change (strip_prefix "RECOMMENDATIONS: " ("OVERALL STATUS: " +:+ ?x)) with (@None string).
  change (strip_prefix "SERVERS: " ("HEALTH SCORE: " +:+ ?x)) with (@None string).
  change (strip_prefix "WARNINGS: " ("HEALTH SCORE: " +:+ ?x)) with (@None string).
  change (strip_prefix "RECOMMENDATIONS: " ("HEALTH SCORE: " +:+ ?x)) with (@None string).
  change (strip_prefix "WARNINGS: " ("SERVERS: " +:+ ?x)) with (@None string).
  change (strip_prefix "RECOMMENDATIONS: " ("SERVERS: " +:+ ?x)) with (@None string).
  change (strip_prefix "RECOMMENDATIONS: " ("WARNINGS: " +:+ ?x)) with (@None string).
  rewrite !strip_prefix_app. repeat split; reflexivity.
Qed.

(** ** The workflow integration tester *)

Section Tester.

Import WorkflowTester.

Context {W : Type} `{Host W}.

Lemma count_type_nil ty : count_type ty [] = 0.
Proof. reflexivity. Qed.

Lemma count_type_app ty (l1 l2 : list TestEntry) :
  count_type ty (l1 ++ l2) = count_type ty l1 + count_type ty l2.
Proof. unfold count_type. rewrite filter_app, length_app. lia. Qed.

Lemma count_type_singleton ty (e : TestEntry) :
  count_type ty [e] = b2z (String.eqb (type e) ty).
Proof.
  unfold count_type. destruct (String.eqb_spec (type e) ty) as [E|E].
  - by rewrite filter_cons_True.
  - by rewrite filter_cons_False.
Qed.

Lemma count_type_nonneg ty (l : list TestEntry) : 0 ≤ count_type ty l.
Proof. unfold count_type. lia. Qed.

Lemma extends_refl t : extends t t.
Proof.
  exists []. rewrite app_nil_r, !count_type_nil. repeat split; try lia. constructor.
Qed.

Lemma extends_trans t1 t2 t3 : extends t1 t2 → extends t2 t3 → extends t1 t3.
Proof.
  intros (n1 & E1 & P1 & F1 & W1 & T1) (n2 & E2 & P2 & F2 & W2 & T2).
  exists (n1 ++ n2)%list. rewrite !count_type_app, E2, E1, app_assoc.
  repeat split; try lia. by apply Forall_app.
Qed.

Lemma extends_push (e : TestEntry) t : type e ∈ log_types → extends t (push e t).
Proof.
  intros He. exists [e]. rewrite !count_type_singleton.
  repeat split. by constructor.
Qed.

Lemma consistent_extends t t' : consistent t → extends t t' → consistent t'.
Proof.
  intros (P & F & Wn) (n & E & P' & F' & W' & _). unfold consistent.
  rewrite E, !count_type_app. lia.
Qed.

(** The counters never decrease and the entries stay. *)
Lemma extends_monotone t t' :
  extends t t' →
  passed t ≤ passed t' ∧ failed t ≤ failed t' ∧ warnings t ≤ warnings t'
  ∧ tests t `prefix_of` tests t'.
Proof.
  intros (n & E & P & F & Wn & _).
  pose proof (count_type_nonneg "pass" n). pose proof (count_type_nonneg "fail" n).
  pose proof (count_type_nonneg "warn" n).
  repeat split; try lia. by exists n.
Qed.


Lemma grows_ret {A} (a : A) : grows (W := W) (ret a).
Proof. intros t w. apply extends_refl. Qed.

Lemma grows_throw {A} msg : grows (W := W) (A := A) (throw msg).
Proof. intros t w. apply extends_refl. Qed.

Lemma grows_eval {A} (o : Outcome A) : grows (W := W) (eval o).
Proof. intros t w. apply extends_refl. Qed.

Lemma grows_this : grows (W := W) this.
Proof. intros t w. apply extends_refl. Qed.

Lemma grows_call {A} (f : W → Outcome A * W) : grows (call f).
Proof. intros t w. unfold call. destruct (f w). apply extends_refl. Qed.

Lemma grows_call_total {A} (f : W → A * W) : grows (call_total f).
Proof. intros t w. unfold call_total. destruct (f w). apply extends_refl. Qed.

Lemma grows_bind {A B} (m : Js W A) (k : A → Js W B) :
  grows m → (∀ a, grows (k a)) → grows (bind m k).
Proof.
  intros Hm Hk t w. unfold bind. specialize (Hm t w).
  destruct (m t w) as [[[a|msg] t'] w']; [|done].
  eapply extends_trans; [exact Hm|apply Hk].
Qed.

Lemma grows_try_catch {A} (body : Js W A) (handler : string → Js W A) :
  grows body → (∀ msg, grows (handler msg)) → grows (try_catch body handler).
Proof.
  intros Hm Hk t w. unfold try_catch. specialize (Hm t w).
  destruct (body t w) as [[[a|msg] t'] w']; [done|].
  eapply extends_trans; [exact Hm|apply Hk].
Qed.

Lemma grows_for_of {X} (xs : list X) (body : X → Js W unit) :
  (∀ x, grows (body x)) → grows (for_of xs body).
Proof.
  intros Hbody. induction xs as [|x xs IH]; cbn [for_of].
  - apply grows_ret.
  - apply grows_bind; [apply Hbody|intros _; apply IH].
Qed.

Lemma grows_log msg ty : ty ∈ log_types → grows (log msg ty).
Proof.
  intros Hty t w. unfold log, bind, call_total, assign.
  destruct (Date_toISOString w) as [now w']. by apply extends_push.
Qed.

Lemma total_ret {A} (a : A) : total (W := W) (ret a).
Proof. by intros t w. Qed.

Lemma total_this : total (W := W) this.
Proof. by intros t w. Qed.

Lemma total_call_total {A} (f : W → A * W) : total (call_total f).
Proof. intros t w. unfold call_total. by destruct (f w). Qed.

Lemma total_bind {A B} (m : Js W A) (k : A → Js W B) :
  total m → (∀ a, total (k a)) → total (bind m k).
Proof.
  intros Hm Hk t w. unfold bind. specialize (Hm t w).
  destruct (m t w) as [[[a|msg] t'] w']; [apply Hk|done].
Qed.

Lemma total_try_catch {A} (body : Js W A) (handler : string → Js W A) :
  (∀ msg, total (handler msg)) → total (try_catch body handler).
Proof.
  intros Hk t w. unfold try_catch.
  destruct (body t w) as [[[a|msg] t'] w']; [done|apply Hk].
Qed.

Lemma total_for_of {X} (xs : list X) (body : X → Js W unit) :
  (∀ x, total (body x)) → total (for_of xs body).
Proof.
  intros Hbody. induction xs as [|x xs IH]; cbn [for_of].
  - apply total_ret.
  - apply total_bind; [apply Hbody|intros _; apply IH].
Qed.

Lemma total_log msg ty : total (log msg ty).
Proof.
  intros t w. unfold log, bind, call_total, assign.
  by destruct (Date_toISOString w) as [now w'].
Qed.

Ltac log_type := unfold log_types; by repeat constructor.

Ltac grows_step :=
  lazymatch goal with
  | |- grows (if ?c then _ else _) => destruct c
  | |- grows (log _ (if ?c then _ else _)) => destruct c
  | |- grows (log _ _) => apply grows_log; log_type
  | |- grows (ret _) => apply grows_ret
  | |- grows (throw _) => apply grows_throw
  | |- grows (eval _) => apply grows_eval
  | |- grows this => apply grows_this
  | |- grows (call _) => apply grows_call
  | |- grows (call_total _) => apply grows_call_total
  | |- grows (bind _ _) => apply grows_bind; [|intros ?]
  | |- grows (try_catch _ _) => apply grows_try_catch; [|intros ?]
  | |- grows (for_of _ _) => apply grows_for_of; intros ?
  end.

Ltac grows_auto := repeat grows_step.

Ltac total_step :=
  lazymatch goal with
  | |- total (if ?c then _ else _) => destruct c
  | |- total (log _ _) => apply total_log
  | |- total (ret _) => apply total_ret
  | |- total this => apply total_this
  | |- total (call_total _) => apply total_call_total
  | |- total (try_catch _ _) => apply total_try_catch; intros ?
  | |- total (bind _ _) => apply total_bind; [|intros ?]
  | |- total (for_of _ _) => apply total_for_of; intros ?
  end.

Ltac total_auto := repeat total_step.

Lemma testWorkflowFiles_grows : grows testWorkflowFiles.
Proof. unfold testWorkflowFiles. grows_auto. Qed.

Lemma testMCPManagerScript_grows : grows testMCPManagerScript.
Proof. unfold testMCPManagerScript. grows_auto. Qed.

Lemma testStatusReporter_grows : grows testStatusReporter.
Proof. unfold testStatusReporter. grows_auto. Qed.

Lemma testPackageScripts_grows : grows testPackageScripts.
Proof. unfold testPackageScripts. grows_auto. Qed.

Lemma testMCPServerConfig_grows : grows testMCPServerConfig.
Proof. unfold testMCPServerConfig. grows_auto. Qed.

Lemma testDocumentation_grows : grows testDocumentation.
Proof. unfold testDocumentation. grows_auto. Qed.

Lemma testReportDirectory_grows : grows testReportDirectory.
Proof. unfold testReportDirectory. grows_auto. Qed.

Lemma generateTestReport_grows : grows generateTestReport.
Proof. unfold generateTestReport. grows_auto. Qed.

Lemma runChecks_grows : grows runChecks.
Proof.
  unfold runChecks.
  repeat (first [ apply testWorkflowFiles_grows | apply testMCPManagerScript_grows
                | apply testStatusReporter_grows | apply testPackageScripts_grows
                | apply testMCPServerConfig_grows | apply testDocumentation_grows
                | apply testReportDirectory_grows | grows_step ]).
Qed.

Lemma runFullTest_grows : grows runFullTest.
Proof.
  unfold runFullTest.
  repeat (first [ apply runChecks_grows | apply generateTestReport_grows | grows_step ]).
Qed.

Lemma runChecks_total : total runChecks.
Proof.
  unfold runChecks, testWorkflowFiles, testMCPManagerScript, testStatusReporter,
    testPackageScripts, testMCPServerConfig, testDocumentation, testReportDirectory.
  total_auto.
Qed.

Lemma constructor_consistent : consistent constructor.
Proof. by repeat split. Qed.

(** The checks never throw, and leave the counters counting the entries. *)
Lemma before_report_spec (w : W) :
  ∃ t7 w7,
    before_report w = (Returned tt, t7, w7)
    ∧ extends constructor t7
    ∧ consistent t7.
Proof.
  unfold before_report.
  set (m := bind _ _).
  assert (Htotal : total m).
  { unfold m. apply total_bind; [apply total_log|intros _; apply runChecks_total]. }
  assert (Hgrows : grows m).
  { unfold m. apply grows_bind; [apply grows_log; unfold log_types; by repeat constructor|].
    intros _. apply runChecks_grows. }
  specialize (Htotal constructor w). specialize (Hgrows constructor w).
  destruct (m constructor w) as [[[[]|msg] t7] w7]; [|done].
  exists t7, w7. split; [done|]. split; [done|].
  eapply consistent_extends; [apply constructor_consistent|done].
Qed.

(** [runFullTest] is the checks followed by the report and the verdict. *)
Lemma runFullTest_before_report (w : W) t7 w7 :
  before_report w = (Returned tt, t7, w7) →
  runFullTest constructor w
  = bind generateTestReport
      (λ report,
         if String.eqb (status report) "passed"
         then bind (log (nl +:+ "🎉 All MCP workflow integration tests passed!") "pass")
                   (λ _, ret true)
         else bind (log (nl +:+ "⚠️ Some MCP workflow integration tests failed") "warn")
                   (λ _, ret false)) t7 w7.
Proof.
  unfold before_report, runFullTest, bind.
  destruct (log _ "info" constructor w) as [[[[]|msg] t0] w0]; [|done].
  destruct (runChecks t0 w0) as [[[[]|msg] t1] w1]; [|done].
  by intros [= <- <-].
Qed.

(** [generateTestReport], step by step. *)
Lemma generateTestReport_script (t : TestResults) (w : W) :
  let now := fst (Date_toISOString w) in
  let report := make_report now t in
  match fs_writeFile "mcp-workflow-integration-test-results.json"
          (report_document t w) (snd (Date_toISOString w)) with
  | (Thrown msg, w2) => generateTestReport t w = (Thrown msg, t, w2)
  | (Returned _, w2) =>
      ∃ t' w' new,
        generateTestReport t w = (Returned report, t', w')
        ∧ tests t' = (tests t ++ new)%list
        ∧ length new = 6%nat
        ∧ extends t t'
        ∧ (failed t = 0 → compute_score t = 100 → failed t' = 0)
  end.
Proof.
  cbv zeta. unfold report_document.
  pose proof (generateTestReport_grows t w) as Hgrows. revert Hgrows.
  unfold generateTestReport, log, bind, this, call, call_total, assign, ret.
  destruct (Date_toISOString w) as [now w1]. cbn [fst snd].
  destruct (fs_writeFile _ _ w1) as [[[]|msg] w2]; [|done].
  repeat match goal with
         | |- context [Date_toISOString ?w0] => destruct (Date_toISOString w0) as [? ?]
         end.
  intros Hgrows. eexists _, _, _. split; [reflexivity|].
  split; [|split; [|split; [exact Hgrows|]]].
  - cbn [tests push]. rewrite <- !app_assoc. reflexivity.
  - reflexivity.
  - intros Hzero Hscore.
    assert (Hnf : ∀ e t0, type e ≠ "fail" → failed (push e t0) = failed t0).
    { intros e t0 Hne. cbn [failed push].
      destruct (String.eqb_spec (type e) "fail"); [done|cbn; lia]. }
    rewrite Hscore.
    rewrite Hnf by (cbn; done).
    rewrite Hnf by (cbn [type]; by match goal with |- (if ?c then _ else _) ≠ _ => destruct c end).
    match goal with
    | |- failed (push _ ?t3) = 0 => assert (H3 : failed t3 = 0)
    end.
    { rewrite Hnf by (cbn [type]; by match goal with |- (if ?c then _ else _) ≠ _ => destruct c end).
      rewrite !Hnf by done. done. }
    rewrite Hnf by (cbn [type]; rewrite H3; done).
    exact H3.
Qed.

(** One call of [log]. *)
Lemma log_run message_ type_ (t : TestResults) (w : W) :
  log message_ type_ t w
  = (Returned tt,
     push {| message := message_; type := type_;
             timestamp := fst (Date_toISOString w) |} t,
     snd (Date_toISOString w)).
Proof.
  unfold log, bind, call_total, assign. by destruct (Date_toISOString w).
Qed.

(** [runFullTest], step by step. *)
Lemma runFullTest_cases (w : W) t7 w7 :
  before_report w = (Returned tt, t7, w7) →
  match fs_writeFile "mcp-workflow-integration-test-results.json"
          (report_document t7 w7) (snd (Date_toISOString w7)) with
  | (Thrown msg, w8) => runFullTest constructor w = (Thrown msg, t7, w8)
  | (Returned _, _) =>
      ∃ t' w',
        runFullTest constructor w = (Returned (failed t7 =? 0), t', w')
        ∧ extends t7 t'
        ∧ (failed t7 = 0 → compute_score t7 = 100 → failed t' = 0)
  end.
Proof.
  intros E. rewrite (runFullTest_before_report w t7 w7 E).
  pose proof (generateTestReport_script t7 w7) as Hscript. cbv zeta in Hscript.
  destruct (fs_writeFile _ _ _) as [[[]|msg] w8].
  - destruct Hscript as (t' & w' & new & Egen & _ & _ & Hext & Hfailed).
    unfold bind at 1. rewrite Egen. cbn [status make_report].
    destruct (Z.eqb_spec (failed t7) 0) as [Hzero|Hne];
      cbn [String.eqb Ascii.eqb Bool.eqb];
      unfold bind at 1; rewrite log_run; unfold ret.
    + eexists _, _. split; [reflexivity|]. split.
      * eapply extends_trans; [exact Hext|]. apply extends_push.
        unfold log_types. by repeat constructor.
      * intros _ Hscore. cbn [failed push type String.eqb Ascii.eqb Bool.eqb b2z].
        rewrite (Hfailed Hzero Hscore). reflexivity.
    + eexists _, _. split; [reflexivity|]. split; [|done].
      eapply extends_trans; [exact Hext|]. apply extends_push.
      unfold log_types. by repeat constructor.
  - unfold bind at 1. by rewrite Hscript.
Qed.

Lemma has_passed_extends message_ t t' :
  extends t t' → has_passed message_ t → has_passed message_ t'.
Proof.
  intros (new & E & _) (e & He & Hty & Hmsg). exists e.
  rewrite E, elem_of_app. auto.
Qed.

Lemma has_passed_push message_ now t :
  has_passed message_ (push {| message := message_; type := "pass"; timestamp := now |} t).
Proof.
  eexists. cbn [tests push]. rewrite elem_of_app, list_elem_of_singleton. eauto.
Qed.


Lemma checks_nil {A} (m : Js W A) : checks m [].
Proof.
  intros t w. destruct (m t w) as [[[a|msg] t'] w']; [|done]. right. constructor.
Qed.

Lemma checks_log_pass message_ : checks (log message_ "pass") [message_].
Proof.
  intros t w. unfold log, bind, call_total, assign.
  destruct (Date_toISOString w) as [now w']. right.
  constructor; [apply has_passed_push|constructor].
Qed.

Lemma checks_log_fail message_ messages : checks (log message_ "fail") messages.
Proof.
  intros t w. unfold log, bind, call_total, assign.
  destruct (Date_toISOString w) as [now w']. left. cbn. lia.
Qed.

(** What was checked stays checked. *)
Lemma checks_bind_l {A B} (m : Js W A) (k : A → Js W B) messages :
  checks m messages → (∀ a, grows (k a)) → checks (bind m k) messages.
Proof.
  intros Hm Hk t w. unfold bind. specialize (Hm t w).
  destruct (m t w) as [[[a|msg] t1] w1]; [|done].
  specialize (Hk a t1 w1).
  destruct (k a t1 w1) as [[[b|msg] t2] w2]; [|done]. cbn [fst snd] in Hk.
  destruct (extends_monotone _ _ Hk) as (_ & Hf & _).
  destruct Hm as [Hm|Hm]; [left; lia|right].
  eapply Forall_impl; [exact Hm|]. intros message_. by apply has_passed_extends.
Qed.

Lemma checks_bind_r {A B} (m : Js W A) (k : A → Js W B) messages :
  grows m → (∀ a, checks (k a) messages) → checks (bind m k) messages.
Proof.
  intros Hm Hk t w. unfold bind. specialize (Hm t w).
  destruct (m t w) as [[[a|msg] t1] w1]; [|done]. cbn [fst snd] in Hm.
  specialize (Hk a t1 w1).
  destruct (k a t1 w1) as [[[b|msg] t2] w2]; [|done].
  destruct (extends_monotone _ _ Hm) as (_ & Hf & _).
  destruct Hk as [Hk|Hk]; [left; lia|by right].
Qed.

Lemma checks_seq {A B} (m : Js W A) (k : A → Js W B) messages1 messages2 :
  grows m → checks m messages1 → (∀ a, grows (k a)) → (∀ a, checks (k a) messages2) →
  checks (bind m k) (messages1 ++ messages2).
Proof.
  intros Gm Cm Gk Ck t w.
  pose proof (checks_bind_l m k messages1 Cm Gk t w) as H1.
  pose proof (checks_bind_r m k messages2 Gm Ck t w) as H2.
  destruct (bind m k t w) as [[[b|msg] t2] w2]; [|done].
  destruct H1 as [H1|H1]; [by left|]. destruct H2 as [H2|H2]; [by left|].
  right. by apply Forall_app.
Qed.

Lemma checks_for_of {X} (xs : list X) (body : X → Js W unit) (f : X → string) :
  (∀ x, grows (body x)) → (∀ x, checks (body x) [f x]) →
  checks (for_of xs body) (f <$> xs).
Proof.
  intros Gb Cb. induction xs as [|x xs IH]; cbn [for_of].
  - rewrite fmap_nil. apply checks_nil.
  - rewrite fmap_cons. apply (checks_seq _ _ [f x] (f <$> xs)); auto.
    intros _. by apply grows_for_of.
Qed.

(** A handler that logs a failure. *)
Lemma checks_try_catch {A} (body : Js W A) (handler : string → Js W A) messages :
  grows body → checks body messages →
  (∀ msg t w, failed t < failed (snd (fst (handler msg t w)))) →
  checks (try_catch body handler) messages.
Proof.
  intros Gb Cb Hh t w. unfold try_catch. specialize (Gb t w). specialize (Cb t w).
  destruct (body t w) as [[[a|msg] t1] w1]; [done|]. cbn [fst snd] in Gb.
  specialize (Hh msg t1 w1).
  destruct (handler msg t1 w1) as [[[a|msg'] t2] w2]; [|done]. cbn [fst snd] in Hh.
  destruct (extends_monotone _ _ Gb) as (_ & Hf & _). left. lia.
Qed.

Lemma log_fail_fails message_ t (w : W) :
  failed t < failed (snd (fst (log message_ "fail" t w))).
Proof.
  unfold log, bind, call_total, assign.
  destruct (Date_toISOString w) as [now w']. cbn. lia.
Qed.

Lemma testWorkflowFiles_checks : checks testWorkflowFiles workflow_messages.
Proof.
  unfold testWorkflowFiles, workflow_messages.
  apply checks_bind_r; [grows_auto|intros _].
  apply checks_try_catch; [grows_auto| |intros; apply log_fail_fails].
  apply checks_bind_r; [grows_auto|intros files].
  apply (checks_for_of _ _ (λ workflow, "Workflow " +:+ workflow +:+ " has proper triggers"));
    [intros; grows_auto|intros workflow].
  destruct (list_includes files workflow); [|apply checks_log_fail].
  apply checks_bind_r; [grows_auto|intros _].
  apply checks_bind_r; [grows_auto|intros content].
  apply checks_bind_r; [grows_auto|intros _].
  destruct (includes content "on:"); [apply checks_log_pass|apply checks_log_fail].
Qed.

Lemma testMCPManagerScript_checks : checks testMCPManagerScript export_messages.
Proof.
  unfold testMCPManagerScript, export_messages.
  apply checks_bind_r; [grows_auto|intros _].
  apply checks_try_catch; [grows_auto| |intros; apply log_fail_fails].
  apply checks_bind_r; [grows_auto|intros _].
  apply checks_bind_r; [grows_auto|intros _].
  apply checks_bind_r; [grows_auto|intros mcpManager].
  apply checks_bind_l; [|intros; grows_auto].
  apply (checks_for_of _ _ (λ exportName, "MCP Manager exports " +:+ exportName));
    [intros; grows_auto|intros exportName].
  apply checks_bind_r; [grows_auto|intros [|]];
    [apply checks_log_pass|apply checks_log_fail].
Qed.

Lemma testStatusReporter_checks :
  checks testStatusReporter ["MCP Status Reporter can be instantiated"].
Proof.
  unfold testStatusReporter.
  apply checks_bind_r; [grows_auto|intros _].
  apply checks_try_catch; [grows_auto| |intros; apply log_fail_fails].
  apply checks_bind_r; [grows_auto|intros _].
  apply checks_bind_r; [grows_auto|intros _].
  apply checks_bind_r; [grows_auto|intros [|]]; [|apply checks_log_fail].
  apply checks_bind_r; [grows_auto|intros _].
  apply checks_bind_r; [grows_auto|intros [|]];
    [apply checks_log_pass|apply checks_log_fail].
Qed.

Lemma testPackageScripts_checks : checks testPackageScripts script_messages.
Proof.
  unfold testPackageScripts, script_messages.
  apply checks_bind_r; [grows_auto|intros _].
  apply checks_try_catch; [grows_auto| |intros; apply log_fail_fails].
  apply checks_bind_r; [grows_auto|intros text].
  apply checks_bind_r; [grows_auto|intros packageData].
  apply checks_bind_r; [grows_auto|intros packageData_scripts].
  apply checks_bind_l; [|intros; grows_auto].
  apply (checks_for_of _ _ (λ script, "Package script " +:+ script +:+ " configured"));
    [intros; grows_auto|intros script].
  apply checks_bind_r; [grows_auto|intros entry].
  destruct (truthy entry); [apply checks_log_pass|apply checks_log_fail].
Qed.

(** The seven checks together. *)
Lemma runChecks_checks : checks runChecks passing_messages.
Proof.
  unfold runChecks, passing_messages.
  apply checks_seq;
    [apply testWorkflowFiles_grows|apply testWorkflowFiles_checks|intros _..].
  { repeat (first [ apply testMCPManagerScript_grows | apply testStatusReporter_grows
                  | apply testPackageScripts_grows | apply testMCPServerConfig_grows
                  | apply testDocumentation_grows | apply testReportDirectory_grows
                  | grows_step ]). }
  apply checks_seq;
    [apply testMCPManagerScript_grows|apply testMCPManagerScript_checks|intros _..].
  { repeat (first [ apply testStatusReporter_grows
                  | apply testPackageScripts_grows | apply testMCPServerConfig_grows
                  | apply testDocumentation_grows | apply testReportDirectory_grows
                  | grows_step ]). }
  apply checks_seq;
    [apply testStatusReporter_grows|apply testStatusReporter_checks|intros _..].
  { repeat (first [ apply testPackageScripts_grows | apply testMCPServerConfig_grows
                  | apply testDocumentation_grows | apply testReportDirectory_grows
                  | grows_step ]). }
  apply checks_bind_l; [apply testPackageScripts_checks|intros _].
  repeat (first [ apply testMCPServerConfig_grows
                | apply testDocumentation_grows | apply testReportDirectory_grows
                | grows_step ]).
Qed.

Lemma count_type_elem ty (e : TestEntry) (l : list TestEntry) :
  e ∈ l → type e = ty → 1 ≤ count_type ty l.
Proof.
  intros Hin Hty. apply list_elem_of_split in Hin as (l1 & l2 & ->).
  rewrite count_type_app. change (e :: l2) with ([e] ++ l2)%list.
  rewrite count_type_app, count_type_singleton.
  pose proof (count_type_nonneg ty l1). pose proof (count_type_nonneg ty l2).
  replace (String.eqb (type e) ty) with true by (symmetry; by apply String.eqb_eq).
  cbn. lia.
Qed.


(** The score of a tester whose counters count entries. *)
Lemma compute_score_range (t : TestResults) :
  consistent t → passed t + failed t < 2 ^ 53 → 0 ≤ compute_score t ≤ 100.
Proof.
  intros (P & F & _) Hbig.
  pose proof (count_type_nonneg "pass" (tests t)).
  pose proof (count_type_nonneg "fail" (tests t)).
  unfold compute_score. cbv zeta.
  destruct (Z.ltb_spec 0 (passed t + failed t)); [|lia].
  apply round_small, mul_100_small, div_small; lia.
Qed.

Lemma compute_score_all_passed (t : TestResults) :
  failed t = 0 → 0 < passed t < 2 ^ 53 → compute_score t = 100.
Proof.
  intros F P. unfold compute_score. cbv zeta. rewrite F, Z.add_0_r.
  apply (score_of_all (passed t)). lia.
Qed.

(** The state in which the report is generated, and what it guarantees. *)
Lemma before_report_checked (w : W) :
  ∃ t7 w7,
    before_report w = (Returned tt, t7, w7)
    ∧ consistent t7
    ∧ Forall (λ e, type e ∈ log_types) (tests t7)
    ∧ (failed t7 = 0 →
       Forall (λ message_, has_passed message_ t7) passing_messages ∧ 0 < passed t7).
Proof.
  destruct (before_report_spec w) as (t7 & w7 & E & Hext & Hcons).
  exists t7, w7. split; [done|]. split; [done|]. split.
  { destruct Hext as (new & Hnew & _ & _ & _ & Hty). by rewrite Hnew. }
  intros Hfailed.
  assert (Hchecks : checks (bind (log "🎵 Starting MCP Workflow Integration Tests for EchoTune AI..." "info")
                                 (λ _, runChecks)) passing_messages).
  { apply checks_bind_r; [|intros _; apply runChecks_checks].
    apply grows_log. unfold log_types. by repeat constructor. }
  specialize (Hchecks constructor w). unfold before_report in E. rewrite E in Hchecks.
  destruct Hchecks as [Hlt|Hall]; [cbn in Hlt; lia|]. split; [done|].
  apply Forall_cons in Hall as [(e & He & Hty & _) _].
  destruct Hcons as (-> & _). pose proof (count_type_elem "pass" e _ He Hty). lia.
Qed.

(** X10. At the end of every run of the tester's command line the three
    counters are the numbers of logged entries of type pass, fail and warn;
    every entry has one of the four types; and what was logged before the
    report is still there, in order. *)
Theorem counters_count_logged_entries (w : W) :
  let t := snd (fst (main w)) in
  consistent t
  ∧ Forall (λ e, type e ∈ log_types) (tests t)
  ∧ tests (snd (fst (before_report w))) `prefix_of` tests t.
Proof.
  cbv zeta.
  assert (Hmain : snd (fst (main w)) = snd (fst (runFullTest constructor w))).
  { unfold main. by destruct (runFullTest constructor w) as [[[[]|msg] t] w']. }
  rewrite Hmain.
  pose proof (runFullTest_grows constructor w) as Hext.
  split; [eapply consistent_extends; [apply constructor_consistent|done]|].
  split.
  { destruct Hext as (new & Hnew & _ & _ & _ & Hty). by rewrite Hnew. }
  destruct (before_report_spec w) as (t7 & w7 & E & _ & _).
  rewrite (runFullTest_before_report w t7 w7 E), E. cbn [fst snd].
  assert (Hrest : grows (bind generateTestReport
            (λ report,
               if String.eqb (status report) "passed"
               then bind (log (nl +:+ "🎉 All MCP workflow integration tests passed!") "pass")
                         (λ _, ret true)
               else bind (log (nl +:+ "⚠️ Some MCP workflow integration tests failed") "warn")
                         (λ _, ret false)))).
  { apply grows_bind; [apply generateTestReport_grows|intros report].
    destruct (String.eqb _ _);
      (apply grows_bind; [apply grows_log; unfold log_types; by repeat constructor|]);
      intros _; apply grows_ret. }
  by destruct (extends_monotone _ _ (Hrest t7 w7)) as (_ & _ & _ & Hprefix).
Qed.

(** X11. The checks of [runFullTest] never throw.  If the results file is
    written, [runFullTest] returns true exactly when no failure was logged
    before the report, and the exit code is 0 then and 1 otherwise; warnings
    do not count.  If writing the file throws, [runFullTest] throws the same
    error, nothing more is logged and the exit code is 1. *)
Theorem verdict_reflects_failed_checks (w : W) :
  ∃ t7 w7,
    before_report w = (Returned tt, t7, w7)
    ∧ failed t7 = count_type "fail" (tests t7)
    ∧ match fs_writeFile "mcp-workflow-integration-test-results.json"
              (report_document t7 w7) (snd (Date_toISOString w7)) with
      | (Returned _, _) =>
          fst (fst (runFullTest constructor w)) = Returned (failed t7 =? 0)
          ∧ fst (fst (main w)) = (if failed t7 =? 0 then 0 else 1)
      | (Thrown msg, _) =>
          fst (fst (runFullTest constructor w)) = Thrown msg
          ∧ fst (fst (main w)) = 1
          ∧ snd (fst (main w)) = t7
      end.
Proof.
  destruct (before_report_spec w) as (t7 & w7 & E & _ & (_ & Hfailed & _)).
  exists t7, w7. split; [done|]. split; [done|].
  pose proof (runFullTest_cases w t7 w7 E) as Hcases. unfold main.
  destruct (fs_writeFile _ _ _) as [[[]|msg] w8].
  - destruct Hcases as (t' & w' & -> & _). cbn [fst snd]. split; [done|].
    by destruct (failed t7 =? 0).
  - rewrite Hcases. done.
Qed.

(** X12. The results document that [runFullTest] hands to [fs.writeFile]
    is consistent: [total_tests] is the number of its tests, the three
    counters are the numbers of its tests of each type, the status is passed
    exactly when it counts no failure and failed otherwise, the score is
    between 0 and 100, and a passed document has score 100 (the counters
    being exact doubles). *)
Theorem saved_report_is_consistent (w : W) :
  let t7 := snd (fst (before_report w)) in
  let doc := report_document t7 (snd (before_report w)) in
  let s := document_summary doc in
  total_tests s = Z.of_nat (length (document_tests doc))
  ∧ summary_passed s = count_type "pass" (document_tests doc)
  ∧ summary_failed s = count_type "fail" (document_tests doc)
  ∧ summary_warnings s = count_type "warn" (document_tests doc)
  ∧ (document_status doc = "passed" ↔ summary_failed s = 0)
  ∧ (document_status doc = "failed" ↔ summary_failed s ≠ 0)
  ∧ (summary_passed s + summary_failed s < 2 ^ 53 →
     0 ≤ score s ≤ 100 ∧ (document_status doc = "passed" → score s = 100)).
Proof.
  cbv zeta.
  destruct (before_report_checked w) as (t7 & w7 & E & Hcons & _ & Hpassed).
  rewrite E. cbn [fst snd].
  unfold report_document, JSON_stringify, make_report.
  cbn [document_summary document_tests document_status report_timestamp summary
       report_tests status elements total_tests summary_passed summary_failed
       summary_warnings score].
  destruct Hcons as (HP & HF & HW).
  split; [done|]. split; [done|]. split; [done|]. split; [done|].
  assert (Hstatus : (if failed t7 =? 0 then "passed" else "failed") = "passed"
                    ↔ failed t7 = 0).
  { destruct (Z.eqb_spec (failed t7) 0); split; done. }
  assert (Hstatus' : (if failed t7 =? 0 then "passed" else "failed") = "failed"
                     ↔ failed t7 ≠ 0).
  { destruct (Z.eqb_spec (failed t7) 0); split; done. }
  split; [done|]. split; [done|].
  intros Hbig. split.
  - apply compute_score_range; [by repeat split|done].
  - rewrite Hstatus. intros Hzero. destruct (Hpassed Hzero) as [_ Hpos].
    apply compute_score_all_passed; lia.
Qed.

(** X13. The report object that [generateTestReport] returns carries the
    summary that was written to the file, but its [tests] property is the
    tester's own array: on return it holds six entries more than
    [summary.total_tests] says, and the tester's counters may have moved past
    those of the summary. *)
Theorem returned_report_shares_tests (t : TestResults) (w : W)
    (report : TestReport) (t' : TestResults) (w' : W) :
  generateTestReport t w = (Returned report, t', w') →
  summary report = document_summary (report_document t w)
  ∧ document_tests (report_document t w) = tests t
  ∧ total_tests (summary report) = Z.of_nat (length (tests t))
  ∧ Z.of_nat (length (elements (report_tests report) t'))
    = total_tests (summary report) + 6
  ∧ summary_passed (summary report) ≤ passed t'
  ∧ summary_failed (summary report) ≤ failed t'
  ∧ summary_warnings (summary report) ≤ warnings t'.
Proof.
  intros Egen.
  pose proof (generateTestReport_script t w) as Hscript. cbv zeta in Hscript.
  destruct (fs_writeFile _ _ _) as [[[]|msg] w2]; [|congruence].
  destruct Hscript as (t2 & w3 & new & Egen' & Htests & Hlen & Hext & _).
  rewrite Egen in Egen'. injection Egen' as -> -> ->.
  destruct (extends_monotone _ _ Hext) as (Hp & Hf & Hw & _).
  unfold report_document, JSON_stringify, make_report.
  cbn [document_summary document_tests summary report_tests elements total_tests
       summary_passed summary_failed summary_warnings].
  rewrite Htests, length_app, Hlen. repeat split; lia.
Qed.

(** X14. An exit code of 0 certifies every required item: each required
    workflow was logged as having proper triggers, each required export of the
    MCP manager and each required package script as present, and the status
    reporter as instantiable; and no failure is logged at all, the summary
    lines included (the counter being an exact double). *)
Theorem passing_run_has_checked (w : W) :
  fst (fst (main w)) = 0 →
  let t := snd (fst (main w)) in
  Forall (λ message_, has_passed message_ t) passing_messages
  ∧ (passed t < 2 ^ 53 → failed t = 0).
Proof.
  intros Hcode. cbv zeta.
  destruct (before_report_checked w) as (t7 & w7 & E & Hcons & _ & Hpassed).
  pose proof (runFullTest_cases w t7 w7 E) as Hcases.
  revert Hcode. unfold main.
  destruct (fs_writeFile _ _ _) as [[[]|msg] w8]; [|by rewrite Hcases].
  destruct Hcases as (t' & w' & -> & Hext & Hfailed). cbn [fst snd].
  destruct (Z.eqb_spec (failed t7) 0) as [Hzero|Hne]; [|done]. intros _.
  destruct (Hpassed Hzero) as [Hall Hpos].
  split.
  - eapply Forall_impl; [exact Hall|]. intros message_. by apply has_passed_extends.
  - intros Hbig. destruct (extends_monotone _ _ Hext) as (Hp & _).
    apply Hfailed; [done|]. apply compute_score_all_passed; lia.
Qed.

Lemma spares_ret {A} (a : A) : spares (W := W) (ret a).
Proof. by intros t w. Qed.

Lemma spares_eval {A} (o : Outcome A) : spares (W := W) (eval o).
Proof. by intros t w. Qed.

Lemma spares_call {A} (f : W → Outcome A * W) : spares (call f).
Proof. intros t w. unfold call. by destruct (f w). Qed.

Lemma spares_bind {A B} (m : Js W A) (k : A → Js W B) :
  spares m → (∀ a, spares (k a)) → spares (bind m k).
Proof.
  intros Hm Hk t w. unfold bind. specialize (Hm t w).
  destruct (m t w) as [[[a|msg] t'] w']; [|done].
  rewrite <- Hm. apply Hk.
Qed.

Lemma spares_try_catch {A} (body : Js W A) (handler : string → Js W A) :
  spares body → (∀ msg, spares (handler msg)) → spares (try_catch body handler).
Proof.
  intros Hm Hk t w. unfold try_catch. specialize (Hm t w).
  destruct (body t w) as [[[a|msg] t'] w']; [done|].
  rewrite <- Hm. apply Hk.
Qed.

Lemma spares_for_of {X} (xs : list X) (body : X → Js W unit) :
  (∀ x, spares (body x)) → spares (for_of xs body).
Proof.
  intros Hbody. induction xs as [|x xs IH]; cbn [for_of].
  - apply spares_ret.
  - apply spares_bind; [apply Hbody|intros _; apply IH].
Qed.

Lemma spares_log message_ type_ : type_ ≠ "fail" → spares (log message_ type_).
Proof.
  intros Hne t w. rewrite log_run. cbn [fst snd failed push type].
  destruct (String.eqb_spec type_ "fail"); [done|cbn; lia].
Qed.

Ltac spares_step :=
  lazymatch goal with
  | |- spares (if ?c then _ else _) => destruct c
  | |- spares (log _ _) => apply spares_log; done
  | |- spares (ret _) => apply spares_ret
  | |- spares (eval _) => apply spares_eval
  | |- spares (call _) => apply spares_call
  | |- spares (bind _ _) => apply spares_bind; [|intros ?]
  | |- spares (try_catch _ _) => apply spares_try_catch; [|intros ?]
  | |- spares (for_of _ _) => apply spares_for_of; intros ?
  end.

(** X15. The checks of the MCP server configuration, of the documentation
    and of the report directory never throw and never log a failure, whatever
    the host answers: they only append entries, and cannot change the
    verdict. *)
Theorem last_three_checks_only_warn (t : TestResults) (w : W) :
  let run := bind testMCPServerConfig
               (λ _, bind testDocumentation (λ _, testReportDirectory)) t w in
  fst (fst run) = Returned tt
  ∧ failed (snd (fst run)) = failed t
  ∧ extends t (snd (fst run)).
Proof.
  cbv zeta.
  set (m := bind _ _).
  assert (Htotal : total m).
  { unfold m, testMCPServerConfig, testDocumentation, testReportDirectory.
    repeat total_step. }
  assert (Hspares : spares m).
  { unfold m, testMCPServerConfig, testDocumentation, testReportDirectory.
    repeat spares_step. }
  assert (Hgrows : grows m).
  { unfold m. apply grows_bind; [apply testMCPServerConfig_grows|intros _].
    apply grows_bind; [apply testDocumentation_grows|intros _].
    apply testReportDirectory_grows. }
  specialize (Htotal t w). specialize (Hspares t w). specialize (Hgrows t w).
  destruct (m t w) as [[[[]|msg] t'] w']; done.
Qed.

End Tester.

(** ** The further properties on concrete runs *)

(** The registry cannot be loaded: exit code 1 after the one write. *)
Lemma uncollected_section_aborts_report_witness :
  uncollected (results (snd (fst (main (H := Traced_host) (broken_world, [])))))
  ∧ fst (fst (main (H := Traced_host) (broken_world, []))) = 1
  ∧ (length (snd (snd (main (H := Traced_host) (broken_world, [])))) ≤ 1)%nat.
Proof.
  assert (Hun : uncollected (results (snd (fst (main (H := Traced_host)
                                                    (broken_world, []))))))
    by (left; eexists; vm_compute; reflexivity).
  split; [exact Hun|].
  destruct (uncollected_section_aborts_report broken_world Hun) as (Hcode & Hlen & _).
  split; [exact Hcode|exact Hlen].
Defined.

(** The bare machine reports the status warning: four warnings, one for
    each section that could not be collected or was slow. *)
Lemma warnings_account_for_sections_witness :
  let r := finalized (W := NoShell Sim) run_now None bare_world in
  overall_status (summary r) = "warning"
  ∧ warnings (summary r) = 4
  ∧ health_score (summary r) = 100
  ∧ system_info r = None.
Proof.
  cbv zeta.
  assert (Hstatus : overall_status (summary (finalized (W := NoShell Sim)
                      run_now None bare_world)) = "warning")
    by (vm_compute; reflexivity).
  split; [exact Hstatus|].
  destruct (warnings_account_for_sections (W := NoShell Sim) run_now None bare_world)
    as (_ & _ & Hwarning).
  destruct (Hwarning Hstatus) as (H4 & _ & Hinfo & _).
  split; [exact H4|]. split; [vm_compute; reflexivity|exact Hinfo].
Defined.

(** Three healthy servers of ten: a minority, critical and not degraded. *)
Lemma degraded_only_without_servers_witness :
  let s := summary (finalized run_now None ten_world) in
  total_servers s < 2 ^ 53
  ∧ (overall_status s = "critical" ↔ 2 * healthy_servers s < total_servers s)
  ∧ (overall_status s = "degraded" ↔ total_servers s = 0).
Proof.
  cbv zeta.
  assert (Hbig : total_servers (summary (finalized run_now None ten_world)) < 2 ^ 53)
    by (vm_compute; reflexivity).
  split; [exact Hbig|].
  destruct (degraded_only_without_servers run_now None ten_world Hbig) as (H1 & H2 & _).
  split; [exact H1|exact H2].
Defined.

(** Ten healthy servers of ten. *)
Lemma fully_healthy_fleet_scores_100_witness :
  let s := summary (finalized run_now None healthy_world) in
  (0 < total_servers s < 2 ^ 53 ∧ healthy_servers s = total_servers s)
  ∧ health_score s = 100 ∧ overall_status s = "healthy".
Proof.
  cbv zeta.
  assert (Hbig : 0 < total_servers (summary (finalized run_now None healthy_world)) < 2 ^ 53)
    by (split; vm_compute; reflexivity).
  assert (Hall : healthy_servers (summary (finalized run_now None healthy_world))
                 = total_servers (summary (finalized run_now None healthy_world)))
    by (vm_compute; reflexivity).
  split; [by split|].
  destruct (fully_healthy_fleet_scores_100 run_now None healthy_world Hbig Hall)
    as (Hscore & _ & Hstatus).
  split; [exact Hscore|]. rewrite Hstatus. vm_compute. reflexivity.
Defined.

(** The report directory cannot be created: exit code 1, nothing written. *)
Lemma initialize_failure_is_fatal_witness :
  returned (fst (fst (initialize (H := Traced_host)
                        (constructor (fst (Date_toISOString no_directory_world)))
                        (snd (Date_toISOString no_directory_world), [])))) = false
  ∧ fst (fst (main (H := Traced_host) (no_directory_world, []))) = 1
  ∧ snd (snd (main (H := Traced_host) (no_directory_world, []))) = [].
Proof.
  assert (Hinit : returned (fst (fst (initialize (H := Traced_host)
                    (constructor (fst (Date_toISOString no_directory_world)))
                    (snd (Date_toISOString no_directory_world), [])))) = false)
    by (vm_compute; reflexivity).
  split; [exact Hinit|].
  destruct (initialize_failure_is_fatal no_directory_world Hinit) as (Hcode & Hlog & _).
  split; [exact Hcode|exact Hlog].
Defined.

(** The terse summary of the ten-server run. *)
Lemma summary_counts_read_back_witness :
  let r := finalized run_now None ten_world in
  (timestamp_like run_now = true ∧ overall_status (summary r) ∈ assigned_statuses)
  ∧ read_field "SERVERS: " (renderSummary run_now r) = Some "3/10 healthy"
  ∧ read_field "WARNINGS: " (renderSummary run_now r) = Some "0".
Proof.
  cbv zeta.
  assert (Hnow : timestamp_like run_now = true) by (vm_compute; reflexivity).
  assert (Hcritical : overall_status (summary (finalized run_now None ten_world))
                      = "critical") by (vm_compute; reflexivity).
  assert (Hstatus : overall_status (summary (finalized run_now None ten_world))
                    ∈ assigned_statuses)
    by (rewrite Hcritical; unfold assigned_statuses; by repeat constructor).
  split; [by split|].
  destruct (summary_counts_read_back run_now (finalized run_now None ten_world)
              Hnow Hstatus) as (Hservers & Hwarnings & _).
  split.
  - rewrite Hservers. vm_compute. reflexivity.
  - rewrite Hwarnings. vm_compute. reflexivity.
Defined.

Section TesterWitnesses.

Import WorkflowTester.

(** A report generated by a tester that has run no check: the status is
    passed with a score of 0, and the score line is logged as a failure. *)
Lemma returned_report_shares_tests_witness :
  let run := generateTestReport constructor complete_world in
  let report := make_report "2025-01-01T00:00:00.000Z" constructor in
  run = (Returned report, snd (fst run), snd run)
  ∧ total_tests (summary report) = 0
  ∧ length (elements (report_tests report) (snd (fst run))) = 6%nat
  ∧ status report = "passed"
  ∧ failed (snd (fst run)) = 1.
Proof.
  cbv zeta.
  assert (Hrun : generateTestReport constructor complete_world
                 = (Returned (make_report "2025-01-01T00:00:00.000Z" constructor),
                    snd (fst (generateTestReport constructor complete_world)),
                    snd (generateTestReport constructor complete_world)))
    by (vm_compute; reflexivity).
  split; [exact Hrun|].
  destruct (returned_report_shares_tests _ _ _ _ _ Hrun) as (_ & _ & Htotal & Hlen & _).
  split; [exact Htotal|]. split; [|split; vm_compute; reflexivity].
  rewrite Htotal in Hlen. cbn [length tests constructor] in Hlen. lia.
Defined.

(** The complete repository passes: exit code 0, every check logged as
    passed and no failure at all. *)
Lemma passing_run_has_checked_witness :
  fst (fst (main complete_world)) = 0
  ∧ Forall (λ message_, has_passed message_ (snd (fst (main complete_world))))
      passing_messages
  ∧ failed (snd (fst (main complete_world))) = 0.
Proof.
  assert (Hcode : fst (fst (main complete_world)) = 0) by (vm_compute; reflexivity).
  split; [exact Hcode|].
  destruct (passing_run_has_checked complete_world Hcode) as (Hall & Hfailed).
  split; [exact Hall|]. apply Hfailed. vm_compute. reflexivity.
Defined.

End TesterWitnesses.
